(** * scaffold-command: the prompt layer, the generator client and the
      archive extraction of [cmd/scaffold.go] and [pkg/ui/ui.go]

    The Go program is sequential glue around four collaborators: the
    terminal (package survey), the network (package net/http), the file
    system (package os) and the process itself (os.Exit, log.Fatal, a nil
    dereference).  Each of them is a field of [World]; a Go function
    becomes a [Proc], a state-passing computation that either returns,
    leaves the process with an exit status, or panics. *)

From Stdlib Require Import String Ascii List ZArith Lia Bool.
From Stdlib Require Import Sorting.Sorted Sorting.Permutation.
From stdpp Require Import base option list gmap strings sorting pretty.

Import ListNotations.
Local Open Scope string_scope.
Local Open Scope Z_scope.

(** ** Strings as Go has them: byte sequences *)

Module GoStrings.

(** [strings.Join] *)
Fixpoint Join (elems : list string) (sep : string) : string :=
  match elems with
  | [] => ""
  | [e] => e
  | e :: rest => e +:+ sep +:+ Join rest sep
  end.

(** [strings.HasPrefix] *)
Fixpoint HasPrefix (s p : string) : bool :=
  match p, s with
  | EmptyString, _ => true
  | String c p', String d s' => if Ascii.eqb c d then HasPrefix s' p' else false
  | String _ _, EmptyString => false
  end.

(** [strings.Contains]: some suffix of [s] starts with [sub]. *)
Fixpoint Contains (s sub : string) : bool :=
  HasPrefix s sub ||
  match s with
  | EmptyString => false
  | String _ s' => Contains s' sub
  end.

(** The pieces of [s] between the occurrences of the byte [sep]; a
    string with n separators has n+1 pieces, some of them empty. *)
Fixpoint split_on (sep : ascii) (s : string) : list string :=
  match s with
  | EmptyString => [""]
  | String c s' =>
      if Ascii.eqb c sep then "" :: split_on sep s'
      else match split_on sep s' with
           | [] => [String c ""]
           | p :: ps => String c p :: ps
           end
  end.

(** [strings.LastIndex(s, sep)] for a one-byte separator, counted from
    the position [i] of the first byte of [s]; [None] is Go's -1. *)
Fixpoint last_index_from (i : nat) (sep : ascii) (s : string) : option nat :=
  match s with
  | EmptyString => None
  | String c s' =>
      match last_index_from (S i) sep s' with
      | Some j => Some j
      | None => if Ascii.eqb c sep then Some i else None
      end
  end.

Definition LastIndex (s : string) (sep : ascii) : option nat :=
  last_index_from 0 sep s.

(** The slice [s[:n]] *)
Definition slice_to (s : string) (n : nat) : string := substring 0 n s.

(** [sort.Strings]: increasing byte-wise order.  The algorithm Go runs is
    its own; the list it leaves is the sorted permutation, which for a
    total order on strings is the one [merge_sort] computes. *)
Definition sort_Strings (l : list string) : list string :=
  merge_sort String.le l.

End GoStrings.

(** ** The process and its world *)

(** What the terminal hands back to one [survey.AskOne]. *)
Inductive Answer :=
| ABool (b : bool)
| AText (s : string)
| AList (l : list string).

(** The error values of a prompt, as [HandleError] tells them apart. *)
Inductive PromptError :=
| InterruptErr                 (* terminal.InterruptErr: ctrl-c *)
| OtherErr (msg : string).     (* any other error value *)

Inductive Reply :=
| Answered (a : Answer)
| Failed (err : PromptError).

Inductive PromptKind := KConfirm | KSelect | KMultiSelect | KInput.

(** The fields of survey.Confirm, survey.Select, survey.MultiSelect and
    survey.Input that the program sets. *)
Record Prompt := {
  Kind : PromptKind;
  Message : string;
  Options : list string;
  Default : option string
}.

(** What one HTTP exchange does: [http.NewRequest], [client.Do] and
    [ioutil.ReadAll] each succeed or give an error. *)
Inductive HttpReply :=
| NewRequestErr (msg : string)
| DoErr (msg : string)
| ReadErr (partial : string) (msg : string)
| Body (b : string).

(** A node of the file system: a directory or a regular file, with its
    permission bits. *)
Inductive Node :=
| Dir (perm : Z)
| File (perm : Z) (content : string).

(** The file-system calls of package os that the program makes. *)
Inductive FsOp :=
| OpMkdirAll (path : string) (perm : Z)
| OpOpenFile (path : string) (perm : Z)   (* O_WRONLY|O_CREATE|O_TRUNC *)
| OpWrite (path : string) (bytes : string)
| OpRemove (path : string).

Inductive LogLine :=
| LogInfo (msg : string)
| LogError (msg : string)
| LogFatal (msg : string).

Record World := {
  stdout : list string;          (* what fmt.Print and fmt.Printf wrote *)
  logged : list LogLine;         (* what logrus wrote *)
  shown : list Prompt;           (* the prompts rendered so far *)
  terminal : list Reply;         (* what the user will do, prompt by prompt *)
  net : string -> HttpReply;     (* the network, by request URL *)
  requests : list (string * string); (* URL and User-Agent of the GETs sent *)
  fs : gmap string Node;         (* the file system, by path *)
  syscalls : list FsOp;          (* the file-system calls made so far *)
  umask : Z;                     (* the process's file mode creation mask *)
  cwd : string + string          (* os.Getwd: the directory, or an error *)
}.

(** How a computation ends. *)
Inductive Result (A : Type) :=
| Ret (a : A)
| Exit (code : Z)
| Panic (msg : string).
Arguments Ret {A} a.
Arguments Exit {A} code.
Arguments Panic {A} msg.

Definition Proc (A : Type) : Type := World -> Result A * World.

Definition ret {A} (a : A) : Proc A := fun w => (Ret a, w).

Definition bind {A B} (c : Proc A) (k : A -> Proc B) : Proc B :=
  fun w =>
    match c w with
    | (Ret a, w') => k a w'
    | (Exit n, w') => (Exit n, w')
    | (Panic m, w') => (Panic m, w')
    end.

Notation "x <- c ;; k" := (bind c (fun x => k))
  (at level 100, c at next level, right associativity).
Notation "c ;;; k" := (bind c (fun _ => k))
  (at level 100, right associativity).

Definition get : Proc World := fun w => (Ret w, w).
Definition modify (f : World -> World) : Proc unit := fun w => (Ret tt, f w).

(** [os.Exit] *)
Definition os_Exit {A} (code : Z) : Proc A := fun w => (Exit code, w).

(** A run-time panic, here always a nil pointer dereference. *)
Definition panic {A} (msg : string) : Proc A := fun w => (Panic msg, w).

Definition nil_dereference : string :=
  "runtime error: invalid memory address or nil pointer dereference".

Definition set_stdout (l : list string) (w : World) : World :=
  {| stdout := l; logged := logged w; shown := shown w; terminal := terminal w;
     net := net w; requests := requests w; fs := fs w;
     syscalls := syscalls w; umask := umask w;
     cwd := cwd w |}.

Definition set_logged (l : list LogLine) (w : World) : World :=
  {| stdout := stdout w; logged := l; shown := shown w; terminal := terminal w;
     net := net w; requests := requests w; fs := fs w;
     syscalls := syscalls w; umask := umask w;
     cwd := cwd w |}.

Definition set_shown (l : list Prompt) (w : World) : World :=
  {| stdout := stdout w; logged := logged w; shown := l; terminal := terminal w;
     net := net w; requests := requests w; fs := fs w;
     syscalls := syscalls w; umask := umask w;
     cwd := cwd w |}.

Definition set_terminal (l : list Reply) (w : World) : World :=
  {| stdout := stdout w; logged := logged w; shown := shown w; terminal := l;
     net := net w; requests := requests w; fs := fs w;
     syscalls := syscalls w; umask := umask w;
     cwd := cwd w |}.

Definition set_requests (l : list (string * string)) (w : World) : World :=
  {| stdout := stdout w; logged := logged w; shown := shown w; terminal := terminal w;
     net := net w; requests := l; fs := fs w;
     syscalls := syscalls w; umask := umask w;
     cwd := cwd w |}.

Definition set_fs (m : gmap string Node) (w : World) : World :=
  {| stdout := stdout w; logged := logged w; shown := shown w; terminal := terminal w;
     net := net w; requests := requests w; fs := m;
     syscalls := syscalls w; umask := umask w;
     cwd := cwd w |}.

Definition set_syscalls (l : list FsOp) (w : World) : World :=
  {| stdout := stdout w; logged := logged w; shown := shown w; terminal := terminal w;
     net := net w; requests := requests w; fs := fs w;
     syscalls := l; umask := umask w;
     cwd := cwd w |}.

(** [fmt.Print] *)
Definition fmt_Print (s : string) : Proc unit :=
  modify (fun w => set_stdout (stdout w ++ [s]) w).

(** logrus: [log.Infof], [log.Error], and [log.Fatal], which logs and then
    calls os.Exit(1). *)
Definition log_Info (s : string) : Proc unit :=
  modify (fun w => set_logged (logged w ++ [LogInfo s]) w).
Definition log_Error (s : string) : Proc unit :=
  modify (fun w => set_logged (logged w ++ [LogError s]) w).
Definition log_Fatal {A} (s : string) : Proc A :=
  modify (fun w => set_logged (logged w ++ [LogFatal s]) w) ;;; os_Exit 1.

(** [survey.AskOne(prompt, &response, survey.Required)]: the prompt is
    rendered and the user's reply comes back.  The reply is an answer, in
    which case survey stores it in the response variable and returns nil,
    or an error, in which case the response variable is left as it was.
    A terminal with nothing more to read gives io.EOF. *)
Definition survey_AskOne (p : Prompt) : Proc Reply :=
  fun w =>
    let w1 := set_shown (shown w ++ [p]) w in
    match terminal w with
    | [] => (Ret (Failed (OtherErr "EOF")), w1)
    | r :: rest => (Ret r, set_terminal rest w1)
    end.

(** The error [core.WriteAnswer] gives for an answer that does not fit the
    response variable. *)
Definition write_answer_mismatch : string := "unable to write answer".

(** ** The prompt layer *)

(** What the two copies of the prompt layer share: [HandleError], [Proceed],
    [Ask] and [askOne] are the same text in [cmd/scaffold.go] and in
    [pkg/ui/ui.go]. *)
Module Prompts.

(** [HandleError]: nil is ignored, an interrupt leaves the process with
    status 1, anything else is printed and execution goes on. *)
Definition HandleError (err : option PromptError) : Proc unit :=
  match err with
  | None => ret tt
  | Some InterruptErr => os_Exit 1
  | Some (OtherErr msg) =>
      fmt_Print ("Encountered an error processing prompt: " +:+ msg)
  end.

(** The [err] that [survey.AskOne] returned and the value of the bool
    response variable after the call (declared [var response bool]). *)
Definition into_bool (r : Reply) : option PromptError * bool :=
  match r with
  | Answered (ABool b) => (None, b)
  | Answered _ => (Some (OtherErr write_answer_mismatch), false)
  | Failed e => (Some e, false)
  end.

(** The same for a string response variable ([var response string]). *)
Definition into_string (r : Reply) : option PromptError * string :=
  match r with
  | Answered (AText s) => (None, s)
  | Answered _ => (Some (OtherErr write_answer_mismatch), "")
  | Failed e => (Some e, "")
  end.

(** The same for [modules := []string{}]. *)
Definition into_strings (r : Reply) : option PromptError * list string :=
  match r with
  | Answered (AList l) => (None, l)
  | Answered _ => (Some (OtherErr write_answer_mismatch), [])
  | Failed e => (Some e, [])
  end.

Definition Proceed (message : string) : Proc bool :=
  let prompt := {| Kind := KConfirm; Message := message;
                   Options := []; Default := None |} in
  r <- survey_AskOne prompt ;;
  let '(err, response) := into_bool r in
  HandleError err ;;;
  ret response.

Definition askOne (prompt : Prompt) : Proc string :=
  r <- survey_AskOne prompt ;;
  let '(err, response) := into_string r in
  HandleError err ;;;
  ret response.

(** The variadic [defaultValue ...string] sets the default only when
    exactly one value is passed. *)
Definition default_of (defaultValue : list string) : option string :=
  match defaultValue with
  | [d] => Some d
  | _ => None
  end.

Definition Ask (message : string) (defaultValue : list string) : Proc string :=
  askOne {| Kind := KInput; Message := message; Options := [];
            Default := default_of defaultValue |}.

End Prompts.

(** [pkg/ui/ui.go]: [Select] and [MultiSelect] sort the options slice,
    and the prompt holds the sorted slice. *)
Module UI.
Import Prompts.

Definition Select (message : string) (options : list string)
    (defaultValue : list string) : Proc string :=
  let options := GoStrings.sort_Strings options in
  let prompt := {| Kind := KSelect; Message := message; Options := options;
                   Default := default_of defaultValue |} in
  askOne prompt.

Definition MultiSelect (message : string) (options : list string)
    : Proc (list string) :=
  let options := GoStrings.sort_Strings options in
  let prompt := {| Kind := KMultiSelect; Message := message;
                   Options := options; Default := None |} in
  r <- survey_AskOne prompt ;;
  let '(err, modules) := into_strings r in
  HandleError err ;;;
  ret modules.

End UI.

(** [cmd/scaffold.go]: the copies that [main] calls hand the options to
    the prompt as they come. *)
Module Cmd.
Import Prompts.

Definition Select (message : string) (options : list string)
    (defaultValue : list string) : Proc string :=
  let prompt := {| Kind := KSelect; Message := message; Options := options;
                   Default := default_of defaultValue |} in
  askOne prompt.

Definition MultiSelect (message : string) (options : list string)
    : Proc (list string) :=
  let prompt := {| Kind := KMultiSelect; Message := message;
                   Options := options; Default := None |} in
  r <- survey_AskOne prompt ;;
  let '(err, modules) := into_strings r in
  HandleError err ;;;
  ret modules.

End Cmd.

(** ** Package path/filepath (Unix) *)

Module filepath.
Import GoStrings.

Definition Separator : ascii := "/"%char.

(** One path element met by [Clean], with the elements kept so far held
    last-first: an empty element and "." are dropped; ".." removes the
    element before it, or is dropped at the root, or is kept at the start
    of a relative path; anything else is kept. *)
Definition clean_step (rooted : bool) (kept : list string) (elem : string)
    : list string :=
  if String.eqb elem "" || String.eqb elem "." then kept
  else if String.eqb elem ".." then
    match kept with
    | top :: rest =>
        if String.eqb top ".." then (if rooted then kept else ".." :: kept)
        else rest
    | [] => if rooted then [] else [".."]
    end
  else elem :: kept.

(** [filepath.Clean] *)
Definition Clean (path : string) : string :=
  match path with
  | EmptyString => "."
  | String c _ =>
      let rooted := Ascii.eqb c Separator in
      let kept := fold_left (clean_step rooted) (split_on Separator path) [] in
      let out := Join (rev kept) "/" in
      if rooted then "/" +:+ out
      else if String.eqb out "" then "." else out
  end.

(** [filepath.Join]: the elements from the first non-empty one on, joined
    with the separator and cleaned; the empty string when there is none. *)
Fixpoint Join (elem : list string) : string :=
  match elem with
  | [] => ""
  | e :: rest =>
      if String.eqb e "" then Join rest
      else Clean (GoStrings.Join elem "/")
  end.

End filepath.

(** ** Package net/url *)

Module url.
Import GoStrings.

Definition upperhex : string := "0123456789ABCDEF".

Definition hex_digit (n : nat) : ascii :=
  match String.get n upperhex with
  | Some c => c
  | None => "0"%char
  end.

Definition between (lo hi c : ascii) : bool :=
  (nat_of_ascii lo <=? nat_of_ascii c)%nat && (nat_of_ascii c <=? nat_of_ascii hi)%nat.

(** [shouldEscape(c, encodeQueryComponent)]: letters, digits and
    [- _ . ~] stay; the reserved bytes and everything else are escaped. *)
Definition shouldEscape (c : ascii) : bool :=
  if between "a" "z" c || between "A" "Z" c || between "0" "9" c then false
  else if Ascii.eqb c "-" || Ascii.eqb c "_" || Ascii.eqb c "." || Ascii.eqb c "~"
  then false
  else true.

(** [url.QueryEscape] *)
Fixpoint QueryEscape (s : string) : string :=
  match s with
  | EmptyString => ""
  | String c s' =>
      if shouldEscape c then
        if Ascii.eqb c " " then String "+" (QueryEscape s')
        else String "%" (String (hex_digit (nat_of_ascii c / 16))
                         (String (hex_digit (nat_of_ascii c mod 16))
                            (QueryEscape s')))
      else String c (QueryEscape s')
  end.

(** [url.Values] is [map[string][]string]. *)
Abbreviation Values := (gmap string (list string)).

(** [Values.Add]: append to the values of the key. *)
Definition Add (key value : string) (v : Values) : Values :=
  <[key := (default [] (v !! key) ++ [value])%list]> v.

(** The parameters [Encode] writes, in the order it writes them: the keys
    in sorted order, the values of a key in the order they were added. *)
Definition params (v : Values) : list (string * string) :=
  let keys := sort_Strings (map fst (map_to_list v)) in
  flat_map (fun k => map (fun val => (k, val)) (default [] (v !! k))) keys.

Definition encode_param (kv : string * string) : string :=
  QueryEscape (fst kv) +:+ "=" +:+ QueryEscape (snd kv).

(** [Values.Encode] *)
Definition Encode (v : Values) : string :=
  Join (map encode_param (params v)) "&".

End url.

(** ** Package os: the file system *)

(** The file system is a map from paths, spelled as the program spells
    them, to nodes.  There are no symbolic links and no permission checks,
    and a relative path is not resolved against the working directory; the
    paths the program passes come out of [filepath.Join], so they are
    clean. *)
Module os.
Import GoStrings.

Definition ModePerm : Z := 0x1ff.          (* 0777 *)
Definition ModeDir : Z := Z.shiftl 1 31.
Definition ModeSetuid : Z := Z.shiftl 1 23.
Definition ModeSetgid : Z := Z.shiftl 1 22.
Definition ModeSticky : Z := Z.shiftl 1 20.

(** [FileMode.IsDir] *)
Definition IsDir (m : Z) : bool := negb (Z.land m ModeDir =? 0).

(** [syscallMode]: the permission bits and the three special bits of a
    [FileMode], as the kernel takes them. *)
Definition syscallMode (i : Z) : Z :=
  let o := Z.land i ModePerm in
  let o := if Z.land i ModeSetuid =? 0 then o else Z.lor o 0x800 (* S_ISUID *) in
  let o := if Z.land i ModeSetgid =? 0 then o else Z.lor o 0x400 (* S_ISGID *) in
  if Z.land i ModeSticky =? 0 then o else Z.lor o 0x200 (* S_ISVTX *).

(** The mode a new node gets: the kernel clears the bits of the umask. *)
Definition created_mode (um perm : Z) : Z :=
  Z.land (syscallMode perm) (Z.lnot um).

(** [os.Stat]: the root and the working directory "." always exist. *)
Definition stat (m : gmap string Node) (path : string) : option Node :=
  if String.eqb path "/" || String.eqb path "." then Some (Dir 0x1ed)
  else m !! path.

(** The directory a path lies in, when the path names one: the part
    before the last separator.  [None] stands for a directory that always
    exists (the root, or the working directory of a one-element relative
    path). *)
Definition parent (path : string) : option string :=
  match LastIndex path filepath.Separator with
  | Some (S j) => Some (slice_to path (S j))
  | _ => None
  end.

Definition parent_ok (m : gmap string Node) (path : string) : string + unit :=
  match parent path with
  | None => inr tt
  | Some d =>
      match stat m d with
      | Some (Dir _) => inr tt
      | Some (File _ _) => inl ("not a directory")
      | None => inl ("no such file or directory")
      end
  end.

(** [os.Mkdir] *)
Definition mkdir (um : Z) (path : string) (perm : Z) (m : gmap string Node)
    : string + gmap string Node :=
  if String.eqb path "" then inl "mkdir : no such file or directory"
  else match stat m path with
       | Some _ => inl ("mkdir " +:+ path +:+ ": file exists")
       | None =>
           match parent_ok m path with
           | inl e => inl ("mkdir " +:+ path +:+ ": " +:+ e)
           | inr _ => inr (<[path := Dir (created_mode um perm)]> m)
           end
       end.

(** [os.MkdirAll]: nothing to do for a directory, an error for a file;
    otherwise the parent first, then the directory itself.  The
    recursion is on shorter and shorter prefixes of the path. *)
Fixpoint mkdir_all (fuel : nat) (um : Z) (path : string) (perm : Z)
    (m : gmap string Node) : string + gmap string Node :=
  match stat m path with
  | Some (Dir _) => inr m
  | Some (File _ _) => inl ("mkdir " +:+ path +:+ ": not a directory")
  | None =>
      match fuel with
      | O => mkdir um path perm m
      | S fuel' =>
          match parent path with
          | Some d =>
              match mkdir_all fuel' um d perm m with
              | inl e => inl e
              | inr m' => mkdir um path perm m'
              end
          | None => mkdir um path perm m
          end
      end
  end.

(** What [os.OpenFile(name, O_WRONLY|O_CREATE|O_TRUNC, perm)] does to the
    file system: an existing file is emptied and keeps its mode, a new
    one is created with the mode asked for. *)
Definition open_trunc (um : Z) (name : string) (perm : Z) (m : gmap string Node)
    : string + gmap string Node :=
  if String.eqb name "" then inl "open : no such file or directory"
  else match stat m name with
       | Some (Dir _) => inl ("open " +:+ name +:+ ": is a directory")
       | Some (File mode _) => inr (<[name := File mode ""]> m)
       | None =>
           match parent_ok m name with
           | inl e => inl ("open " +:+ name +:+ ": " +:+ e)
           | inr _ => inr (<[name := File (created_mode um perm) ""]> m)
           end
       end.

(** Writing to an open file appends to its content. *)
Definition write (name : string) (bytes : string) (m : gmap string Node)
    : gmap string Node :=
  match m !! name with
  | Some (File mode c) => <[name := File mode (c +:+ bytes)]> m
  | _ => m
  end.

(** Is some path of the file system inside the directory [d]? *)
Definition has_children (m : gmap string Node) (d : string) : bool :=
  existsb (fun k => HasPrefix k (d +:+ "/")) (map fst (map_to_list m)).

(** What [os.Remove] does: a file is deleted, and so is an empty
    directory. *)
Definition remove (name : string) (m : gmap string Node)
    : string + gmap string Node :=
  match m !! name with
  | Some (File _ _) => inr (delete name m)
  | Some (Dir _) =>
      if has_children m name
      then inl ("remove " +:+ name +:+ ": directory not empty")
      else inr (delete name m)
  | None => inl ("remove " +:+ name +:+ ": no such file or directory")
  end.

(** The calls as the program makes them: each is recorded, changes the
    file system, and returns its error ([None] is Go's nil). *)
Definition record (op : FsOp) : Proc unit :=
  modify (fun w => set_syscalls (syscalls w ++ [op]) w).

Definition attempt (f : World -> string + gmap string Node) : Proc (option string) :=
  fun w =>
    match f w with
    | inl e => (Ret (Some e), w)
    | inr m => (Ret None, set_fs m w)
    end.

Definition MkdirAll (path : string) (perm : Z) : Proc (option string) :=
  record (OpMkdirAll path perm) ;;;
  attempt (fun w => mkdir_all (String.length path) (umask w) path perm (fs w)).

Definition OpenFile (name : string) (perm : Z) : Proc (option string) :=
  record (OpOpenFile name perm) ;;;
  attempt (fun w => open_trunc (umask w) name perm (fs w)).

Definition Write (name : string) (bytes : string) : Proc unit :=
  record (OpWrite name bytes) ;;;
  modify (fun w => set_fs (write name bytes (fs w)) w).

Definition Remove (name : string) : Proc (option string) :=
  record (OpRemove name) ;;;
  attempt (fun w => remove name (fs w)).

(** [os.Getwd], with the error dropped as [currentDir, _ := os.Getwd()]
    drops it. *)
Definition Getwd : Proc string :=
  w <- get ;;
  ret (match cwd w with inl d => d | inr _ => "" end).

End os.

(** [ioutil.WriteFile]: open with O_WRONLY|O_CREATE|O_TRUNC, write, close. *)
Definition ioutil_WriteFile (name : string) (data : string) (perm : Z)
    : Proc (option string) :=
  err <- os.OpenFile name perm ;;
  match err with
  | Some e => ret (Some e)
  | None => os.Write name data ;;; ret None
  end.

(** ** Package net/http, as far as the program uses it *)

Record Request := {
  req_URL : string;
  req_UserAgent : option string
}.

(** [http.NewRequest(http.MethodGet, u, ...)]: the request, or nil and an
    error. *)
Definition http_NewRequest (u : string) : Proc (option Request * option string) :=
  w <- get ;;
  match net w u with
  | NewRequestErr e => ret (None, Some e)
  | _ => ret (Some {| req_URL := u; req_UserAgent := None |}, None)
  end.

(** [client.Do(req)]: the request goes out; the response, or nil and an
    error. *)
Definition client_Do (req : Request) : Proc (option HttpReply * option string) :=
  modify (fun w => set_requests
            (requests w ++ [(req_URL req, default "" (req_UserAgent req))]) w) ;;;
  w <- get ;;
  match net w (req_URL req) with
  | NewRequestErr e => ret (None, Some e)
  | DoErr e => ret (None, Some e)
  | r => ret (Some r, None)
  end.

(** [ioutil.ReadAll(res.Body)]: evaluating [res.Body] on a nil response is
    a nil dereference; otherwise the bytes read, and the error if the
    reading broke off. *)
Definition ioutil_ReadAll_Body (res : option HttpReply) : Proc (string * option string) :=
  match res with
  | None => panic nil_dereference
  | Some (Body b) => ret (b, None)
  | Some (ReadErr partial e) => ret (partial, Some e)
  | Some (DoErr e) | Some (NewRequestErr e) => ret ("", Some e)
  end.

(** ** Package archive/zip, as far as the program uses it *)

(** Reading the content of an entry: [f.Open] may fail, and so may the
    reading itself, part of the way through. *)
Inductive EntryData :=
| Readable (bytes : string)
| OpenFails (err : string)
| ReadFails (partial : string) (err : string).

(** A [zip.File]: the recorded name, the mode of [f.Mode()] (which is also
    that of [f.FileInfo()]) and the content. *)
Record ZipFile := {
  Name : string;
  Mode : Z;
  Data : EntryData
}.

(** ** The descriptor: [scaffold.Project] *)

(** Modelled from the spec: the struct [scaffold.Project] of package
    pkg/scaffold, whose declaration is not among the sources.  The fields
    are the ones [RunE] and the flag declarations of [main] name, with the
    types they are used at. *)
Record Project := {
  UrlService : string;
  SpringBootVersion : string;
  SnowdropBomVersion : string;
  Template : string;
  Modules : list string;
  GroupId : string;
  ArtifactId : string;
  Version : string;
  PackageName : string;
  OutDir : string
}.

Definition set_SpringBootVersion (v : string) (p : Project) : Project :=
  {| UrlService := UrlService p; SpringBootVersion := v;
     SnowdropBomVersion := SnowdropBomVersion p; Template := Template p;
     Modules := Modules p; GroupId := GroupId p; ArtifactId := ArtifactId p;
     Version := Version p; PackageName := PackageName p; OutDir := OutDir p |}.

Definition set_SnowdropBomVersion (v : string) (p : Project) : Project :=
  {| UrlService := UrlService p; SpringBootVersion := SpringBootVersion p;
     SnowdropBomVersion := v; Template := Template p;
     Modules := Modules p; GroupId := GroupId p; ArtifactId := ArtifactId p;
     Version := Version p; PackageName := PackageName p; OutDir := OutDir p |}.

Definition set_Template (v : string) (p : Project) : Project :=
  {| UrlService := UrlService p; SpringBootVersion := SpringBootVersion p;
     SnowdropBomVersion := SnowdropBomVersion p; Template := v;
     Modules := Modules p; GroupId := GroupId p; ArtifactId := ArtifactId p;
     Version := Version p; PackageName := PackageName p; OutDir := OutDir p |}.

Definition set_Modules (v : list string) (p : Project) : Project :=
  {| UrlService := UrlService p; SpringBootVersion := SpringBootVersion p;
     SnowdropBomVersion := SnowdropBomVersion p; Template := Template p;
     Modules := v; GroupId := GroupId p; ArtifactId := ArtifactId p;
     Version := Version p; PackageName := PackageName p; OutDir := OutDir p |}.

Definition set_GroupId (v : string) (p : Project) : Project :=
  {| UrlService := UrlService p; SpringBootVersion := SpringBootVersion p;
     SnowdropBomVersion := SnowdropBomVersion p; Template := Template p;
     Modules := Modules p; GroupId := v; ArtifactId := ArtifactId p;
     Version := Version p; PackageName := PackageName p; OutDir := OutDir p |}.

Definition set_ArtifactId (v : string) (p : Project) : Project :=
  {| UrlService := UrlService p; SpringBootVersion := SpringBootVersion p;
     SnowdropBomVersion := SnowdropBomVersion p; Template := Template p;
     Modules := Modules p; GroupId := GroupId p; ArtifactId := v;
     Version := Version p; PackageName := PackageName p; OutDir := OutDir p |}.

Definition set_Version (v : string) (p : Project) : Project :=
  {| UrlService := UrlService p; SpringBootVersion := SpringBootVersion p;
     SnowdropBomVersion := SnowdropBomVersion p; Template := Template p;
     Modules := Modules p; GroupId := GroupId p; ArtifactId := ArtifactId p;
     Version := v; PackageName := PackageName p; OutDir := OutDir p |}.

Definition set_PackageName (v : string) (p : Project) : Project :=
  {| UrlService := UrlService p; SpringBootVersion := SpringBootVersion p;
     SnowdropBomVersion := SnowdropBomVersion p; Template := Template p;
     Modules := Modules p; GroupId := GroupId p; ArtifactId := ArtifactId p;
     Version := Version p; PackageName := v; OutDir := OutDir p |}.

Definition set_OutDir (v : string) (p : Project) : Project :=
  {| UrlService := UrlService p; SpringBootVersion := SpringBootVersion p;
     SnowdropBomVersion := SnowdropBomVersion p; Template := Template p;
     Modules := Modules p; GroupId := GroupId p; ArtifactId := ArtifactId p;
     Version := Version p; PackageName := PackageName p; OutDir := v |}.

(** Modelled from the spec: the struct [scaffold.BOM] of package
    pkg/scaffold, whose declaration is not among the sources: a primary
    reference and a list of supported alternates, the two fields [RunE]
    reads. *)
Record BOM := {
  Snowdrop : string;
  Supported : list string
}.

(** What indexing a Go map gives for a key it does not hold. *)
Definition zero_BOM : BOM := {| Snowdrop := ""; Supported := [] |}.

(** ** The program: [cmd/scaffold.go] *)

Module Scaffold.
Import GoStrings.

Definition ServiceEndpoint : string :=
  "http://spring-boot-generator.195.201.87.126.nip.io".

Definition unavailable_marker : string := "Application is not available".

(** [addClientHeader]: sets the header of the request it is given; on a
    nil request the field access is a nil dereference. *)
Definition addClientHeader (req : option Request) : Proc Request :=
  let userAgent := "snowdrop-scaffold/1.0" in
  match req with
  | None => panic nil_dereference
  | Some r => ret {| req_URL := req_URL r; req_UserAgent := Some userAgent |}
  end.

(** [getYamlFrom]: the three errors of the exchange are logged and
    nothing else; the marker in the body and a body that does not parse
    are fatal.  [unmarshal] is [yaml.Unmarshal] into the type of
    [result]. *)
Definition getYamlFrom {T} (unmarshal : string -> string + T)
    (url endpoint : string) : Proc T :=
  let URL := Join [url; endpoint] "/" in
  r <- http_NewRequest URL ;;
  let '(req, err) := r in
  match err with Some e => log_Error e | None => ret tt end ;;;
  req <- addClientHeader req ;;
  r <- client_Do req ;;
  let '(res, err) := r in
  match err with Some e => log_Error e | None => ret tt end ;;;
  r <- ioutil_ReadAll_Body res ;;
  let '(body, err) := r in
  match err with Some e => log_Error e | None => ret tt end ;;;
  (if Contains body unavailable_marker
   then log_Fatal "Generator service is not available"
   else ret tt) ;;;
  match unmarshal body with
  | inl e => log_Fatal e
  | inr result => ret result
  end.

(** One entry of the archive, the body of the loop of [Unzip]: [None] is
    the end of an iteration that goes on to the next entry, [Some e] is
    [return err]. *)
Definition extract_entry (dest : string) (f : ZipFile) : Proc (option string) :=
  match Data f with
  | OpenFails e => ret (Some e)
  | _ =>
      let name := filepath.Join [dest; Name f] in
      if os.IsDir (Mode f) then
        os.MkdirAll name os.ModePerm
      else
        let fdir :=
          match LastIndex name filepath.Separator with
          | Some lastIndex => slice_to name lastIndex
          | None => ""
          end in
        err <- os.MkdirAll fdir os.ModePerm ;;
        match err with
        | Some e => ret (Some e)
        | None =>
            err <- os.OpenFile name (Mode f) ;;
            match err with
            | Some e => ret (Some e)
            | None =>
                match Data f with
                | Readable bytes => os.Write name bytes ;;; ret None
                | ReadFails partial e => os.Write name partial ;;; ret (Some e)
                | OpenFails e => ret (Some e)
                end
            end
        end
  end.

(** [for _, f := range r.File] *)
Fixpoint extract_all (dest : string) (files : list ZipFile) : Proc (option string) :=
  match files with
  | [] => ret None
  | f :: rest =>
      err <- extract_entry dest f ;;
      match err with
      | Some e => ret (Some e)
      | None => extract_all dest rest
      end
  end.

(** The body of the loop over [p.Modules], lines 138 to 140. *)
Definition add_module (form : url.Values) (v : string) : url.Values :=
  if String.eqb v "" then form else url.Add "module" v form.

Section Program.

(** Package scaffold and the two decoders are not part of the program
    text; the program is read for all of them. *)
Variable Config : Type.
Variable ModuleInfo : Type.                      (* scaffold.Module *)
Variable GetBOMMap : Config -> gmap string BOM * string.
Variable GetSpringBootVersions : gmap string BOM -> list string.
Variable GetSupportedVersionFor : Config -> string -> string.
Variable GetTemplateNames : Config -> list string.
Variable GetModuleNamesFor : list ModuleInfo -> list string.
Variable unmarshal_Config : string -> string + Config.
Variable unmarshal_Modules : string -> string + list ModuleInfo.
(** The entries [zip.OpenReader] finds in the bytes of a file. *)
Variable zip_entries : string -> string + list ZipFile.

Definition getGeneratorServiceConfig (url : string) : Proc Config :=
  getYamlFrom unmarshal_Config url "config".

Definition getCompatibleModuleNameFor (p : Project) : Proc (list string) :=
  modules <- getYamlFrom unmarshal_Modules (UrlService p)
               ("modules/" +:+ SpringBootVersion p) ;;
  ret (GetModuleNamesFor modules).

(** [zip.OpenReader(src)] *)
Definition zip_OpenReader (src : string) : Proc (string + list ZipFile) :=
  w <- get ;;
  match fs w !! src with
  | Some (File _ content) => ret (zip_entries content)
  | Some (Dir _) => ret (inl ("read " +:+ src +:+ ": is a directory"))
  | None => ret (inl ("open " +:+ src +:+ ": no such file or directory"))
  end.

Definition Unzip (src dest : string) : Proc (option string) :=
  r <- zip_OpenReader src ;;
  match r with
  | inl e => ret (Some e)
  | inr files => extract_all dest files
  end.

(** [RunE], lines 101 to 124: the configuration is fetched and the
    prompts fill the descriptor [p], field by field.  The result is
    the descriptor as the request will see it, and [currentDir]. *)
Definition collect (p : Project) : Proc (Project * string) :=
  c <- getGeneratorServiceConfig (UrlService p) ;;
  let '(versions, defaultVersion) := GetBOMMap c in
  v <- Cmd.Select "Spring Boot version" (GetSpringBootVersions versions)
         [defaultVersion] ;;
  let p := set_SpringBootVersion v p in
  let bom := default zero_BOM (versions !! SpringBootVersion p) in
  let p := set_SnowdropBomVersion (Snowdrop bom) p in
  p <- (if (0 <? length (Supported bom))%nat then
          yes <- Prompts.Proceed "Use supported version" ;;
          if (yes : bool)
          then ret (set_SnowdropBomVersion
                      (GetSupportedVersionFor c (SpringBootVersion p)) p)
          else ret p
        else ret p) ;;
  yes <- Prompts.Proceed "Create from template" ;;
  p <- (if (yes : bool) then
          t <- Cmd.Select "Available templates" (GetTemplateNames c) [] ;;
          ret (set_Template t p)
        else
          names <- getCompatibleModuleNameFor p ;;
          m <- Cmd.MultiSelect "Select modules" names ;;
          ret (set_Modules m p)) ;;
  g <- Prompts.Ask "Group Id" ["me.snowdrop"] ;;
  let p := set_GroupId g p in
  a <- Prompts.Ask "Artifact Id" ["myproject"] ;;
  let p := set_ArtifactId a p in
  v <- Prompts.Ask "Version" ["1.0.0-SNAPSHOT"] ;;
  let p := set_Version v p in
  n <- Prompts.Ask "Package name" [GroupId p +:+ "." +:+ ArtifactId p] ;;
  let p := set_PackageName n p in
  currentDir <- os.Getwd ;;
  o <- Prompts.Ask ("Project location (immediate child directory of "
                +:+ currentDir +:+ ")") [] ;;
  let p := set_OutDir o p in
  ret (p, currentDir).

(** Lines 128 to 141: the form. *)
Definition build_form (p : Project) : url.Values :=
  let form : url.Values := ∅ in
  let form := url.Add "template" (Template p) form in
  let form := url.Add "groupid" (GroupId p) form in
  let form := url.Add "artifactid" (ArtifactId p) form in
  let form := url.Add "version" (Version p) form in
  let form := url.Add "packagename" (PackageName p) form in
  let form := url.Add "snowdropbom" (SnowdropBomVersion p) form in
  let form := url.Add "springbootversion" (SpringBootVersion p) form in
  let form := url.Add "outdir" (OutDir p) form in
  fold_left add_module (Modules p) form.

(** Lines 143 to 148: the URL of the archive request. *)
Definition request_url (p : Project) : string :=
  let parameters := url.Encode (build_form p) in
  let parameters := if String.eqb parameters "" then parameters
                    else "?" +:+ parameters in
  Join [UrlService p; "app"] "/" +:+ parameters.

(** [RunE], lines 126 to 181: the archive is asked for, written next to
    the target directory, unpacked and removed.  The value is the error
    [RunE] returns. *)
Definition materialize (p : Project) (currentDir : string) : Proc (option string) :=
  let u := request_url p in
  log_Info ("URL of the request calling the service is " +:+ u) ;;;
  r <- http_NewRequest u ;;
  let '(req, err) := r in
  match err with
  | Some e => ret (Some e)
  | None =>
      req <- addClientHeader req ;;
      r <- client_Do req ;;
      let '(res, err) := r in
      match err with
      | Some e => ret (Some e)
      | None =>
          r <- ioutil_ReadAll_Body res ;;
          let '(body, err) := r in
          match err with
          | Some e => ret (Some e)
          | None =>
              let dir := filepath.Join [currentDir; OutDir p] in
              let zipFile := dir +:+ ".zip" in
              err <- ioutil_WriteFile zipFile body 0x1a4 ;;
              match err with
              | Some e =>
                  ret (Some ("failed to download file " +:+ zipFile
                             +:+ " due to " +:+ e))
              | None =>
                  err <- Unzip zipFile dir ;;
                  match err with
                  | Some e =>
                      ret (Some ("failed to unzip new project file "
                                 +:+ zipFile +:+ " due to " +:+ e))
                  | None =>
                      err <- os.Remove zipFile ;;
                      match err with
                      | Some e => ret (Some e)
                      | None => ret None
                      end
                  end
              end
          end
      end
  end.

Definition RunE (p : Project) : Proc (option string) :=
  r <- collect p ;;
  let '(p, currentDir) := r in
  materialize p currentDir.

(** The flags of lines 185 to 193: a flag that is given sets its field
    of [p], one that is not leaves the default of its declaration. *)
Record Flags := {
  flag_template : option string;
  flag_urlservice : option string;
  flag_module : list string;
  flag_groupid : option string;
  flag_artifactid : option string;
  flag_version : option string;
  flag_packagename : option string;
  flag_springbootversion : option string;
  flag_snowdropbom : option string
}.

Definition no_flags : Flags :=
  {| flag_template := None; flag_urlservice := None; flag_module := [];
     flag_groupid := None; flag_artifactid := None; flag_version := None;
     flag_packagename := None; flag_springbootversion := None;
     flag_snowdropbom := None |}.

Definition parse_flags (f : Flags) : Project :=
  {| UrlService := default ServiceEndpoint (flag_urlservice f);
     SpringBootVersion := default "" (flag_springbootversion f);
     SnowdropBomVersion := default "" (flag_snowdropbom f);
     Template := default "" (flag_template f);
     Modules := flag_module f;
     GroupId := default "" (flag_groupid f);
     ArtifactId := default "" (flag_artifactid f);
     Version := default "" (flag_version f);
     PackageName := default "" (flag_packagename f);
     OutDir := "" |}.

(** [createCmd.Execute()], with the command line already split into the
    flags [f] and the positional arguments: [cobra.RangeArgs(0, 1)]
    refuses more than one positional argument; otherwise [RunE] runs and
    its error is the error of [Execute].  What cobra itself writes to
    standard error about an error is not part of the world. *)
Definition Execute (f : Flags) (args : list string) : Proc (option string) :=
  if (1 <? length args)%nat
  then ret (Some ("accepts between 0 and 1 arg(s), received "
                  +:+ pretty (length args)))
  else RunE (parse_flags f).

(** [main]: the error of [Execute] is printed, and [main] returns. *)
Definition main (f : Flags) (args : list string) : Proc unit :=
  err <- Execute f args ;;
  match err with
  | Some e => fmt_Print e
  | None => ret tt
  end.

(** The exit status of the process: 0 when [main] returns, the argument
    of [os.Exit] when that ended it, 2 after a panic. *)
Definition exit_status {A} (r : Result A) : Z :=
  match r with
  | Ret _ => 0
  | Exit code => code
  | Panic _ => 2
  end.

End Program.

End Scaffold.


(** ** The vocabulary of the statements *)

Definition select_of (message : string) (options : list string)
    (defaultValue : list string) : Prompt :=
  {| Kind := KSelect; Message := message; Options := options;
     Default := Prompts.default_of defaultValue |}.

Definition multi_select_of (message : string) (options : list string) : Prompt :=
  {| Kind := KMultiSelect; Message := message; Options := options;
     Default := None |}.

Definition prompt_error_line (msg : string) : string :=
  "Encountered an error processing prompt: " +:+ msg.

(** An interrupt: the process is left with status 1 and nothing is
    printed. *)
Definition hard_stop {A} (c : Proc A) (w : World) : Prop :=
  fst (c w) = Exit 1 /\ stdout (snd (c w)) = stdout w.

(** Another error: the message is printed and the call returns [zero]. *)
Definition degrades {A} (c : Proc A) (zero : A) (msg : string) (w : World) : Prop :=
  fst (c w) = Ret zero /\
  stdout (snd (c w)) = (stdout w ++ [prompt_error_line msg])%list.

(** What a prompt operation does with the reply [r] of the terminal when
    that reply is an error. *)
Definition error_contract {A} (c : Proc A) (zero : A) (r : Reply) (w : World) : Prop :=
  match r with
  | Failed InterruptErr => hard_stop c w
  | Failed (OtherErr msg) => degrades c zero msg w
  | Answered _ => True
  end.

(** The user agent every request of the program carries. *)
Definition user_agent : string := "snowdrop-scaffold/1.0".

(** The URL [getYamlFrom] asks. *)
Definition yaml_url (base endpoint : string) : string :=
  GoStrings.Join [base; endpoint] "/".

(** The calls [Unzip] makes for one entry that it gets through. *)
Definition entry_target (dest : string) (f : ZipFile) : string :=
  filepath.Join [dest; Name f].

Definition entry_parent (dest : string) (f : ZipFile) : string :=
  match GoStrings.LastIndex (entry_target dest f) filepath.Separator with
  | Some lastIndex => GoStrings.slice_to (entry_target dest f) lastIndex
  | None => ""
  end.

Definition entry_bytes (f : ZipFile) : string :=
  match Data f with
  | Readable bytes => bytes
  | ReadFails partial _ => partial
  | OpenFails _ => ""
  end.

Definition entry_calls (dest : string) (f : ZipFile) : list FsOp :=
  if os.IsDir (Mode f) then
    [OpMkdirAll (entry_target dest f) os.ModePerm]
  else
    [OpMkdirAll (entry_parent dest f) os.ModePerm;
     OpOpenFile (entry_target dest f) (Mode f);
     OpWrite (entry_target dest f) (entry_bytes f)].

(** A directory is found at [p]. *)
Definition dir_at (m : gmap string Node) (p : string) : Prop :=
  exists q, os.stat m p = Some (Dir q).

(** The file system holds a regular file at [p]. *)
Definition file_at (m : gmap string Node) (p : string) : Prop :=
  exists q c, m !! p = Some (File q c).

(** What is a directory stays one, and what is a file stays one. *)
Definition kinds_kept (m m' : gmap string Node) : Prop :=
  forall p, (dir_at m p -> dir_at m' p) /\ (file_at m p -> file_at m' p).

(** Away from [t], the files are the very same, and none is new. *)
Definition files_untouched (t : option string) (m m' : gmap string Node) : Prop :=
  forall p, Some p <> t ->
    (file_at m p -> m' !! p = m !! p) /\ (file_at m' p -> file_at m p).

(** The mode of the file an entry leaves: the mode of the file that was
    there, or for a new file the mode of the entry, less the umask. *)
Definition mode_after (m : gmap string Node) (um : Z) (dest : string)
    (f : ZipFile) : Z :=
  match m !! entry_target dest f with
  | Some (File q _) => q
  | _ => os.created_mode um (Mode f)
  end.

(** What one entry that [Unzip] gets through leaves behind. *)
Definition entry_done (dest : string) (f : ZipFile) (w w' : World) : Prop :=
  umask w' = umask w /\
  syscalls w' = (syscalls w ++ entry_calls dest f)%list /\
  kinds_kept (fs w) (fs w') /\
  files_untouched (Some (entry_target dest f)) (fs w) (fs w') /\
  if os.IsDir (Mode f) then
    dir_at (fs w') (entry_target dest f) /\ files_untouched None (fs w) (fs w')
  else
    fs w' !! entry_target dest f
    = Some (File (mode_after (fs w) (umask w) dest f) (entry_bytes f)).

(** Where [RunE] unpacks, and the archive file it writes first. *)
Definition target_dir (p : Project) (currentDir : string) : string :=
  filepath.Join [currentDir; OutDir p].

Definition zip_file (p : Project) (currentDir : string) : string :=
  target_dir p currentDir +:+ ".zip".

(** Is [path] the directory [dir] or something inside it? *)
Definition inside (dir path : string) : bool :=
  String.eqb path dir || GoStrings.HasPrefix path (dir +:+ "/").

(** The descriptor has a template or modules, and not both. *)
Definition template_xor_modules (p : Project) : Prop :=
  (Template p <> "" /\ Modules p = []) \/ (Template p = "" /\ Modules p <> []).

Definition nonempty (v : string) : bool := negb (String.eqb v "").

(** The parameters of the encoded query with the key [key], in the order
    they are written. *)
Definition params_named (key : string) (v : url.Values) : list string :=
  map snd (List.filter (fun kv => String.eqb (fst kv) key) (url.params v)).

(** The parameters of the request, in the order [Encode] writes them. *)
Definition query_of (p : Project) : list (string * string) :=
  ([("artifactid", ArtifactId p); ("groupid", GroupId p)]
   ++ map (fun v => ("module", v)) (List.filter nonempty (Modules p))
   ++ [("outdir", OutDir p); ("packagename", PackageName p);
       ("snowdropbom", SnowdropBomVersion p);
       ("springbootversion", SpringBootVersion p);
       ("template", Template p); ("version", Version p)])%list.



(** What [survey.Required] makes of an answer: a text or a selection that
    is not empty. *)
Definition required_ok (r : Reply) : Prop :=
  match r with
  | Answered (AText s) => s <> ""
  | Answered (AList l) => l <> []
  | _ => True
  end.

(** A computation that keeps the replies to come in that state, only adds
    to the output, and returns a value with [Post] when it adds nothing. *)
Definition quiet_spec {A} (c : Proc A) (Post : A -> Prop) : Prop :=
  forall w a w', c w = (Ret a, w') ->
    Forall required_ok (terminal w) ->
    Forall required_ok (terminal w') /\
    exists l, stdout w' = (stdout w ++ l)%list /\ (l = [] -> Post a).

(** A computation that neither reads the terminal nor prints. *)
Definition silent {A} (c : Proc A) : Prop :=
  forall w r w', c w = (r, w') -> terminal w' = terminal w /\ stdout w' = stdout w.

(** What a computation can return. *)
Definition returns {A} (c : Proc A) (Q : A -> Prop) : Prop :=
  forall w a w', c w = (Ret a, w') -> Q a.




(** ** A generator service, a terminal and an archive to run the program on *)

Module Example.
Import Scaffold.

Record Config := {
  boms : list (string * BOM);
  recommended : string;
  templates : list string
}.

Definition GetBOMMap (c : Config) : gmap string BOM * string :=
  (list_to_map (boms c), recommended c).
Definition GetSpringBootVersions (m : gmap string BOM) : list string :=
  map fst (map_to_list m).
Definition GetSupportedVersionFor (c : Config) (v : string) : string :=
  match (list_to_map (boms c) : gmap string BOM) !! v with
  | Some b => hd "" (Supported b)
  | None => ""
  end.
Definition GetTemplateNames (c : Config) : list string := templates c.
Definition GetModuleNamesFor (l : list string) : list string := l.

Definition config : Config :=
  {| boms := [("2.1.0", {| Snowdrop := "x.y"; Supported := ["a.b"] |})];
     recommended := "2.1.0";
     templates := ["rest"; "crud"] |}.

(** The decoders know two documents and refuse everything else. *)
Definition unmarshal_Config (body : string) : string + Config :=
  if String.eqb body "config-document" then inr config
  else inl "yaml: unmarshal errors".
Definition unmarshal_Modules (body : string) : string + list string :=
  if String.eqb body "modules-document" then inr ["web"; "data-jpa"]
  else inl "yaml: unmarshal errors".

(** One directory entry and one file entry of mode 0644. *)
Definition archive : list ZipFile :=
  [ {| Name := "src/"; Mode := Z.lor os.ModeDir 0x1ed; Data := Readable "" |};
    {| Name := "src/App.java"; Mode := 0x1a4; Data := Readable "class App {}" |} ].

(** An archive whose one entry names a file above the directory it is
    unpacked in. *)
Definition evil : ZipFile :=
  {| Name := "../evil.txt"; Mode := 0x1a4; Data := Readable "gotcha" |}.

Definition hostile_archive : list ZipFile := [evil].

Definition zip_entries (content : string) : string + list ZipFile :=
  if String.eqb content "archive-bytes" then inr archive
  else if String.eqb content "hostile-bytes" then inr hostile_archive
  else inl "zip: not a valid zip file".

Definition base : string := "http://generator".

Definition flags : Flags :=
  {| flag_template := None; flag_urlservice := Some base; flag_module := [];
     flag_groupid := None; flag_artifactid := None; flag_version := None;
     flag_packagename := None; flag_springbootversion := None;
     flag_snowdropbom := None |}.

(** Every flag given. *)
Definition all_flags : Flags :=
  {| flag_template := Some "crud"; flag_urlservice := Some base;
     flag_module := ["web"];
     flag_groupid := Some "com.example"; flag_artifactid := Some "demo";
     flag_version := Some "0.0.1-SNAPSHOT";
     flag_packagename := Some "com.example.demo";
     flag_springbootversion := Some "2.1.0";
     flag_snowdropbom := Some "x.y" |}.

(** The service answers the configuration and the module requests, and
    any request for an archive. *)
Definition service (u : string) : HttpReply :=
  if String.eqb u (base +:+ "/config") then Body "config-document"
  else if String.eqb u (base +:+ "/modules/2.1.0") then Body "modules-document"
  else if GoStrings.HasPrefix u (base +:+ "/app") then Body "archive-bytes"
  else DoErr "no such host".

(** The same service with the archive endpoint down. *)
Definition service_without_archive (u : string) : HttpReply :=
  if GoStrings.HasPrefix u (base +:+ "/app") then DoErr "connection refused"
  else service u.

Definition home : gmap string Node :=
  <["/home/u" := Dir 0x1ed]> (<["/home" := Dir 0x1ed]> ∅).

Definition world (script : list Reply) (n : string -> HttpReply) : World :=
  {| stdout := []; logged := []; shown := []; terminal := script;
     net := n; requests := []; fs := home; syscalls := [];
     umask := 0x12; cwd := inl "/home/u" |}.

(** The user takes version 2.1.0, declines the supported bom, asks for
    modules, picks two, and names the project. *)
Definition module_session : list Reply :=
  [ Answered (AText "2.1.0"); Answered (ABool false); Answered (ABool false);
    Answered (AList ["web"; "data-jpa"]);
    Answered (AText "me.snowdrop"); Answered (AText "myproject");
    Answered (AText "1.0.0-SNAPSHOT"); Answered (AText "me.snowdrop.myproject");
    Answered (AText "proj") ].

(** The user asks for a template instead. *)
Definition template_session : list Reply :=
  [ Answered (AText "2.1.0"); Answered (ABool false); Answered (ABool true);
    Answered (AText "rest");
    Answered (AText "me.snowdrop"); Answered (AText "myproject");
    Answered (AText "1.0.0-SNAPSHOT"); Answered (AText "me.snowdrop.myproject");
    Answered (AText "proj") ].

(** The template prompt fails with an error that is not an interrupt. *)
Definition broken_session : list Reply :=
  [ Answered (AText "2.1.0"); Answered (ABool false); Answered (ABool true);
    Failed (OtherErr "unexpected escape sequence from terminal");
    Answered (AText "me.snowdrop"); Answered (AText "myproject");
    Answered (AText "1.0.0-SNAPSHOT"); Answered (AText "me.snowdrop.myproject");
    Answered (AText "proj") ].

(** No template, two modules. *)
Definition two_modules : Project :=
  {| UrlService := base; SpringBootVersion := "2.1.0";
     SnowdropBomVersion := "x.y"; Template := "";
     Modules := ["web"; "data-jpa"]; GroupId := "me.snowdrop";
     ArtifactId := "myproject"; Version := "1.0.0-SNAPSHOT";
     PackageName := "me.snowdrop.myproject"; OutDir := "proj" |}.


Definition collect := Scaffold.collect Config string GetBOMMap
  GetSpringBootVersions GetSupportedVersionFor GetTemplateNames
  GetModuleNamesFor unmarshal_Config unmarshal_Modules.

Definition main := Scaffold.main Config string GetBOMMap
  GetSpringBootVersions GetSupportedVersionFor GetTemplateNames
  GetModuleNamesFor unmarshal_Config unmarshal_Modules zip_entries.

Definition Unzip := Scaffold.Unzip zip_entries.

(** A world with nobody at the terminal, and the same with the archive
    already on disk. *)
Definition offline : World := world [] service.

Definition zipped : World :=
  set_fs (<["/home/u/proj.zip" := File 0x1a4 "archive-bytes"]> home) offline.

(** The service hands out the hostile archive. *)
Definition hostile_service (u : string) : HttpReply :=
  if GoStrings.HasPrefix u (base +:+ "/app") then Body "hostile-bytes"
  else service u.

End Example.

(** ** Further vocabulary: what a computation leaves alone *)

(** [R] relates the world a computation starts in to the world it ends
    in, however it ends. *)
Definition always {A} (R : World -> World -> Prop) (c : Proc A) : Prop :=
  forall w r w', c w = (r, w') -> R w w'.

(** The file system is as it was, and no call was made on it. *)
Definition fs_untouched (w w' : World) : Prop :=
  fs w' = fs w /\ syscalls w' = syscalls w.

(** No request went out. *)
Definition net_untouched (w w' : World) : Prop :=
  requests w' = requests w /\ net w' = net w.

(** Nothing was asked at the terminal and nothing was printed. *)
Definition terminal_untouched (w w' : World) : Prop :=
  terminal w' = terminal w /\ shown w' = shown w /\ stdout w' = stdout w.

(** At most [n] requests went out, each of them with [P]; the network is
    the same. *)
Definition sent (n : nat) (P : string * string -> Prop) (w w' : World) : Prop :=
  net w' = net w /\
  exists l, requests w' = (requests w ++ l)%list /\
            (length l <= n)%nat /\ Forall P l.

(** A request to the service at [base]: the URL lies under [base] and the
    User-Agent is the one of the program. *)
Definition to_service (base : string) (r : string * string) : Prop :=
  GoStrings.HasPrefix (fst r) (base +:+ "/") = true /\ snd r = user_agent.

(** A request for the configuration or for a list of modules. *)
Definition metadata_request (base : string) (r : string * string) : Prop :=
  (fst r = yaml_url base "config" \/
   exists v, fst r = yaml_url base ("modules/" +:+ v)) /\
  snd r = user_agent.

(** A computation that returns has read [used] from the terminal: no
    interrupt among it, and at least [n] replies unless the terminal ran
    dry. *)
Definition takes (n : nat) {A} (c : Proc A) : Prop :=
  forall w a w', c w = (Ret a, w') ->
    exists used, terminal w = (used ++ terminal w')%list /\
                 (Failed InterruptErr ∉ used) /\
                 ((n <= length used)%nat \/ terminal w' = []).

(** What the collection of the answers does to the world: nothing to the
    file system, and at most [n] requests, for the configuration or for
    modules. *)
Definition collecting (n : nat) (base : string) (w w' : World) : Prop :=
  fs_untouched w w' /\ sent n (metadata_request base) w w'.

(** What unpacking does to the world, however it ends: the network and the
    terminal are left alone, what was a directory or a file stays one, and
    the files that no entry of [files] names are neither changed nor
    joined by new ones. *)
Definition unpacking (dest : string) (files : list ZipFile) (w w' : World) : Prop :=
  net_untouched w w' /\ terminal_untouched w w' /\ umask w' = umask w /\
  kinds_kept (fs w) (fs w') /\
  forall p, p ∉ map (entry_target dest) files ->
    (file_at (fs w) p -> fs w' !! p = fs w !! p) /\
    (file_at (fs w') p -> file_at (fs w) p).

(** How the materialization of the archive ends once the service has
    answered with a body: all done and the archive file removed, or the
    archive file could not be written and nothing has changed, or the
    unpacking failed and the archive file is still there. *)
Definition materialized (p : Project) (currentDir : string)
    (err : option string) (w w' : World) : Prop :=
  (err = None /\ fs w' !! zip_file p currentDir = None) \/
  (exists e, err = Some ("failed to download file " +:+ zip_file p currentDir
                         +:+ " due to " +:+ e) /\
             fs w' = fs w) \/
  (exists e, err = Some ("failed to unzip new project file "
                         +:+ zip_file p currentDir +:+ " due to " +:+ e) /\
             file_at (fs w') (zip_file p currentDir)).

(** A computation that leaves the process does so with status 1. *)
Definition exits_one {A} (c : Proc A) : Prop :=
  forall w n w', c w = (Exit n, w') -> n = 1.

(** The service answers: the configuration endpoint and every modules
    endpoint under [base] give a body without the unavailability marker
    that the decoder accepts. *)
Definition service_answers {Config ModuleInfo : Type}
    (unmarshal_Config : string -> string + Config)
    (unmarshal_Modules : string -> string + list ModuleInfo)
    (base : string) (n : string -> HttpReply) : Prop :=
  (exists body c,
     n (yaml_url base "config") = Body body /\
     GoStrings.Contains body Scaffold.unavailable_marker = false /\
     unmarshal_Config body = inr c) /\
  (forall v, exists body ms,
     n (yaml_url base ("modules/" +:+ v)) = Body body /\
     GoStrings.Contains body Scaffold.unavailable_marker = false /\
     unmarshal_Modules body = inr ms).



(** ** More of the example *)

Module Scenario.

(** The example service, answering the modules endpoint of any version. *)
Definition service (u : string) : HttpReply :=
  if GoStrings.HasPrefix u (Example.base +:+ "/modules/")
  then Body "modules-document"
  else Example.service u.

End Scenario.

(** A world of the example in which the user interrupts the second
    prompt. *)
Module Interrupted.

Definition world : World :=
  Example.world [Answered (AText "2.1.0"); Failed InterruptErr] Example.service.

End Interrupted.

(** The body that [getYamlFrom] decodes: the body of the response, or
    what had been read of it when the reading broke off. *)
Definition body_of (n : string -> HttpReply) (u : string) (body : string) : Prop :=
  n u = Body body \/ exists e, n u = ReadErr body e.

(** The prompts of [Proceed] and [Ask]. *)
Definition confirm_of (message : string) : Prompt :=
  {| Kind := KConfirm; Message := message; Options := []; Default := None |}.

Definition input_of (message : string) (defaultValue : list string) : Prompt :=
  {| Kind := KInput; Message := message; Options := [];
     Default := Prompts.default_of defaultValue |}.

(** The prompts of a run of [RunE] that gets to the archive request, in
    the order they are shown: [first] is the prompt for the Spring Boot
    version, [supported] tells whether the supported version is offered,
    [choice] is the prompt for the template or for the modules, and [p]
    and [currentDir] are the descriptor and the directory the run ends
    with. *)
Definition prompts_of (first : Prompt) (supported : bool) (choice : Prompt)
    (p : Project) (currentDir : string) : list Prompt :=
  first ::
  (if supported then [confirm_of "Use supported version"] else []) ++
  [ confirm_of "Create from template"; choice;
    input_of "Group Id" ["me.snowdrop"];
    input_of "Artifact Id" ["myproject"];
    input_of "Version" ["1.0.0-SNAPSHOT"];
    input_of "Package name" [GroupId p +:+ "." +:+ ArtifactId p];
    input_of ("Project location (immediate child directory of "
              +:+ currentDir +:+ ")") [] ].

(** How often the byte [t] occurs in [s]. *)
Fixpoint count_byte (t : ascii) (s : string) : nat :=
  match s with
  | EmptyString => 0
  | String c s' => (if Ascii.eqb c t then 1 else 0) + count_byte t s'
  end.

(** No element of the path [name] is "..". *)
Definition no_dotdot (name : string) : Prop :=
  Forall (fun e => e <> "..") (GoStrings.split_on filepath.Separator name).

(** The file system has only grown, and the modes are as the kernel sets
    them: a directory that was there has its mode, a file that was there
    is a file with its mode, and at a path that was free there is nothing,
    or a directory of mode 0777 less the umask, or a file. *)
Definition grown (um : Z) (m m' : gmap string Node) : Prop :=
  forall p,
    match m !! p with
    | Some (Dir q) => m' !! p = Some (Dir q)
    | Some (File q _) => exists c, m' !! p = Some (File q c)
    | None =>
        m' !! p = None \/
        m' !! p = Some (Dir (os.created_mode um os.ModePerm)) \/
        exists q c, m' !! p = Some (File q c)
    end.

Definition growing (w w' : World) : Prop :=
  umask w' = umask w /\ grown (umask w) (fs w) (fs w').

(** The descriptor of the example with no project location. *)
Module Nowhere.


End Nowhere.
(** ** Reasoning about [Proc] *)

Lemma bind_Ret_inv {A B} (c : Proc A) (k : A -> Proc B) w b w' :
  bind c k w = (Ret b, w') ->
  exists a w1, c w = (Ret a, w1) /\ k a w1 = (Ret b, w').
Proof.
  unfold bind. destruct (c w) as [[a|n|m] w1]; intros H; try discriminate.
  exists a, w1. split; [reflexivity | exact H].
Qed.

Lemma bind_Ret {A B} (c : Proc A) (k : A -> Proc B) w a w1 :
  c w = (Ret a, w1) -> bind c k w = k a w1.
Proof. unfold bind. intros ->. reflexivity. Qed.

Lemma bind_Exit {A B} (c : Proc A) (k : A -> Proc B) w n w1 :
  c w = (Exit n, w1) -> bind c k w = (Exit n, w1).
Proof. unfold bind. intros ->. reflexivity. Qed.

Lemma bind_Panic {A B} (c : Proc A) (k : A -> Proc B) w m w1 :
  c w = (Panic m, w1) -> bind c k w = (Panic m, w1).
Proof. unfold bind. intros ->. reflexivity. Qed.

Lemma returns_ret {A} (a : A) (Q : A -> Prop) : Q a -> returns (ret a) Q.
Proof. intros HQ w b w' H. injection H as <- _. exact HQ. Qed.

Lemma returns_bind {A B} (c : Proc A) (k : A -> Proc B) (P : A -> Prop)
    (Q : B -> Prop) :
  returns c P -> (forall a, P a -> returns (k a) Q) -> returns (bind c k) Q.
Proof.
  intros Hc Hk w b w' H.
  apply bind_Ret_inv in H as (a & w1 & Ha & Hb).
  exact (Hk a (Hc _ _ _ Ha) _ _ _ Hb).
Qed.

Lemma returns_anything {A} (c : Proc A) : returns c (fun _ => True).
Proof. intros w a w' _. exact I. Qed.





(** ** The order of [sort.Strings] *)

Lemma sort_Strings_Sorted l : Sorted String.le (GoStrings.sort_Strings l).
Proof. unfold GoStrings.sort_Strings. apply Sorted_merge_sort. apply _. Qed.

Lemma sort_Strings_Permutation l : GoStrings.sort_Strings l ≡ₚ l.
Proof. unfold GoStrings.sort_Strings. apply merge_sort_Permutation. Qed.

(** The sorted list does not depend on the order the options came in. *)
Lemma sort_Strings_input_order l1 l2 :
  l1 ≡ₚ l2 -> GoStrings.sort_Strings l1 = GoStrings.sort_Strings l2.
Proof.
  intros Hp. apply (Sorted_unique String.le).
  - apply sort_Strings_Sorted.
  - apply sort_Strings_Sorted.
  - rewrite !sort_Strings_Permutation. exact Hp.
Qed.

(** ** The prompt layer: what is shown *)

Lemma Cmd_Select_shown message options d w :
  shown (snd (Cmd.Select message options d w))
  = (shown w ++ [select_of message options d])%list.
Proof.
  unfold Cmd.Select, Prompts.askOne, bind, survey_AskOne, select_of.
  destruct (terminal w) as [|[[b|s|l]|[|msg]] rest]; reflexivity.
Qed.

Lemma Cmd_MultiSelect_shown message options w :
  shown (snd (Cmd.MultiSelect message options w))
  = (shown w ++ [multi_select_of message options])%list.
Proof.
  unfold Cmd.MultiSelect, bind, survey_AskOne, multi_select_of.
  destruct (terminal w) as [|[[b|s|l]|[|msg]] rest]; reflexivity.
Qed.

(** [pkg/ui]: whatever the order of the options, the prompt holds them
    sorted: a sorted rearrangement of the input, the same for every
    rearrangement of it. *)
Lemma UI_presents_sorted message options d w :
  exists presented,
    shown (snd (UI.Select message options d w))
      = (shown w ++ [select_of message presented d])%list /\
    shown (snd (UI.MultiSelect message options w))
      = (shown w ++ [multi_select_of message presented])%list /\
    Sorted String.le presented /\
    presented ≡ₚ options /\
    forall options', options' ≡ₚ options ->
      GoStrings.sort_Strings options' = presented.
Proof.
  exists (GoStrings.sort_Strings options).
  split; [apply Cmd_Select_shown|].
  split; [apply Cmd_MultiSelect_shown|].
  split; [apply sort_Strings_Sorted|].
  split; [apply sort_Strings_Permutation|].
  intros options' Hp. apply sort_Strings_input_order. exact Hp.
Qed.

Example UI_presents_c_a_b w :
  shown (snd (UI.Select "m" ["c"; "a"; "b"] [] w))
  = (shown w ++ [select_of "m" ["a"; "b"; "c"] []])%list.
Proof. apply Cmd_Select_shown. Qed.

(** C4. The copies of [Select] and [MultiSelect] in [cmd/scaffold.go],
    the ones [main] calls, do not sort: the options ["c"; "a"; "b"] are
    presented as ["c"; "a"; "b"], not as ["a"; "b"; "c"] the way the copies
    in [pkg/ui] present them. *)
Theorem Cmd_presents_input_order :
  forall w,
    shown (snd (Cmd.Select "m" ["c"; "a"; "b"] [] w))
      = (shown w ++ [select_of "m" ["c"; "a"; "b"] []])%list /\
    shown (snd (Cmd.MultiSelect "m" ["c"; "a"; "b"] w))
      = (shown w ++ [multi_select_of "m" ["c"; "a"; "b"]])%list /\
    select_of "m" ["c"; "a"; "b"] [] <> select_of "m" ["a"; "b"; "c"] [] /\
    shown (snd (UI.Select "m" ["c"; "a"; "b"] [] w))
      = (shown w ++ [select_of "m" ["a"; "b"; "c"] []])%list.
Proof.
  intros w. split; [apply Cmd_Select_shown|].
  split; [apply Cmd_MultiSelect_shown|].
  split; [discriminate|].
  apply UI_presents_c_a_b.
Qed.

(** ** The prompt layer: errors *)

(** C5. The four prompt operations handle errors alike: when the user
    interrupts the prompt the process exits with status 1; when the prompt
    fails in any other way the error is printed on standard output and the
    operation returns the zero value of its result type (false, the empty
    string, the empty list). *)
Theorem prompt_error_contract :
  forall (message : string) (options d : list string) (w : World)
         (r : Reply) (rest : list Reply),
    terminal w = r :: rest ->
    error_contract (Prompts.Proceed message) false r w /\
    error_contract (Cmd.Select message options d) "" r w /\
    error_contract (Cmd.MultiSelect message options) [] r w /\
    error_contract (Prompts.Ask message d) "" r w /\
    error_contract (UI.Select message options d) "" r w /\
    error_contract (UI.MultiSelect message options) [] r w.
Proof.
  intros message options d w r rest Ht.
  unfold error_contract, hard_stop, degrades, Prompts.Proceed, Cmd.Select,
    Cmd.MultiSelect, Prompts.Ask, UI.Select, UI.MultiSelect,
    Prompts.askOne, bind, survey_AskOne.
  rewrite Ht. destruct r as [a|[|msg]]; simpl; repeat split.
Qed.

Lemma prompt_error_contract_witness :
  hard_stop (Prompts.Proceed "Create from template")
    (Example.world [Failed InterruptErr] Example.service) /\
  degrades (Cmd.MultiSelect "Select modules" ["web"]) [] "broken pipe"
    (Example.world [Failed (OtherErr "broken pipe")] Example.service).
Proof.
  split.
  - apply (prompt_error_contract "Create from template" [] []
             (Example.world [Failed InterruptErr] Example.service)
           (Failed InterruptErr) []).
    reflexivity.
  - apply (prompt_error_contract "Select modules" ["web"] []
             (Example.world [Failed (OtherErr "broken pipe")] Example.service)
             (Failed (OtherErr "broken pipe")) []).
    reflexivity.
Defined.

(** ** The generator client *)

Section ClientFacts.
Import Scaffold.

Context {T : Type} (unmarshal : string -> string + T).

(** A body with the marker: fatal. *)
Lemma getYamlFrom_unavailable base endpoint w body :
  net w (yaml_url base endpoint) = Body body ->
  GoStrings.Contains body unavailable_marker = true ->
  getYamlFrom unmarshal base endpoint w
  = (Exit 1,
     set_logged (logged w ++ [LogFatal "Generator service is not available"])
       (set_requests (requests w ++ [(yaml_url base endpoint, user_agent)]) w)).
Proof.
  intros Hnet Hc.
  unfold getYamlFrom, bind, http_NewRequest, addClientHeader, client_Do,
    ioutil_ReadAll_Body, log_Fatal, os_Exit, modify, get, ret, bind.
  fold (yaml_url base endpoint). simpl. rewrite Hnet. simpl.
  rewrite Hnet. simpl. rewrite Hc. reflexivity.
Qed.

(** A body that does not parse: fatal. *)
Lemma getYamlFrom_unparsable base endpoint w body e :
  net w (yaml_url base endpoint) = Body body ->
  GoStrings.Contains body unavailable_marker = false ->
  unmarshal body = inl e ->
  getYamlFrom unmarshal base endpoint w
  = (Exit 1,
     set_logged (logged w ++ [LogFatal e])
       (set_requests (requests w ++ [(yaml_url base endpoint, user_agent)]) w)).
Proof.
  intros Hnet Hc Hu.
  unfold getYamlFrom, bind, http_NewRequest, addClientHeader, client_Do,
    ioutil_ReadAll_Body, log_Fatal, os_Exit, modify, get, ret, bind.
  fold (yaml_url base endpoint). simpl. rewrite Hnet. simpl.
  rewrite Hnet. simpl. rewrite Hc, Hu. reflexivity.
Qed.


(** C10. When the exchange of [getYamlFrom] fails, the error is logged
    and the function goes on: after a failed [http.NewRequest] it sets a
    header on the nil request, after a failed [client.Do] it reads the
    body of the nil response (a nil dereference both times), and after a
    failed read it treats the bytes read so far as the body and, when
    they parse, returns what they hold.  None of the three branches
    exits or returns, as the marker and the parse failure do. *)
Theorem getYamlFrom_goes_on_after_errors :
  forall (base endpoint : string) (w : World),
    (forall e, net w (yaml_url base endpoint) = NewRequestErr e ->
       getYamlFrom unmarshal base endpoint w
       = (Panic nil_dereference, set_logged (logged w ++ [LogError e]) w)) /\
    (forall e, net w (yaml_url base endpoint) = DoErr e ->
       getYamlFrom unmarshal base endpoint w
       = (Panic nil_dereference,
          set_logged (logged w ++ [LogError e])
            (set_requests (requests w ++ [(yaml_url base endpoint, user_agent)]) w))) /\
    (forall partial e v,
       net w (yaml_url base endpoint) = ReadErr partial e ->
       GoStrings.Contains partial unavailable_marker = false ->
       unmarshal partial = inr v ->
       getYamlFrom unmarshal base endpoint w
       = (Ret v,
          set_logged (logged w ++ [LogError e])
            (set_requests (requests w ++ [(yaml_url base endpoint, user_agent)]) w))).
Proof.
  intros base endpoint w. repeat split.
  - intros e Hnet.
    unfold getYamlFrom, bind, http_NewRequest, addClientHeader, client_Do,
      ioutil_ReadAll_Body, log_Error, panic, modify, get, ret, bind.
    fold (yaml_url base endpoint). simpl. rewrite Hnet. reflexivity.
  - intros e Hnet.
    unfold getYamlFrom, bind, http_NewRequest, addClientHeader, client_Do,
      ioutil_ReadAll_Body, log_Error, panic, modify, get, ret, bind.
    fold (yaml_url base endpoint). simpl. rewrite Hnet. simpl.
    rewrite Hnet. reflexivity.
  - intros partial e v Hnet Hc Hu.
    unfold getYamlFrom, bind, http_NewRequest, addClientHeader, client_Do,
      ioutil_ReadAll_Body, log_Error, panic, modify, get, ret, bind.
    fold (yaml_url base endpoint). simpl. rewrite Hnet. simpl.
    rewrite Hnet. simpl. rewrite Hc, Hu. reflexivity.
Qed.

End ClientFacts.

Lemma getYamlFrom_goes_on_after_errors_witness :
  fst (Scaffold.getYamlFrom Example.unmarshal_Config "http://[::1" "config"
         (Example.world [] (fun _ => NewRequestErr "missing ']' in host")))
    = Panic nil_dereference /\
  fst (Scaffold.getYamlFrom Example.unmarshal_Config Example.base "config"
         (Example.world [] (fun _ => DoErr "no such host")))
    = Panic nil_dereference /\
  fst (Scaffold.getYamlFrom Example.unmarshal_Config Example.base "config"
         (Example.world [] (fun _ => ReadErr "config-document" "unexpected EOF")))
    = Ret Example.config.
Proof.
  split; [|split].
  - rewrite (proj1 (getYamlFrom_goes_on_after_errors Example.unmarshal_Config
               "http://[::1" "config"
               (Example.world [] (fun _ => NewRequestErr "missing ']' in host")))
               "missing ']' in host"); reflexivity.
  - rewrite (proj1 (proj2 (getYamlFrom_goes_on_after_errors
               Example.unmarshal_Config Example.base "config"
               (Example.world [] (fun _ => DoErr "no such host"))))
               "no such host"); reflexivity.
  - rewrite (proj2 (proj2 (getYamlFrom_goes_on_after_errors
               Example.unmarshal_Config Example.base "config"
               (Example.world [] (fun _ => ReadErr "config-document" "unexpected EOF"))))
               "config-document" "unexpected EOF" Example.config);
      reflexivity.
Defined.

(** ** The command *)

Section ProgramFacts.
Import Scaffold.

Variable Config : Type.
Variable ModuleInfo : Type.
Variable GetBOMMap : Config -> gmap string BOM * string.
Variable GetSpringBootVersions : gmap string BOM -> list string.
Variable GetSupportedVersionFor : Config -> string -> string.
Variable GetTemplateNames : Config -> list string.
Variable GetModuleNamesFor : list ModuleInfo -> list string.
Variable unmarshal_Config : string -> string + Config.
Variable unmarshal_Modules : string -> string + list ModuleInfo.
Variable zip_entries : string -> string + list ZipFile.

Local Abbreviation collect := (Scaffold.collect Config ModuleInfo GetBOMMap
  GetSpringBootVersions GetSupportedVersionFor GetTemplateNames
  GetModuleNamesFor unmarshal_Config unmarshal_Modules).
Local Abbreviation materialize := (Scaffold.materialize zip_entries).
Local Abbreviation RunE := (Scaffold.RunE Config ModuleInfo GetBOMMap
  GetSpringBootVersions GetSupportedVersionFor GetTemplateNames
  GetModuleNamesFor unmarshal_Config unmarshal_Modules zip_entries).
Local Abbreviation Execute := (Scaffold.Execute Config ModuleInfo GetBOMMap
  GetSpringBootVersions GetSupportedVersionFor GetTemplateNames
  GetModuleNamesFor unmarshal_Config unmarshal_Modules zip_entries).
Local Abbreviation main := (Scaffold.main Config ModuleInfo GetBOMMap
  GetSpringBootVersions GetSupportedVersionFor GetTemplateNames
  GetModuleNamesFor unmarshal_Config unmarshal_Modules zip_entries).

(** Whatever ends the configuration request ends the process. *)
Lemma main_stops_with_config f args w n w' :
  (length args <= 1)%nat ->
  getGeneratorServiceConfig Config unmarshal_Config
    (UrlService (parse_flags f)) w = (Exit n, w') ->
  main f args w = (Exit n, w').
Proof.
  intros Hargs Hc.
  unfold Scaffold.main, Scaffold.Execute.
  replace (1 <? length args)%nat with false
    by (symmetry; apply Nat.ltb_ge; exact Hargs).
  apply bind_Exit. unfold Scaffold.RunE. apply bind_Exit.
  unfold Scaffold.collect. apply bind_Exit. exact Hc.
Qed.

(** C6. When the body of the configuration response holds the
    unavailability marker, or does not parse as YAML, the process ends
    with a fatal log line and status 1, and no prompt has been shown. *)
Theorem config_unavailable_or_unparsable_is_fatal :
  forall (f : Flags) (args : list string) (w : World) (body : string),
    (length args <= 1)%nat ->
    net w (yaml_url (UrlService (parse_flags f)) "config") = Body body ->
    GoStrings.Contains body unavailable_marker = true \/
      (exists e, unmarshal_Config body = inl e) ->
    exists w' msg,
      main f args w = (Exit 1, w') /\
      shown w' = shown w /\
      stdout w' = stdout w /\
      logged w' = (logged w ++ [LogFatal msg])%list.
Proof.
  intros f args w body Hargs Hnet Hbad.
  destruct (GoStrings.Contains body unavailable_marker) eqn:Hc.
  - eexists _, _. split.
    + apply main_stops_with_config; [exact Hargs|].
      unfold getGeneratorServiceConfig.
      apply getYamlFrom_unavailable with (body := body); assumption.
    + repeat split.
  - destruct Hbad as [Hbad | [e He]]; [discriminate|].
    eexists _, _. split.
    + apply main_stops_with_config; [exact Hargs|].
      unfold getGeneratorServiceConfig.
      apply getYamlFrom_unparsable with (body := body); eassumption.
    + repeat split.
Qed.

(** The error [Execute] returns is printed, and [main] returns. *)
Lemma main_returns_after_error f args w e w' :
  Execute f args w = (Ret (Some e), w') ->
  main f args w = (Ret tt, set_stdout (stdout w' ++ [e]) w') /\
  exit_status (fst (main f args w)) = 0.
Proof.
  intros He. unfold Scaffold.main.
  rewrite (bind_Ret _ _ _ _ _ He). split; reflexivity.
Qed.

End ProgramFacts.

Lemma config_unavailable_or_unparsable_is_fatal_witness :
  (exists w' msg,
     Example.main Example.flags []
       (Example.world Example.module_session
          (fun _ => Body "<h1>Application is not available</h1>"))
     = (Exit 1, w') /\
     shown w' = [] /\ stdout w' = [] /\ logged w' = [LogFatal msg]) /\
  (exists w' msg,
     Example.main Example.flags []
       (Example.world Example.module_session (fun _ => Body "versions: ["))
     = (Exit 1, w') /\
     shown w' = [] /\ stdout w' = [] /\ logged w' = [LogFatal msg]).
Proof.
  split.
  - apply (config_unavailable_or_unparsable_is_fatal _ _ Example.GetBOMMap
             Example.GetSpringBootVersions Example.GetSupportedVersionFor
             Example.GetTemplateNames Example.GetModuleNamesFor
             Example.unmarshal_Config Example.unmarshal_Modules
             Example.zip_entries Example.flags []
             (Example.world Example.module_session
                (fun _ => Body "<h1>Application is not available</h1>"))
             "<h1>Application is not available</h1>").
    + simpl. lia.
    + reflexivity.
    + left. reflexivity.
  - apply (config_unavailable_or_unparsable_is_fatal _ _ Example.GetBOMMap
             Example.GetSpringBootVersions Example.GetSupportedVersionFor
             Example.GetTemplateNames Example.GetModuleNamesFor
             Example.unmarshal_Config Example.unmarshal_Modules
             Example.zip_entries Example.flags []
             (Example.world Example.module_session (fun _ => Body "versions: ["))
             "versions: [").
    + simpl. lia.
    + reflexivity.
    + right. exists "yaml: unmarshal errors". reflexivity.
Defined.

(** C1. The archive request fails (the connection is refused): [RunE]
    returns the error, [main] prints its text and returns, and the process
    ends with status 0, not with a non-zero status. *)
Theorem main_prints_error_and_exits_zero :
  let r := Example.main Example.flags []
             (Example.world Example.module_session
                Example.service_without_archive) in
  fst r = Ret tt /\
  Scaffold.exit_status (fst r) = 0 /\
  stdout (snd r) = ["connection refused"].
Proof. vm_compute. repeat split. Qed.

(** ** The query of the archive request *)

Lemma fold_add_module ms : forall (form : url.Values),
  fold_left Scaffold.add_module ms form =
  match List.filter nonempty ms with
  | [] => form
  | l => <["module" := (default [] (form !! "module") ++ l)%list]> form
  end.
Proof.
  induction ms as [|v ms IH]; intros form; simpl; [reflexivity|].
  rewrite IH.
  assert (Hadd : Scaffold.add_module form v
                 = if String.eqb v "" then form else url.Add "module" v form)
    by reflexivity.
  assert (Hne : nonempty v = negb (String.eqb v "")) by reflexivity.
  rewrite Hadd, Hne.
  destruct (String.eqb v "") eqn:Hv; simpl; [reflexivity|].
  unfold url.Add. rewrite lookup_insert_eq. simpl.
  destruct (List.filter nonempty ms) as [|x l] eqn:Hf.
  - reflexivity.
  - rewrite insert_insert_eq. rewrite <- app_assoc. reflexivity.
Qed.

Lemma params_build_form p :
  url.params (Scaffold.build_form p) = query_of p.
Proof.
  unfold Scaffold.build_form, query_of. rewrite fold_add_module.
  destruct (List.filter nonempty (Modules p)) as [|x l].
  - vm_compute. reflexivity.
  - vm_compute. reflexivity.
Qed.

Lemma named_module_values (l : list string) :
  map snd (List.filter (fun kv : string * string => String.eqb (fst kv) "module")
             (map (fun v => ("module", v)) l)) = l.
Proof.
  induction l as [|v l IH]; [reflexivity|].
  simpl. rewrite IH. reflexivity.
Qed.

Lemma no_module_named_template (l : list string) :
  List.filter (fun kv : string * string => String.eqb (fst kv) "template")
    (map (fun v => ("module", v)) l) = [].
Proof.
  induction l as [|v l IH]; [reflexivity|].
  simpl. exact IH.
Qed.

Lemma params_named_module p :
  params_named "module" (Scaffold.build_form p)
  = List.filter nonempty (Modules p).
Proof.
  unfold params_named. rewrite params_build_form. unfold query_of.
  rewrite !List.filter_app, !map_app, named_module_values.
  simpl. apply app_nil_r.
Qed.

Lemma params_named_template p :
  params_named "template" (Scaffold.build_form p) = [Template p].
Proof.
  unfold params_named. rewrite params_build_form. unfold query_of.
  rewrite !List.filter_app, !map_app, no_module_named_template. reflexivity.
Qed.

(** C3, as the code has it.  For every descriptor with template "" and
    modules ["web"; "data-jpa"] the query holds two module parameters with
    exactly those values, and it also holds the template parameter, with
    the empty value.  In general there is one module parameter for every
    non-empty entry of the module list, in the order of the list, and the
    template parameter is written whatever the template is. *)
Theorem query_parameters :
  forall p : Project,
    params_named "module" (Scaffold.build_form p)
      = List.filter nonempty (Modules p) /\
    params_named "template" (Scaffold.build_form p) = [Template p] /\
    url.Encode (Scaffold.build_form p)
      = GoStrings.Join (map url.encode_param (query_of p)) "&" /\
    (Template p = "" -> Modules p = ["web"; "data-jpa"] ->
       params_named "module" (Scaffold.build_form p) = ["web"; "data-jpa"] /\
       params_named "template" (Scaffold.build_form p) = [""]).
Proof.
  intros p. split; [apply params_named_module|].
  split; [apply params_named_template|].
  split.
  - unfold url.Encode. rewrite params_build_form. reflexivity.
  - intros Ht Hm. rewrite params_named_module, params_named_template, Ht, Hm.
    split; reflexivity.
Qed.

Lemma query_parameters_witness :
  params_named "module" (Scaffold.build_form Example.two_modules)
    = ["web"; "data-jpa"] /\
  params_named "template" (Scaffold.build_form Example.two_modules) = [""].
Proof.
  apply (proj2 (proj2 (proj2 (query_parameters Example.two_modules))));
    reflexivity.
Defined.

(** The query of the example descriptor, byte for byte. *)
Example query_of_two_modules :
  Scaffold.request_url Example.two_modules
  = "http://generator/app?artifactid=myproject&groupid=me.snowdrop&module=web&module=data-jpa&outdir=proj&packagename=me.snowdrop.myproject&snowdropbom=x.y&springbootversion=2.1.0&template=&version=1.0.0-SNAPSHOT".
Proof. vm_compute. reflexivity. Qed.

(** C3, as stated, fails: a descriptor with template "" and modules
    ["web"; "data-jpa"] gives a query that does hold a template
    parameter. *)
Lemma query_holds_template_parameter :
  ~ (forall p : Project,
       Template p = "" -> Modules p = ["web"; "data-jpa"] ->
       params_named "module" (Scaffold.build_form p) = ["web"; "data-jpa"] /\
       params_named "template" (Scaffold.build_form p) = []).
Proof.
  intros H.
  destruct (H Example.two_modules eq_refl eq_refl) as [_ Ht].
  rewrite params_named_template in Ht. discriminate Ht.
Qed.

(** ** The flags and the prompts *)

Section FlagFacts.
Import Scaffold.

Variable Config : Type.
Variable ModuleInfo : Type.
Variable GetBOMMap : Config -> gmap string BOM * string.
Variable GetSpringBootVersions : gmap string BOM -> list string.
Variable GetSupportedVersionFor : Config -> string -> string.
Variable GetTemplateNames : Config -> list string.
Variable GetModuleNamesFor : list ModuleInfo -> list string.
Variable unmarshal_Config : string -> string + Config.
Variable unmarshal_Modules : string -> string + list ModuleInfo.
Variable zip_entries : string -> string + list ZipFile.

Local Abbreviation collect := (Scaffold.collect Config ModuleInfo GetBOMMap
  GetSpringBootVersions GetSupportedVersionFor GetTemplateNames
  GetModuleNamesFor unmarshal_Config unmarshal_Modules).
Local Abbreviation main := (Scaffold.main Config ModuleInfo GetBOMMap
  GetSpringBootVersions GetSupportedVersionFor GetTemplateNames
  GetModuleNamesFor unmarshal_Config unmarshal_Modules zip_entries).


(** The service URL is never prompted for, and of template and modules
    the prompts write one and leave the other as it was. *)
Lemma collect_keeps p :
  returns (collect p)
    (fun r => UrlService (fst r) = UrlService p /\
              ((Template (fst r) = Template p) \/ (Modules (fst r) = Modules p))).
Proof.
  unfold Scaffold.collect.
  eapply returns_bind; [apply returns_anything|]. intros c _.
  destruct (GetBOMMap c) as [versions defaultVersion].
  eapply returns_bind; [apply returns_anything|]. intros v _.
  cbn zeta.
  apply returns_bind with
    (P := fun p1 => UrlService p1 = UrlService p /\ Template p1 = Template p
                    /\ Modules p1 = Modules p).
  { destruct (0 <? length _)%nat.
    - eapply returns_bind; [apply returns_anything|]. intros yes _.
      destruct yes; apply returns_ret; repeat split.
    - apply returns_ret; repeat split. }
  intros p1 (H1 & H2 & H3).
  eapply returns_bind; [apply returns_anything|]. intros yes _.
  apply returns_bind with
    (P := fun p2 => UrlService p2 = UrlService p /\
                    (Template p2 = Template p \/ Modules p2 = Modules p)).
  { destruct yes.
    - eapply returns_bind; [apply returns_anything|]. intros t _.
      apply returns_ret. simpl. auto.
    - eapply returns_bind; [apply returns_anything|]. intros names _.
      eapply returns_bind; [apply returns_anything|]. intros m _.
      apply returns_ret. simpl. auto. }
  intros p2 (H4 & H5).
  eapply returns_bind; [apply returns_anything|]. intros g _.
  eapply returns_bind; [apply returns_anything|]. intros a _.
  eapply returns_bind; [apply returns_anything|]. intros v' _.
  eapply returns_bind; [apply returns_anything|]. intros n _.
  eapply returns_bind; [apply returns_anything|]. intros currentDir _.
  eapply returns_bind; [apply returns_anything|]. intros o _.
  apply returns_ret. simpl. auto.
Qed.


End FlagFacts.


(** What the prompts make of a command line that gives every flag. *)
Example collect_with_all_flags :
  fst (Example.collect (Scaffold.parse_flags Example.all_flags)
         (Example.world Example.template_session Example.service))
  = Ret ({| UrlService := "http://generator"; SpringBootVersion := "2.1.0";
            SnowdropBomVersion := "x.y"; Template := "rest";
            Modules := ["web"]; GroupId := "me.snowdrop";
            ArtifactId := "myproject"; Version := "1.0.0-SNAPSHOT";
            PackageName := "me.snowdrop.myproject"; OutDir := "proj" |},
         "/home/u").
Proof. vm_compute. reflexivity. Qed.


(** ** The file system and the extraction *)

Lemma stat_lookup m p :
  os.stat m p = m !! p \/ ((p = "/" \/ p = ".") /\ os.stat m p = Some (Dir 0x1ed)).
Proof.
  unfold os.stat.
  destruct (String.eqb p "/") eqn:H1; [right; split; [left; apply String.eqb_eq, H1| reflexivity]|].
  destruct (String.eqb p ".") eqn:H2; [right; split; [right; apply String.eqb_eq, H2| reflexivity]|].
  left. reflexivity.
Qed.

Lemma stat_None m p : os.stat m p = None -> m !! p = None /\ p <> "/" /\ p <> ".".
Proof.
  unfold os.stat.
  destruct (String.eqb p "/") eqn:H1; [discriminate|].
  destruct (String.eqb p ".") eqn:H2; [discriminate|].
  apply String.eqb_neq in H1, H2. simpl. auto.
Qed.

Lemma stat_insert_ne m p k n : k <> p -> os.stat (<[k := n]> m) p = os.stat m p.
Proof. intros H. unfold os.stat. rewrite lookup_insert_ne by exact H. reflexivity. Qed.

Lemma stat_insert_eq m k n : k <> "/" -> k <> "." -> os.stat (<[k := n]> m) k = Some n.
Proof.
  intros H1 H2. unfold os.stat.
  apply String.eqb_neq in H1, H2. rewrite H1, H2. simpl. apply lookup_insert_eq.
Qed.

Lemma kinds_kept_refl m : kinds_kept m m.
Proof. intros p. split; auto. Qed.

Lemma kinds_kept_trans m1 m2 m3 : kinds_kept m1 m2 -> kinds_kept m2 m3 -> kinds_kept m1 m3.
Proof. intros H1 H2 p. destruct (H1 p), (H2 p). split; auto. Qed.

(** Adding a node where there is none keeps all there is. *)
Lemma insert_fresh_kept m k n : os.stat m k = None -> kinds_kept m (<[k := n]> m).
Proof.
  intros Hs p. destruct (decide (k = p)) as [->|Hne].
  - split.
    + intros [q Hq]. congruence.
    + intros (q & c & Hq). apply stat_None in Hs as (Hs & _). congruence.
  - split.
    + intros [q Hq]. exists q. rewrite stat_insert_ne by exact Hne. exact Hq.
    + intros (q & c & Hq). exists q, c. rewrite lookup_insert_ne by exact Hne. exact Hq.
Qed.

Lemma mkdir_inr um path perm m m' :
  os.mkdir um path perm m = inr m' ->
  os.stat m path = None /\ m' = <[path := Dir (os.created_mode um perm)]> m.
Proof.
  unfold os.mkdir. destruct (String.eqb path ""); [discriminate|].
  destruct (os.stat m path) eqn:Hs; [discriminate|].
  destruct (os.parent_ok m path); [discriminate|].
  intros H. injection H as <-. auto.
Qed.

Lemma mkdir_all_inr fuel : forall um path perm m m',
  os.mkdir_all fuel um path perm m = inr m' ->
  kinds_kept m m' /\ dir_at m' path /\
  (forall p, file_at m p -> m' !! p = m !! p) /\
  (forall p, file_at m' p -> file_at m p).
Proof.
  induction fuel as [|fuel IH]; intros um path perm m m'; simpl.
  - destruct (os.stat m path) as [[q|q c]|] eqn:Hs.
    + intros H. injection H as <-. repeat split; auto. exists q. exact Hs.
    + discriminate.
    + intros H. apply mkdir_inr in H as (_ & ->).
      pose proof (stat_None _ _ Hs) as (Hl & H1 & H2).
      split; [apply insert_fresh_kept; exact Hs|].
      split; [eexists; apply stat_insert_eq; assumption|].
      split.
      * intros p (q & c & Hp). apply lookup_insert_ne. congruence.
      * intros p (q & c & Hp). destruct (decide (path = p)) as [->|Hne].
        -- rewrite lookup_insert_eq in Hp. discriminate.
        -- rewrite lookup_insert_ne in Hp by exact Hne. exists q, c. exact Hp.
  - destruct (os.stat m path) as [[q|q c]|] eqn:Hs.
    + intros H. injection H as <-. repeat split; auto. exists q. exact Hs.
    + discriminate.
    + assert (Hlast : forall m1, kinds_kept m m1 ->
                (forall p, file_at m p -> m1 !! p = m !! p) ->
                (forall p, file_at m1 p -> file_at m p) ->
                os.mkdir um path perm m1 = inr m' ->
                kinds_kept m m' /\ dir_at m' path /\
                (forall p, file_at m p -> m' !! p = m !! p) /\
                (forall p, file_at m' p -> file_at m p)).
      { intros m1 Hk Hf Hb H. apply mkdir_inr in H as (Hs1 & ->).
        pose proof (stat_None _ _ Hs1) as (Hl & H1 & H2).
        split; [eapply kinds_kept_trans; [exact Hk|apply insert_fresh_kept; exact Hs1]|].
        split; [eexists; apply stat_insert_eq; assumption|].
        split.
        - intros p Hp. rewrite <- (Hf p Hp).
          apply lookup_insert_ne. intros Heq. subst p.
          pose proof (Hf path Hp) as Hsame.
          destruct Hp as (q & c & Hp). congruence.
        - intros p (q & c & Hp). destruct (decide (path = p)) as [->|Hne].
          + rewrite lookup_insert_eq in Hp. discriminate.
          + rewrite lookup_insert_ne in Hp by exact Hne. apply Hb. exists q, c. exact Hp. }
      destruct (os.parent path) as [d|].
      * destruct (os.mkdir_all fuel um d perm m) as [e|m1] eqn:Hd; [discriminate|].
        apply IH in Hd as (Hk & _ & Hf & Hb). apply Hlast; assumption.
      * apply Hlast; auto using kinds_kept_refl.
Qed.

Lemma files_untouched_refl t m : files_untouched t m m.
Proof. intros p _. split; auto. Qed.

Lemma files_untouched_trans t m1 m2 m3 :
  files_untouched t m1 m2 -> files_untouched t m2 m3 -> files_untouched t m1 m3.
Proof.
  intros H1 H2 p Hp. destruct (H1 p Hp) as [H1a H1b], (H2 p Hp) as [H2a H2b].
  split.
  - intros Hf. rewrite <- (H1a Hf). apply H2a.
    destruct Hf as (q & c & Hf). exists q, c. rewrite (H1a (ex_intro _ q (ex_intro _ c Hf))). exact Hf.
  - auto.
Qed.

Lemma files_untouched_weaken t m m' :
  files_untouched None m m' -> files_untouched t m m'.
Proof. intros H p _. apply H. discriminate. Qed.

Lemma mkdir_all_step fuel um path perm m m' :
  os.mkdir_all fuel um path perm m = inr m' ->
  kinds_kept m m' /\ dir_at m' path /\ files_untouched None m m'.
Proof.
  intros H. apply mkdir_all_inr in H as (Hk & Hd & Hf & Hb).
  split; [exact Hk|]. split; [exact Hd|].
  intros p _. split; auto.
Qed.

Lemma open_trunc_step um name perm m m' :
  os.open_trunc um name perm m = inr m' ->
  kinds_kept m m' /\ files_untouched (Some name) m m' /\
  m' !! name = Some (File (match m !! name with
                           | Some (File q _) => q
                           | _ => os.created_mode um perm
                           end) "").
Proof.
  unfold os.open_trunc. destruct (String.eqb name ""); [discriminate|].
  destruct (os.stat m name) as [[q|q c]|] eqn:Hs; [discriminate| |].
  - intros H. injection H as <-.
    assert (Hl : m !! name = Some (File q c)).
    { destruct (stat_lookup m name) as [Heq|[_ Heq]]; congruence. }
    rewrite Hl. split; [|split].
    + intros p. destruct (decide (name = p)) as [->|Hne]; split.
      * intros [q' Hq'].
        destruct (stat_lookup m p) as [Heq|[_ Heq]]; congruence.
      * intros _. exists q, "". apply lookup_insert_eq.
      * intros [q' Hq']. exists q'. unfold os.stat in *.
        rewrite lookup_insert_ne by exact Hne. exact Hq'.
      * intros (q' & c' & Hq'). exists q', c'.
        rewrite lookup_insert_ne by exact Hne. exact Hq'.
    + intros p Hp. assert (name <> p) by congruence. split.
      * intros _. apply lookup_insert_ne. assumption.
      * intros (q' & c' & Hq'). exists q', c'.
        rewrite lookup_insert_ne in Hq' by assumption. exact Hq'.
    + apply lookup_insert_eq.
  - destruct (os.parent_ok m name); [discriminate|].
    intros H. injection H as <-.
    pose proof (stat_None _ _ Hs) as (Hl & H1 & H2). rewrite Hl.
    split; [apply insert_fresh_kept; exact Hs|]. split.
    + intros p Hp. assert (name <> p) by congruence. split.
      * intros _. apply lookup_insert_ne. assumption.
      * intros (q' & c' & Hq'). exists q', c'.
        rewrite lookup_insert_ne in Hq' by assumption. exact Hq'.
    + apply lookup_insert_eq.
Qed.

Lemma write_step name bytes m q c :
  m !! name = Some (File q c) ->
  kinds_kept m (os.write name bytes m) /\
  files_untouched (Some name) m (os.write name bytes m) /\
  os.write name bytes m !! name = Some (File q (c +:+ bytes)).
Proof.
  intros Hl. unfold os.write. rewrite Hl. split; [|split].
  - intros p. destruct (decide (name = p)) as [->|Hne]; split.
    + intros [q' Hq'].
      destruct (stat_lookup m p) as [Heq|[[->| ->] Heq]].
      * congruence.
      * exists 0x1ed. reflexivity.
      * exists 0x1ed. reflexivity.
    + intros _. eexists _, _. apply lookup_insert_eq.
    + intros [q' Hq']. exists q'. unfold os.stat in *.
      rewrite lookup_insert_ne by exact Hne. exact Hq'.
    + intros (q' & c' & Hq'). exists q', c'.
      rewrite lookup_insert_ne by exact Hne. exact Hq'.
  - intros p Hp. assert (name <> p) by congruence. split.
    + intros _. apply lookup_insert_ne. assumption.
    + intros (q' & c' & Hq'). exists q', c'.
      rewrite lookup_insert_ne in Hq' by assumption. exact Hq'.
  - apply lookup_insert_eq.
Qed.

Lemma MkdirAll_eq path perm w :
  os.MkdirAll path perm w =
  let w1 := set_syscalls (syscalls w ++ [OpMkdirAll path perm]) w in
  match os.mkdir_all (String.length path) (umask w) path perm (fs w) with
  | inl e => (Ret (Some e), w1)
  | inr m => (Ret None, set_fs m w1)
  end.
Proof. reflexivity. Qed.

Lemma OpenFile_eq name perm w :
  os.OpenFile name perm w =
  let w1 := set_syscalls (syscalls w ++ [OpOpenFile name perm]) w in
  match os.open_trunc (umask w) name perm (fs w) with
  | inl e => (Ret (Some e), w1)
  | inr m => (Ret None, set_fs m w1)
  end.
Proof. reflexivity. Qed.

Lemma Write_eq name bytes w :
  os.Write name bytes w =
  (Ret tt, set_fs (os.write name bytes (fs w))
             (set_syscalls (syscalls w ++ [OpWrite name bytes]) w)).
Proof. reflexivity. Qed.

Lemma extract_entry_done dest f w w' :
  Scaffold.extract_entry dest f w = (Ret None, w') -> entry_done dest f w w'.
Proof.
  unfold Scaffold.extract_entry, entry_done, entry_calls, entry_bytes, mode_after.
  fold (entry_target dest f). fold (entry_parent dest f).
  destruct (Data f) as [bytes|e|partial e] eqn:HD; [|discriminate|].
  - destruct (os.IsDir (Mode f)).
    + rewrite MkdirAll_eq. cbn zeta.
      destruct (os.mkdir_all _ _ _ _ _) as [e|m1] eqn:Hm; [discriminate|].
      intros H. injection H as <-. simpl.
      apply mkdir_all_step in Hm as (Hk & Hd & Hf).
      split; [reflexivity|]. split; [reflexivity|]. split; [exact Hk|].
      split; [apply files_untouched_weaken; exact Hf|].
      split; [exact Hd | exact Hf].
    + unfold bind. rewrite MkdirAll_eq. cbn zeta.
      destruct (os.mkdir_all _ _ _ _ _) as [e|m1] eqn:Hm; [discriminate|].
      rewrite OpenFile_eq. cbn zeta. simpl.
      destruct (os.open_trunc _ _ _ _) as [e|m2] eqn:Ho; [discriminate|].
      unfold ret. simpl.
      intros H. injection H as <-. simpl.
      apply mkdir_all_step in Hm as (Hk1 & _ & Hf1).
      apply open_trunc_step in Ho as (Hk2 & Hf2 & Hl2).
      destruct (write_step _ bytes _ _ _ Hl2) as (Hk3 & Hf3 & Hl3).
      split; [reflexivity|]. split; [rewrite <- !app_assoc; reflexivity|].
      split; [eauto using kinds_kept_trans|].
      split; [eauto using files_untouched_trans, files_untouched_weaken|].
      rewrite Hl3. simpl.
      destruct (fs w !! entry_target dest f) as [[q|q c]|] eqn:Hl.
      * (* a directory there: the lookup after MkdirAll is still not a file *)
        destruct (m1 !! entry_target dest f) as [[q1|q1 c1]|] eqn:Hl1; try reflexivity.
        destruct (Hf1 (entry_target dest f)) as [_ Hb]; [discriminate|].
        destruct Hb as (? & ? & ?); [eexists _, _; exact Hl1|]. congruence.
      * destruct (Hf1 (entry_target dest f)) as [Ha _]; [discriminate|].
        rewrite Ha by (exists q, c; exact Hl). rewrite Hl. reflexivity.
      * destruct (m1 !! entry_target dest f) as [[q1|q1 c1]|] eqn:Hl1; try reflexivity.
        destruct (Hf1 (entry_target dest f)) as [_ Hb]; [discriminate|].
        destruct Hb as (? & ? & ?); [eexists _, _; exact Hl1|]. congruence.
  - destruct (os.IsDir (Mode f)).
    + rewrite MkdirAll_eq. cbn zeta.
      destruct (os.mkdir_all _ _ _ _ _) as [e'|m1] eqn:Hm; [discriminate|].
      intros H. injection H as <-. simpl.
      apply mkdir_all_step in Hm as (Hk & Hd & Hf).
      split; [reflexivity|]. split; [reflexivity|]. split; [exact Hk|].
      split; [apply files_untouched_weaken; exact Hf|].
      split; [exact Hd | exact Hf].
    + unfold bind. rewrite MkdirAll_eq. cbn zeta.
      destruct (os.mkdir_all _ _ _ _ _) as [e'|m1] eqn:Hm; [discriminate|].
      rewrite OpenFile_eq. cbn zeta. simpl.
      destruct (os.open_trunc _ _ _ _) as [e'|m2] eqn:Ho; discriminate.
Qed.

Lemma extract_all_inv dest f rest w w' :
  Scaffold.extract_all dest (f :: rest) w = (Ret None, w') ->
  exists w1, Scaffold.extract_entry dest f w = (Ret None, w1) /\
             Scaffold.extract_all dest rest w1 = (Ret None, w').
Proof.
  simpl. intros H. apply bind_Ret_inv in H as (err & w1 & He & Hr).
  destruct err as [e|].
  - discriminate Hr.
  - exists w1. auto.
Qed.

Lemma extract_all_calls dest files : forall w w',
  Scaffold.extract_all dest files w = (Ret None, w') ->
  umask w' = umask w /\
  syscalls w' = (syscalls w ++ flat_map (entry_calls dest) files)%list /\
  kinds_kept (fs w) (fs w') /\
  forall p, p ∉ map (entry_target dest) files ->
    (file_at (fs w) p -> fs w' !! p = fs w !! p) /\
    (file_at (fs w') p -> file_at (fs w) p).
Proof.
  induction files as [|f rest IH]; intros w w' H.
  - injection H as <-. rewrite app_nil_r.
    repeat split; auto using kinds_kept_refl.
  - apply extract_all_inv in H as (w1 & He & Hr).
    apply extract_entry_done in He as (Hu & Hs & Hk & Hf & _).
    apply IH in Hr as (Hu' & Hs' & Hk' & Hf').
    split; [congruence|].
    split; [rewrite Hs', Hs; simpl; rewrite <- app_assoc; reflexivity|].
    split; [eauto using kinds_kept_trans|].
    intros p Hp. rewrite fmap_cons in Hp. apply not_elem_of_cons in Hp as (Hne & Hp).
    destruct (Hf p) as [Ha Hb]; [congruence|].
    destruct (Hf' p Hp) as [Ha' Hb'].
    split.
    + intros Hfile. rewrite <- (Ha Hfile). apply Ha'.
      destruct Hfile as (q & c & Hq). exists q, c. rewrite Ha; [exact Hq|].
      exists q, c. exact Hq.
    + auto.
Qed.

Lemma extract_all_entries dest files : forall w w',
  Scaffold.extract_all dest files w = (Ret None, w') ->
  NoDup (map (entry_target dest) files) ->
  forall f, f ∈ files ->
    if os.IsDir (Mode f) then dir_at (fs w') (entry_target dest f)
    else fs w' !! entry_target dest f
         = Some (File (mode_after (fs w) (umask w) dest f) (entry_bytes f)).
Proof.
  induction files as [|g rest IH]; intros w w' H Hnd f Hin.
  - apply elem_of_nil in Hin. contradiction.
  - apply extract_all_inv in H as (w1 & He & Hr).
    rewrite fmap_cons in Hnd. apply NoDup_cons in Hnd as (Hfresh & Hnd).
    pose proof (extract_entry_done _ _ _ _ He) as (Hu & _ & Hk & Hf & Hg).
    pose proof (extract_all_calls _ _ _ _ Hr) as (_ & _ & Hk' & Hf').
    apply elem_of_cons in Hin as [->|Hin].
    + destruct (os.IsDir (Mode g)).
      * destruct Hg as [Hd _]. apply (Hk' (entry_target dest g)). exact Hd.
      * destruct (Hf' _ Hfresh) as [Ha _].
        rewrite Ha by (eexists _, _; exact Hg). exact Hg.
    + specialize (IH _ _ Hr Hnd f Hin).
      destruct (os.IsDir (Mode f)); [exact IH|].
      rewrite IH. f_equal. f_equal. unfold mode_after. rewrite Hu.
      assert (Hne : entry_target dest g <> entry_target dest f).
      { intros Heq. apply Hfresh. rewrite Heq.
        apply (list_elem_of_fmap_2 (entry_target dest)). exact Hin. }
      destruct (Hf (entry_target dest f)) as [Ha Hb]; [congruence|].
      destruct (fs w !! entry_target dest f) as [[q|q c]|] eqn:Hl.
      * destruct (fs w1 !! entry_target dest f) as [[q1|q1 c1]|] eqn:Hl1; try reflexivity.
        destruct Hb as (? & ? & ?); [exists q1, c1; exact Hl1|]. congruence.
      * rewrite Ha by (exists q, c; exact Hl). reflexivity.
      * destruct (fs w1 !! entry_target dest f) as [[q1|q1 c1]|] eqn:Hl1; try reflexivity.
        destruct Hb as (? & ? & ?); [exists q1, c1; exact Hl1|]. congruence.
Qed.

Lemma small_bits mode n : 0 <= mode < 512 -> 9 <= n -> Z.testbit mode n = false.
Proof.
  intros Hm Hn. destruct (Z.eq_dec mode 0) as [->|Hz]; [apply Z.bits_0|].
  apply Z.bits_above_log2; [lia|].
  assert (Z.log2 mode < 9); [|lia].
  apply Z.log2_lt_pow2; lia.
Qed.

Lemma land_bit_0 mode k : 0 <= mode < 512 -> 9 <= k -> Z.land mode (Z.shiftl 1 k) = 0.
Proof.
  intros Hm Hk. apply Z.bits_inj'. intros n Hn.
  rewrite Z.land_spec, Z.bits_0.
  destruct (Z.ltb_spec n 9).
  - rewrite Z.shiftl_spec by lia.
    rewrite (Z.testbit_neg_r 1) by lia. apply andb_false_r.
  - rewrite small_bits by (assumption || lia). reflexivity.
Qed.

Lemma created_mode_plain um mode :
  0 <= mode < 512 -> Z.land mode um = 0 -> os.created_mode um mode = mode.
Proof.
  intros Hm Hu. unfold os.created_mode, os.syscallMode, os.ModeSetuid,
    os.ModeSetgid, os.ModeSticky.
  rewrite !land_bit_0 by (assumption || lia). simpl.
  assert (Hp : Z.land mode os.ModePerm = mode).
  { change os.ModePerm with (Z.ones 9). rewrite Z.land_ones by lia.
    apply Z.mod_small. lia. }
  rewrite Hp. apply Z.bits_inj'. intros n Hn.
  rewrite Z.land_spec, Z.lnot_spec by exact Hn.
  assert (Hb : Z.testbit (Z.land mode um) n = false) by (rewrite Hu; apply Z.bits_0).
  rewrite Z.land_spec in Hb.
  destruct (Z.testbit mode n), (Z.testbit um n); simpl in *; congruence.
Qed.

Lemma run_pair {A} (x : Result A * World) r : fst x = r -> x = (r, snd x).
Proof. destruct x. simpl. intros ->. reflexivity. Qed.

Lemma mode_after_new_file m um dest f :
  m !! entry_target dest f = None ->
  0 <= Mode f < 512 -> Z.land (Mode f) um = 0 ->
  mode_after m um dest f = Mode f.
Proof.
  intros Hl Hm Hu. unfold mode_after. rewrite Hl.
  apply created_mode_plain; assumption.
Qed.

Lemma ioutil_WriteFile_ok name data perm w w1 :
  ioutil_WriteFile name data perm w = (Ret None, w1) ->
  syscalls w1 = (syscalls w ++ [OpOpenFile name perm; OpWrite name data])%list /\
  umask w1 = umask w /\
  exists q, fs w1 !! name = Some (File q data).
Proof.
  unfold ioutil_WriteFile, bind. rewrite OpenFile_eq. cbn zeta.
  destruct (os.open_trunc _ _ _ _) as [e|m1] eqn:Ho; [discriminate|].
  simpl. intros H. injection H as <-. simpl.
  apply open_trunc_step in Ho as (_ & _ & Hl).
  destruct (write_step _ data _ _ _ Hl) as (_ & _ & Hl').
  split; [rewrite <- app_assoc; reflexivity|]. split; [reflexivity|].
  eexists. exact Hl'.
Qed.

Lemma Remove_ok name w w' :
  os.Remove name w = (Ret None, w') ->
  fs w' !! name = None /\
  syscalls w' = (syscalls w ++ [OpRemove name])%list.
Proof.
  unfold os.Remove, os.record, os.attempt, bind, modify. simpl.
  unfold os.remove.
  destruct (fs w !! name) as [[q|q c]|]; [|  |discriminate].
  - destruct (os.has_children _ _); [discriminate|].
    intros H. injection H as <-. simpl. split; [apply lookup_delete_eq|reflexivity].
  - intros H. injection H as <-. simpl. split; [apply lookup_delete_eq|reflexivity].
Qed.

(** Whatever happens to an entry, the calls made for it are the calls of
    the entry up to the one that failed. *)
Lemma extract_entry_calls dest f w :
  exists err w' made,
    Scaffold.extract_entry dest f w = (Ret err, w') /\
    syscalls w' = (syscalls w ++ made)%list /\
    made `prefix_of` entry_calls dest f /\
    (err = None -> made = entry_calls dest f).
Proof.
  unfold Scaffold.extract_entry, entry_calls, entry_bytes.
  fold (entry_target dest f). fold (entry_parent dest f).
  assert (Hdir : forall w0,
    exists err w' made,
      os.MkdirAll (entry_target dest f) os.ModePerm w0 = (Ret err, w') /\
      syscalls w' = (syscalls w0 ++ made)%list /\
      made `prefix_of` [OpMkdirAll (entry_target dest f) os.ModePerm] /\
      (err = None -> made = [OpMkdirAll (entry_target dest f) os.ModePerm])).
  { intros w0. rewrite MkdirAll_eq. cbn zeta.
    destruct (os.mkdir_all _ _ _ _ _) as [e|m1];
      eexists _, _, [_]; (split; [reflexivity|]); simpl; auto. }
  destruct (Data f) as [bytes|e|partial e] eqn:HD.
  - destruct (os.IsDir (Mode f)); [apply Hdir|].
    unfold bind. rewrite MkdirAll_eq. cbn zeta.
    destruct (os.mkdir_all _ _ _ _ _) as [e|m1].
    { eexists _, _, [_]. split; [reflexivity|]. simpl.
      split; [reflexivity|]. split; [eexists; reflexivity | discriminate]. }
    rewrite OpenFile_eq. cbn zeta. simpl.
    destruct (os.open_trunc _ _ _ _) as [e|m2].
    { eexists _, _, [_; _]. split; [reflexivity|]. simpl.
      split; [rewrite <- app_assoc; reflexivity|].
      split; [eexists; reflexivity | discriminate]. }
    eexists _, _, [_; _; _]. split; [reflexivity|]. simpl.
    split; [rewrite <- !app_assoc; reflexivity|]. auto.
  - exists (Some e), w, []. rewrite app_nil_r.
    split; [reflexivity|]. split; [reflexivity|].
    split; [apply prefix_nil | discriminate].
  - destruct (os.IsDir (Mode f)); [apply Hdir|].
    unfold bind. rewrite MkdirAll_eq. cbn zeta.
    destruct (os.mkdir_all _ _ _ _ _) as [e'|m1].
    { eexists _, _, [_]. split; [reflexivity|]. simpl.
      split; [reflexivity|]. split; [eexists; reflexivity | discriminate]. }
    rewrite OpenFile_eq. cbn zeta. simpl.
    destruct (os.open_trunc _ _ _ _) as [e'|m2].
    { eexists _, _, [_; _]. split; [reflexivity|]. simpl.
      split; [rewrite <- app_assoc; reflexivity|].
      split; [eexists; reflexivity | discriminate]. }
    eexists _, _, [_; _; _]. split; [reflexivity|]. simpl.
    split; [rewrite <- !app_assoc; reflexivity|]. auto.
Qed.

(** [Unzip] always comes back, having gone through the entries in the
    order of the archive up to the first one that failed, with no entry
    before that one left out. *)
Lemma extract_all_in_order dest files : forall w,
  exists err w' done todo made,
    Scaffold.extract_all dest files w = (Ret err, w') /\
    files = (done ++ todo)%list /\
    syscalls w'
    = (syscalls w ++ flat_map (entry_calls dest) done ++ made)%list /\
    match err with
    | None => todo = [] /\ made = []
    | Some _ => exists f rest, todo = f :: rest /\
                               made `prefix_of` entry_calls dest f
    end.
Proof.
  induction files as [|f rest IH]; intros w.
  - exists None, w, [], [], []. simpl. rewrite app_nil_r. auto.
  - destruct (extract_entry_calls dest f w) as (err & w1 & made & He & Hs & Hp & Hn).
    cbn [Scaffold.extract_all]. rewrite (bind_Ret _ _ _ _ _ He).
    destruct err as [e|].
    + exists (Some e), w1, [], (f :: rest), made. simpl.
      split; [reflexivity|]. split; [reflexivity|]. split; [exact Hs|].
      exists f, rest. auto.
    + destruct (IH w1) as (err & w' & done & todo & made' & Hr & Hf & Hs' & Hm).
      exists err, w', (f :: done), todo, made'.
      split; [exact Hr|]. split; [simpl; congruence|].
      split; [|exact Hm].
      rewrite Hs', Hs, (Hn eq_refl). simpl. rewrite <- !app_assoc. reflexivity.
Qed.

Section ExtractionFacts.
Variable zip_entries : string -> string + list ZipFile.

Lemma Unzip_ok src dest w w' :
  Scaffold.Unzip zip_entries src dest w = (Ret None, w') ->
  exists q content files,
    fs w !! src = Some (File q content) /\
    zip_entries content = inr files /\
    Scaffold.extract_all dest files w = (Ret None, w').
Proof.
  unfold Scaffold.Unzip, Scaffold.zip_OpenReader, bind, get, ret.
  destruct (fs w !! src) as [[q|q content]|]; try discriminate.
  destruct (zip_entries content) as [e|files] eqn:Hz; [discriminate|].
  intros H. exists q, content, files. auto.
Qed.

Lemma materialize_ok p currentDir w w' :
  Scaffold.materialize zip_entries p currentDir w = (Ret None, w') ->
  exists body files,
    net w (Scaffold.request_url p) = Body body /\
    zip_entries body = inr files /\
    syscalls w'
    = (syscalls w
       ++ [OpOpenFile (zip_file p currentDir) 0x1a4;
           OpWrite (zip_file p currentDir) body]
       ++ flat_map (entry_calls (target_dir p currentDir)) files
       ++ [OpRemove (zip_file p currentDir)])%list /\
    fs w' !! zip_file p currentDir = None.
Proof.
  unfold Scaffold.materialize.
  fold (target_dir p currentDir). fold (zip_file p currentDir).
  unfold log_Info, http_NewRequest, Scaffold.addClientHeader, client_Do,
    ioutil_ReadAll_Body, modify, get, panic, bind, ret. simpl.
  destruct (net w (Scaffold.request_url p)) as [e|e|partial e|body] eqn:Hnet;
    simpl; try discriminate; rewrite Hnet; simpl; try discriminate.
  destruct (ioutil_WriteFile _ _ _ _) as [[[e|]|n|m] w1] eqn:HW; try discriminate.
  destruct (Scaffold.Unzip _ _ _ _) as [[[e|]|n|m] w2] eqn:HU; try discriminate.
  destruct (os.Remove _ _) as [[[e|]|n|m] w3] eqn:HR; try discriminate.
  intros H. injection H as <-.
  apply ioutil_WriteFile_ok in HW as (Hs1 & Hu1 & q & Hl1).
  apply Unzip_ok in HU as (q' & content & files & Hl & Hz & He).
  apply extract_all_calls in He as (_ & Hs2 & _).
  apply Remove_ok in HR as (Hl3 & Hs3).
  rewrite Hl1 in Hl. injection Hl as <- <-.
  exists body, files. split; [reflexivity|]. split; [exact Hz|].
  split; [|exact Hl3].
  rewrite Hs3, Hs2, Hs1. simpl. rewrite <- !app_assoc. reflexivity.
Qed.


(** C8. [Unzip] goes through the entries in the order of the archive and
    leaves none out: it stops only at an entry that fails, and then
    returns the error.  An extraction that succeeds has gone through every
    entry: for a directory entry one
    [MkdirAll] of its path with mode 0777, for a file entry a [MkdirAll]
    of the parent with mode 0777, an [OpenFile] with the mode recorded in
    the entry, and a write of the bytes of the entry; afterwards the
    directories are there and the files hold their bytes.  When [RunE]
    succeeds the archive file it wrote is gone.  In the example run an
    archive of one directory and one file of mode 0644 leaves the
    directory and the file, with the same content and mode 0644, and no
    archive file. *)
Theorem extraction_is_complete :
  (forall (src dest : string) (w w' : World),
     Scaffold.Unzip zip_entries src dest w = (Ret None, w') ->
     exists q content files,
       fs w !! src = Some (File q content) /\
       zip_entries content = inr files /\
       syscalls w' = (syscalls w ++ flat_map (entry_calls dest) files)%list /\
       (NoDup (map (entry_target dest) files) ->
        forall f, f ∈ files ->
          if os.IsDir (Mode f) then dir_at (fs w') (entry_target dest f)
          else fs w' !! entry_target dest f
               = Some (File (mode_after (fs w) (umask w) dest f)
                         (entry_bytes f)))) /\
  (forall (src dest : string) (w : World) q content files,
     fs w !! src = Some (File q content) ->
     zip_entries content = inr files ->
     exists err w' done todo made,
       Scaffold.Unzip zip_entries src dest w = (Ret err, w') /\
       files = (done ++ todo)%list /\
       syscalls w'
       = (syscalls w ++ flat_map (entry_calls dest) done ++ made)%list /\
       match err with
       | None => todo = [] /\ made = []
       | Some _ => exists f rest, todo = f :: rest /\
                                  made `prefix_of` entry_calls dest f
       end) /\
  (forall (p : Project) (currentDir : string) (w w' : World),
     Scaffold.materialize zip_entries p currentDir w = (Ret None, w') ->
     fs w' !! zip_file p currentDir = None /\
     exists body files,
       net w (Scaffold.request_url p) = Body body /\
       zip_entries body = inr files /\
       syscalls w'
       = (syscalls w
          ++ [OpOpenFile (zip_file p currentDir) 0x1a4;
              OpWrite (zip_file p currentDir) body]
          ++ flat_map (entry_calls (target_dir p currentDir)) files
          ++ [OpRemove (zip_file p currentDir)])%list) /\
  (let r := Example.main Example.flags []
              (Example.world Example.module_session Example.service) in
   fst r = Ret tt /\
   stdout (snd r) = [] /\
   fs (snd r) !! "/home/u/proj/src" = Some (Dir 0x1ed) /\
   fs (snd r) !! "/home/u/proj/src/App.java"
     = Some (File 0x1a4 "class App {}") /\
   fs (snd r) !! "/home/u/proj.zip" = None).
Proof.
  split; [|split; [|split]].
  - intros src dest w w' H.
    apply Unzip_ok in H as (q & content & files & Hl & Hz & He).
    exists q, content, files.
    split; [exact Hl|]. split; [exact Hz|].
    split; [apply (extract_all_calls _ _ _ _ He)|].
    intros Hnd f Hin. exact (extract_all_entries _ _ _ _ He Hnd f Hin).
  - intros src dest w q content files Hl Hz.
    destruct (extract_all_in_order dest files w)
      as (err & w' & done & todo & made & Hr & Hrest).
    exists err, w', done, todo, made. split; [|exact Hrest].
    unfold Scaffold.Unzip, Scaffold.zip_OpenReader, bind, get, ret.
    rewrite Hl, Hz. exact Hr.
  - intros p currentDir w w' H.
    apply materialize_ok in H as (body & files & Hn & Hz & Hs & Hl).
    split; [exact Hl|]. exists body, files. auto.
  - vm_compute. repeat split.
Qed.

End ExtractionFacts.

Lemma extraction_is_complete_witness :
  exists q content files,
    fs Example.zipped !! "/home/u/proj.zip" = Some (File q content) /\
    Example.zip_entries content = inr files /\
    syscalls (snd (Example.Unzip "/home/u/proj.zip" "/home/u/proj" Example.zipped))
    = (syscalls Example.zipped
       ++ flat_map (entry_calls "/home/u/proj") files)%list /\
    (NoDup (map (entry_target "/home/u/proj") files) ->
     forall f, f ∈ files ->
       if os.IsDir (Mode f)
       then dir_at
              (fs (snd (Example.Unzip "/home/u/proj.zip" "/home/u/proj"
                          Example.zipped)))
              (entry_target "/home/u/proj" f)
       else fs (snd (Example.Unzip "/home/u/proj.zip" "/home/u/proj"
                       Example.zipped))
              !! entry_target "/home/u/proj" f
            = Some (File (mode_after (fs Example.zipped) (umask Example.zipped)
                            "/home/u/proj" f)
                      (entry_bytes f))).
Proof.
  refine (proj1 (extraction_is_complete Example.zip_entries)
            "/home/u/proj.zip" "/home/u/proj" Example.zipped
            (snd (Example.Unzip "/home/u/proj.zip" "/home/u/proj" Example.zipped))
            _).
  refine (run_pair
            (Example.Unzip "/home/u/proj.zip" "/home/u/proj" Example.zipped)
            (Ret None) _).
  vm_compute. reflexivity.
Defined.

(** C9. The path an entry is written to is [filepath.Join] of the
    destination and the name recorded in the entry, and nothing looks at
    where that path lies: an entry named "../evil.txt" unpacked into
    /home/u/proj is written to /home/u/evil.txt, outside the destination. *)
Theorem unzip_target_is_unchecked :
  (forall (dest : string) (f : ZipFile) (w w' : World),
     Scaffold.extract_entry dest f w = (Ret None, w') ->
     if os.IsDir (Mode f)
     then dir_at (fs w') (filepath.Join [dest; Name f])
     else fs w' !! filepath.Join [dest; Name f]
          = Some (File (mode_after (fs w) (umask w) dest f) (entry_bytes f))) /\
  (exists (dest : string) (f : ZipFile) (w : World),
     GoStrings.Contains (Name f) ".." = true /\
     fst (Scaffold.extract_entry dest f w) = Ret None /\
     inside dest (filepath.Join [dest; Name f]) = false /\
     fs w !! filepath.Join [dest; Name f] = None /\
     fs (snd (Scaffold.extract_entry dest f w)) !! filepath.Join [dest; Name f]
       = Some (File (Mode f) (entry_bytes f))).
Proof.
  split.
  - intros dest f w w' H.
    apply extract_entry_done in H as (_ & _ & _ & _ & H).
    destruct (os.IsDir (Mode f)); [apply H | exact H].
  - exists "/home/u/proj", Example.evil, Example.offline.
    vm_compute. repeat split.
Qed.

Lemma unzip_target_is_unchecked_witness :
  fs (snd (Scaffold.extract_entry "/home/u/proj" Example.evil Example.offline))
    !! filepath.Join ["/home/u/proj"; Name Example.evil]
  = Some (File (mode_after (fs Example.offline) (umask Example.offline)
                  "/home/u/proj" Example.evil)
            (entry_bytes Example.evil)).
Proof.
  refine (proj1 unzip_target_is_unchecked "/home/u/proj" Example.evil
            Example.offline
            (snd (Scaffold.extract_entry "/home/u/proj" Example.evil
                    Example.offline)) _).
  refine (run_pair
            (Scaffold.extract_entry "/home/u/proj" Example.evil Example.offline)
            (Ret None) _).
  vm_compute. reflexivity.
Defined.

(** The hostile archive, served: the run ends well and the file lies next
    to the project directory, not in it. *)
Example main_writes_outside :
  let r := Example.main Example.flags []
             (Example.world Example.module_session Example.hostile_service) in
  fst r = Ret tt /\
  fs (snd r) !! "/home/u/evil.txt" = Some (File 0x1a4 "gotcha") /\
  inside "/home/u/proj" "/home/u/evil.txt" = false.
Proof. vm_compute. repeat split. Qed.

(** ** Template or modules *)

Lemma quiet_ret {A} (a : A) (Post : A -> Prop) : Post a -> quiet_spec (ret a) Post.
Proof.
  intros HP w b w' H Ht. injection H as <- <-.
  split; [exact Ht|]. exists []. rewrite app_nil_r. auto.
Qed.

Lemma quiet_bind {A B} (c : Proc A) (k : A -> Proc B) (P : A -> Prop) (Q : B -> Prop) :
  quiet_spec c P ->
  (forall a, quiet_spec (k a) (fun b => P a -> Q b)) ->
  quiet_spec (bind c k) Q.
Proof.
  intros Hc Hk w b w' H Ht.
  apply bind_Ret_inv in H as (a & w1 & Ha & Hb).
  destruct (Hc _ _ _ Ha Ht) as (Ht1 & l1 & Hs1 & HP).
  destruct (Hk a _ _ _ Hb Ht1) as (Ht2 & l2 & Hs2 & HQ).
  split; [exact Ht2|]. exists (l1 ++ l2)%list.
  split; [rewrite Hs2, Hs1, app_assoc; reflexivity|].
  intros Hl. apply app_eq_nil in Hl as [-> ->]. auto.
Qed.

Lemma quiet_weaken {A} (c : Proc A) (P Q : A -> Prop) :
  quiet_spec c P -> (forall a, P a -> Q a) -> quiet_spec c Q.
Proof.
  intros Hc HPQ w a w' H Ht.
  destruct (Hc _ _ _ H Ht) as (Ht1 & l & Hs & HP).
  split; [exact Ht1|]. exists l. split; [exact Hs|]. auto.
Qed.

Lemma quiet_silent {A} (c : Proc A) (Post : A -> Prop) :
  silent c -> (forall a, Post a) -> quiet_spec c Post.
Proof.
  intros Hc HP w a w' H Ht. destruct (Hc _ _ _ H) as [Hterm Hout].
  split; [rewrite Hterm; exact Ht|]. exists []. rewrite app_nil_r. auto.
Qed.

(** One reply is taken from the terminal; an error that is not an
    interrupt adds a line to the output. *)
Ltac one_reply :=
  let Hterm := fresh "Hterm" in
  let H := fresh "H" in
  let Ht := fresh "Ht" in
  intros w a w';
  unfold Cmd.Select, Cmd.MultiSelect, Prompts.Proceed,
    Prompts.Ask, Prompts.askOne, bind, survey_AskOne;
  destruct (terminal w) as [|[[b|s|l]|[|msg]] rest] eqn:Hterm; simpl;
  intros H Ht; try discriminate; injection H as <- <-; simpl;
  (split;
   [ first [ rewrite Hterm; exact Ht | exact (Forall_inv_tail Ht) ]
   | first [ exists []; rewrite app_nil_r; split; [reflexivity|];
             intros _; first [ exact I | exact (Forall_inv Ht) ]
           | eexists [_]; split; [reflexivity | discriminate] ] ]).

Lemma quiet_select message options d :
  quiet_spec (Cmd.Select message options d) (fun s => s <> "").
Proof. one_reply. Qed.

Lemma quiet_multi_select message options :
  quiet_spec (Cmd.MultiSelect message options) (fun l => l <> []).
Proof. one_reply. Qed.

Lemma quiet_Proceed message :
  quiet_spec (Prompts.Proceed message) (fun _ => True).
Proof. one_reply. Qed.

Lemma quiet_Ask message d :
  quiet_spec (Prompts.Ask message d) (fun _ => True).
Proof. one_reply. Qed.

Lemma silent_getYamlFrom {T} (unmarshal : string -> string + T) base endpoint :
  silent (Scaffold.getYamlFrom unmarshal base endpoint).
Proof.
  intros w r w'.
  unfold Scaffold.getYamlFrom, http_NewRequest, Scaffold.addClientHeader, client_Do,
    ioutil_ReadAll_Body, log_Error, log_Fatal, os_Exit, panic, modify, get, bind, ret.
  simpl.
  destruct (net w _) as [e|e|partial e|body] eqn:Hnet; simpl;
    try rewrite Hnet; simpl.
  - intros H. injection H as <- <-. auto.
  - intros H. injection H as <- <-. auto.
  - destruct (GoStrings.Contains partial _); simpl.
    + intros H. injection H as <- <-. auto.
    + destruct (unmarshal partial); intros H; injection H as <- <-; auto.
  - destruct (GoStrings.Contains body _); simpl.
    + intros H. injection H as <- <-. auto.
    + destruct (unmarshal body); intros H; injection H as <- <-; auto.
Qed.

Lemma silent_Getwd : silent os.Getwd.
Proof. intros w r w' H. injection H as <- <-. auto. Qed.

Lemma quiet_bind_any {A B} (c : Proc A) (k : A -> Proc B) (Q : B -> Prop) :
  quiet_spec c (fun _ => True) ->
  (forall a, quiet_spec (k a) Q) ->
  quiet_spec (bind c k) Q.
Proof.
  intros Hc Hk. apply quiet_bind with (P := fun _ => True); [exact Hc|].
  intros a. eapply quiet_weaken; [apply Hk|]. auto.
Qed.

Lemma quiet_any {A} (c : Proc A) (P : A -> Prop) :
  quiet_spec c P -> quiet_spec c (fun _ => True).
Proof. intros H. eapply quiet_weaken; [exact H|]. auto. Qed.

Section QuietFacts.
Import Scaffold.

Variable Config : Type.
Variable ModuleInfo : Type.
Variable GetBOMMap : Config -> gmap string BOM * string.
Variable GetSpringBootVersions : gmap string BOM -> list string.
Variable GetSupportedVersionFor : Config -> string -> string.
Variable GetTemplateNames : Config -> list string.
Variable GetModuleNamesFor : list ModuleInfo -> list string.
Variable unmarshal_Config : string -> string + Config.
Variable unmarshal_Modules : string -> string + list ModuleInfo.

Local Abbreviation collect := (Scaffold.collect Config ModuleInfo GetBOMMap
  GetSpringBootVersions GetSupportedVersionFor GetTemplateNames
  GetModuleNamesFor unmarshal_Config unmarshal_Modules).

(** Without a template or modules to start from, and with no prompt error
    on the way, the descriptor ends with one of the two. *)
Lemma collect_quiet p :
  Template p = "" -> Modules p = [] ->
  quiet_spec (collect p) (fun r => template_xor_modules (fst r)).
Proof.
  intros HT HM. unfold Scaffold.collect.
  apply quiet_bind_any;
    [apply quiet_silent; [apply silent_getYamlFrom | auto]|].
  intros c. destruct (GetBOMMap c) as [versions defaultVersion].
  apply quiet_bind_any; [exact (quiet_any _ _ (quiet_select _ _ _))|].
  intros v. cbn zeta.
  apply quiet_bind with (P := fun p1 => Template p1 = "" /\ Modules p1 = []).
  { destruct (0 <? length _)%nat.
    - apply quiet_bind_any; [apply quiet_Proceed|].
      intros yes. destruct yes; apply quiet_ret; simpl; auto.
    - apply quiet_ret; simpl; auto. }
  intros p1.
  apply quiet_bind_any; [apply quiet_Proceed|]. intros yes.
  apply quiet_bind with
    (P := fun p2 => Template p1 = "" /\ Modules p1 = [] -> template_xor_modules p2).
  { destruct yes.
    - eapply quiet_bind; [apply quiet_select|].
      intros t. apply quiet_ret. intros Ht (H1 & H2). left. simpl. auto.
    - unfold getCompatibleModuleNameFor.
      apply quiet_bind_any.
      { apply quiet_bind_any;
          [apply quiet_silent; [apply silent_getYamlFrom | auto]|].
        intros modules. apply quiet_ret. exact I. }
      intros names.
      eapply quiet_bind; [apply quiet_multi_select|].
      intros m. apply quiet_ret. intros Hm (H1 & H2). right. simpl. auto. }
  intros p2.
  apply quiet_bind_any; [apply quiet_Ask|]. intros g.
  apply quiet_bind_any; [apply quiet_Ask|]. intros a.
  apply quiet_bind_any; [apply quiet_Ask|]. intros v'.
  apply quiet_bind_any; [apply quiet_Ask|]. intros n.
  apply quiet_bind_any; [apply quiet_silent; [apply silent_Getwd | auto]|].
  intros currentDir.
  apply quiet_bind_any; [apply quiet_Ask|]. intros o.
  apply quiet_ret. intros Hx H1. specialize (Hx H1).
  unfold template_xor_modules in *. simpl. exact Hx.
Qed.

Local Abbreviation collect_keeps' := (collect_keeps Config ModuleInfo GetBOMMap
  GetSpringBootVersions GetSupportedVersionFor GetTemplateNames
  GetModuleNamesFor unmarshal_Config unmarshal_Modules).

(** C2, as the code has it.  When neither --template nor --module is given,
    the descriptor that reaches the archive request never has both a
    template and modules; and it has exactly one of them when no prompt
    failed on the way (nothing was printed) and the answers are not empty,
    as [survey.Required] makes them. *)
Theorem template_or_modules :
  forall (f : Flags) (w : World) (p : Project) (d : string) (w' : World),
    flag_template f = None ->
    flag_module f = [] ->
    collect (parse_flags f) w = (Ret (p, d), w') ->
    (Template p = "" \/ Modules p = []) /\
    (Forall required_ok (terminal w) -> stdout w' = stdout w ->
     template_xor_modules p).
Proof.
  intros f w p d w' Hft Hfm Hrun.
  assert (HT : Template (parse_flags f) = "") by (simpl; rewrite Hft; reflexivity).
  assert (HM : Modules (parse_flags f) = []) by exact Hfm.
  split.
  - destruct (collect_keeps' (parse_flags f) w (p, d) w' Hrun) as [_ [H|H]];
      cbn [fst] in H.
    + left. congruence.
    + right. congruence.
  - intros Hok Hout.
    destruct (collect_quiet (parse_flags f) HT HM w (p, d) w' Hrun Hok)
      as (_ & l & Hl & Hpost).
    apply Hpost.
    rewrite Hout in Hl. rewrite <- (app_nil_r (stdout w)) in Hl at 1.
    apply app_inv_head in Hl. symmetry. exact Hl.
Qed.

End QuietFacts.

Lemma template_or_modules_witness :
  template_xor_modules
    {| UrlService := "http://generator"; SpringBootVersion := "2.1.0";
       SnowdropBomVersion := "x.y"; Template := "";
       Modules := ["web"; "data-jpa"]; GroupId := "me.snowdrop";
       ArtifactId := "myproject"; Version := "1.0.0-SNAPSHOT";
       PackageName := "me.snowdrop.myproject"; OutDir := "proj" |}.
Proof.
  refine (proj2 (template_or_modules _ _ Example.GetBOMMap
            Example.GetSpringBootVersions Example.GetSupportedVersionFor
            Example.GetTemplateNames Example.GetModuleNamesFor
            Example.unmarshal_Config Example.unmarshal_Modules
            Example.flags (Example.world Example.module_session Example.service)
            _ "/home/u"
            (snd (Example.collect (Scaffold.parse_flags Example.flags)
                    (Example.world Example.module_session Example.service)))
            eq_refl eq_refl _) _ _).
  - refine (run_pair
              (Example.collect (Scaffold.parse_flags Example.flags)
                 (Example.world Example.module_session Example.service)) _ _).
    vm_compute. reflexivity.
  - unfold Example.world, Example.module_session. simpl.
    repeat constructor; discriminate.
  - vm_compute. reflexivity.
Defined.

(** C2, as stated, fails: with --template and --module both given and the
    template prompt answered, the descriptor has a template and modules. *)
Lemma template_and_modules_together :
  ~ (forall (f : Scaffold.Flags) (w : World) p d w',
       Example.collect (Scaffold.parse_flags f) w = (Ret (p, d), w') ->
       template_xor_modules p).
Proof.
  intros H.
  assert (Hr : forall r : Result (Project * string) * World,
               r = (fst r, snd r)) by (intros [a b]; reflexivity).
  specialize (Hr (Example.collect (Scaffold.parse_flags Example.all_flags)
                    (Example.world Example.template_session Example.service))).
  rewrite collect_with_all_flags in Hr.
  apply H in Hr. destruct Hr as [[_ Hm] | [Ht _]]; discriminate.
Qed.

(** And after a prompt error that is not an interrupt it has neither. *)
Example neither_template_nor_modules :
  exists p d,
    fst (Example.collect (Scaffold.parse_flags Example.flags)
           (Example.world Example.broken_session Example.service))
    = Ret (p, d) /\ Template p = "" /\ Modules p = [].
Proof. eexists _, _. vm_compute. repeat split. Qed.

(** ** The recursion of [MkdirAll] ends *)

Lemma last_index_from_bound sep s : forall i j,
  GoStrings.last_index_from i sep s = Some j ->
  (i <= j < i + String.length s)%nat.
Proof.
  induction s as [|c s IH]; intros i j; simpl; [discriminate|].
  destruct (GoStrings.last_index_from (S i) sep s) as [k|] eqn:Hk.
  - intros H. injection H as <-. apply IH in Hk. lia.
  - destruct (Ascii.eqb c sep); [|discriminate].
    intros H. injection H as <-. lia.
Qed.

Lemma length_substring_0 n : forall s,
  (n <= String.length s)%nat -> String.length (substring 0 n s) = n.
Proof.
  induction n as [|n IH]; intros [|c s] Hn; simpl in *; try reflexivity; try lia.
  rewrite IH by lia. reflexivity.
Qed.

(** The parent of a path is a shorter path. *)
Lemma parent_shorter path d :
  os.parent path = Some d -> (String.length d < String.length path)%nat.
Proof.
  unfold os.parent, GoStrings.LastIndex.
  destruct (GoStrings.last_index_from 0 filepath.Separator path) as [[|j]|] eqn:Hl;
    try discriminate.
  intros H. injection H as <-.
  apply last_index_from_bound in Hl. unfold GoStrings.slice_to.
  rewrite length_substring_0 by lia. lia.
Qed.

Lemma mkdir_all_one_more um perm m fuel : forall path,
  (String.length path <= fuel)%nat ->
  os.mkdir_all (S fuel) um path perm m = os.mkdir_all fuel um path perm m.
Proof.
  induction fuel as [|fuel IH]; intros path Hlen.
  - simpl. destruct (os.stat m path) as [[q|q c]|]; try reflexivity.
    destruct (os.parent path) as [d|] eqn:Hp; [|reflexivity].
    apply parent_shorter in Hp. lia.
  - change (os.mkdir_all (S (S fuel)) um path perm m)
      with (match os.stat m path with
            | Some (Dir _) => inr m
            | Some (File _ _) => inl ("mkdir " +:+ path +:+ ": not a directory")
            | None =>
                match os.parent path with
                | Some d =>
                    match os.mkdir_all (S fuel) um d perm m with
                    | inl e => inl e
                    | inr m' => os.mkdir um path perm m'
                    end
                | None => os.mkdir um path perm m
                end
            end).
    change (os.mkdir_all (S fuel) um path perm m)
      with (match os.stat m path with
            | Some (Dir _) => inr m
            | Some (File _ _) => inl ("mkdir " +:+ path +:+ ": not a directory")
            | None =>
                match os.parent path with
                | Some d =>
                    match os.mkdir_all fuel um d perm m with
                    | inl e => inl e
                    | inr m' => os.mkdir um path perm m'
                    end
                | None => os.mkdir um path perm m
                end
            end).
    destruct (os.stat m path) as [[q|q c]|]; try reflexivity.
    destruct (os.parent path) as [d|] eqn:Hp; [|reflexivity].
    apply parent_shorter in Hp. rewrite IH by lia. reflexivity.
Qed.

(** The fuel [MkdirAll] starts with, the length of the path, is enough:
    more of it changes nothing. *)
Lemma mkdir_all_enough_fuel um perm m path extra :
  os.mkdir_all (String.length path + extra) um path perm m
  = os.mkdir_all (String.length path) um path perm m.
Proof.
  induction extra as [|extra IH].
  - rewrite Nat.add_0_r. reflexivity.
  - rewrite Nat.add_succ_r, mkdir_all_one_more by lia. exact IH.
Qed.

(** ** What a computation leaves alone *)

Lemma always_bind {A B} (R : World -> World -> Prop) (c : Proc A)
    (k : A -> Proc B) :
  (forall w1 w2 w3, R w1 w2 -> R w2 w3 -> R w1 w3) ->
  always R c -> (forall a, always R (k a)) -> always R (bind c k).
Proof.
  intros Htrans Hc Hk w r w' H. unfold bind in H.
  destruct (c w) as [[a|n|m] w1] eqn:Hcw.
  - exact (Htrans _ _ _ (Hc _ _ _ Hcw) (Hk a _ _ _ H)).
  - injection H as <- <-. exact (Hc _ _ _ Hcw).
  - injection H as <- <-. exact (Hc _ _ _ Hcw).
Qed.

Lemma always_ret {A} (R : World -> World -> Prop) (a : A) :
  (forall w, R w w) -> always R (ret a).
Proof. intros Hrefl w r w' H. injection H as <- <-. apply Hrefl. Qed.

Lemma always_weaken {A} (R S : World -> World -> Prop) (c : Proc A) :
  (forall w w', R w w' -> S w w') -> always R c -> always S c.
Proof. intros HRS Hc w r w' H. exact (HRS _ _ (Hc _ _ _ H)). Qed.

Lemma fs_untouched_refl w : fs_untouched w w.
Proof. split; reflexivity. Qed.

Lemma fs_untouched_trans w1 w2 w3 :
  fs_untouched w1 w2 -> fs_untouched w2 w3 -> fs_untouched w1 w3.
Proof. intros [H1 H2] [H3 H4]. split; congruence. Qed.

Lemma net_untouched_refl w : net_untouched w w.
Proof. split; reflexivity. Qed.

Lemma net_untouched_trans w1 w2 w3 :
  net_untouched w1 w2 -> net_untouched w2 w3 -> net_untouched w1 w3.
Proof. intros [H1 H2] [H3 H4]. split; congruence. Qed.

Lemma terminal_untouched_refl w : terminal_untouched w w.
Proof. repeat split; reflexivity. Qed.

Lemma terminal_untouched_trans w1 w2 w3 :
  terminal_untouched w1 w2 -> terminal_untouched w2 w3 ->
  terminal_untouched w1 w3.
Proof. intros (H1 & H2 & H3) (H4 & H5 & H6). repeat split; congruence. Qed.

(** A prompt reads the terminal and may print; it touches neither the
    network nor the file system. *)
Ltac prompt_step :=
  let H := fresh "H" in
  intros w r w';
  unfold Cmd.Select, Cmd.MultiSelect, UI.Select, UI.MultiSelect,
    Prompts.Proceed, Prompts.Ask, Prompts.askOne, bind, survey_AskOne;
  destruct (terminal w) as [|[[b|s|l]|[|msg]] rest]; simpl;
  intros H; injection H as <- <-; repeat split; reflexivity.

Lemma Proceed_local message :
  always (fun w w' => fs_untouched w w' /\ net_untouched w w')
    (Prompts.Proceed message).
Proof. prompt_step. Qed.

Lemma Ask_local message d :
  always (fun w w' => fs_untouched w w' /\ net_untouched w w')
    (Prompts.Ask message d).
Proof. prompt_step. Qed.

Lemma Select_local message options d :
  always (fun w w' => fs_untouched w w' /\ net_untouched w w')
    (Cmd.Select message options d).
Proof. prompt_step. Qed.

Lemma MultiSelect_local message options :
  always (fun w w' => fs_untouched w w' /\ net_untouched w w')
    (Cmd.MultiSelect message options).
Proof. prompt_step. Qed.

Lemma Getwd_local :
  always (fun w w' => fs_untouched w w' /\ net_untouched w w') os.Getwd.
Proof. intros w r w' H. injection H as <- <-. repeat split; reflexivity. Qed.

(** ** The requests of a run *)

Lemma sent_refl P w : sent 0 P w w.
Proof.
  split; [reflexivity|]. exists []. rewrite app_nil_r. repeat split; auto.
Qed.

Lemma sent_trans n m P w1 w2 w3 :
  sent n P w1 w2 -> sent m P w2 w3 -> sent (n + m) P w1 w3.
Proof.
  intros (Hn1 & l1 & Hr1 & Hl1 & HP1) (Hn2 & l2 & Hr2 & Hl2 & HP2).
  split; [congruence|]. exists (l1 ++ l2)%list.
  split; [rewrite Hr2, Hr1, app_assoc; reflexivity|].
  split; [rewrite length_app; lia|]. apply Forall_app. auto.
Qed.

Lemma sent_more n m P w w' : (n <= m)%nat -> sent n P w w' -> sent m P w w'.
Proof.
  intros Hnm (Hn & l & Hr & Hl & HP). split; [exact Hn|].
  exists l. repeat split; auto. lia.
Qed.

Lemma sent_of_untouched P w w' : net_untouched w w' -> sent 0 P w w'.
Proof.
  intros [Hr Hn]. split; [exact Hn|]. exists []. rewrite app_nil_r.
  repeat split; auto.
Qed.

Lemma sends_bind {A B} n m P (c : Proc A) (k : A -> Proc B) :
  always (sent n P) c -> (forall a, always (sent m P) (k a)) ->
  always (sent (n + m) P) (bind c k).
Proof.
  intros Hc Hk w r w' H. unfold bind in H.
  destruct (c w) as [[a|e|e] w1] eqn:Hcw.
  - exact (sent_trans _ _ _ _ _ _ (Hc _ _ _ Hcw) (Hk a _ _ _ H)).
  - injection H as <- <-. apply sent_more with (n := n); [lia|].
    exact (Hc _ _ _ Hcw).
  - injection H as <- <-. apply sent_more with (n := n); [lia|].
    exact (Hc _ _ _ Hcw).
Qed.

Lemma sends_local {A} P (c : Proc A) :
  always (fun w w' => fs_untouched w w' /\ net_untouched w w') c ->
  always (sent 0 P) c.
Proof.
  apply always_weaken. intros w w' [_ H]. apply sent_of_untouched. exact H.
Qed.

Lemma append_assoc (s t u : string) : (s +:+ t) +:+ u = s +:+ (t +:+ u).
Proof.
  induction s as [|c s IH]; [reflexivity|].
  change (String c ((s +:+ t) +:+ u) = String c (s +:+ (t +:+ u))).
  rewrite IH. reflexivity.
Qed.

Lemma HasPrefix_app s t : GoStrings.HasPrefix (s +:+ t) s = true.
Proof.
  induction s as [|c s IH]; simpl; [destruct t; reflexivity|].
  rewrite Ascii.eqb_refl. exact IH.
Qed.

Lemma HasPrefix_empty s : GoStrings.HasPrefix s "" = true.
Proof. destruct s; reflexivity. Qed.

Lemma HasPrefix_app_more s t u :
  GoStrings.HasPrefix s t = true -> GoStrings.HasPrefix (s +:+ u) t = true.
Proof.
  revert s. induction t as [|c t IH]; intros s; [intros _; apply HasPrefix_empty|].
  destruct s as [|d s]; simpl; [discriminate|].
  destruct (Ascii.eqb c d); [apply IH | discriminate].
Qed.

(** One request, to the service, with the header. *)
Lemma getYamlFrom_sends {T} (unmarshal : string -> string + T) base endpoint :
  always (fun w w' => fs_untouched w w' /\ terminal_untouched w w' /\
                      sent 1 (to_service base) w w')
    (Scaffold.getYamlFrom unmarshal base endpoint).
Proof.
  intros w r w'.
  assert (Hto : to_service base (yaml_url base endpoint, user_agent)).
  { split; [|reflexivity]. unfold yaml_url. cbn [fst GoStrings.Join].
    rewrite <- append_assoc. apply HasPrefix_app. }
  unfold Scaffold.getYamlFrom, http_NewRequest, Scaffold.addClientHeader,
    client_Do, ioutil_ReadAll_Body, log_Error, log_Fatal, os_Exit, panic,
    modify, get, bind, ret.
  fold (yaml_url base endpoint). simpl.
  assert (Hone : forall w0 w1 : World,
            net w1 = net w0 ->
            requests w1 = (requests w0 ++ [(yaml_url base endpoint, user_agent)])%list ->
            sent 1 (to_service base) w0 w1).
  { intros w0 w1 Hn Hr. split; [exact Hn|]. eexists. split; [exact Hr|].
    split; [simpl; lia|]. constructor; [exact Hto | constructor]. }
  destruct (net w _) as [e|e|partial e|body] eqn:Hnet; simpl;
    try rewrite Hnet; simpl.
  - intros H. injection H as <- <-.
    repeat split; try reflexivity. apply sent_more with (n := 0%nat); [lia|].
    apply sent_of_untouched. split; reflexivity.
  - intros H. injection H as <- <-. repeat split; try reflexivity.
    apply Hone; reflexivity.
  - destruct (GoStrings.Contains partial _); simpl.
    + intros H. injection H as <- <-. repeat split; try reflexivity.
      apply Hone; reflexivity.
    + destruct (unmarshal partial); intros H; injection H as <- <-;
        repeat split; try reflexivity; apply Hone; reflexivity.
  - destruct (GoStrings.Contains body _); simpl.
    + intros H. injection H as <- <-. repeat split; try reflexivity.
      apply Hone; reflexivity.
    + destruct (unmarshal body); intros H; injection H as <- <-;
        repeat split; try reflexivity; apply Hone; reflexivity.
Qed.

Lemma always_bind_val {A B} (R : World -> World -> Prop) (P : A -> Prop)
    (c : Proc A) (k : A -> Proc B) :
  (forall w1 w2 w3, R w1 w2 -> R w2 w3 -> R w1 w3) ->
  always R c -> returns c P -> (forall a, P a -> always R (k a)) ->
  always R (bind c k).
Proof.
  intros Htrans Hc HP Hk w r w' H. unfold bind in H.
  destruct (c w) as [[a|n|m] w1] eqn:Hcw.
  - exact (Htrans _ _ _ (Hc _ _ _ Hcw) (Hk a (HP _ _ _ Hcw) _ _ _ H)).
  - injection H as <- <-. exact (Hc _ _ _ Hcw).
  - injection H as <- <-. exact (Hc _ _ _ Hcw).
Qed.

Lemma sends_bind_val {A B} n m Q (P : A -> Prop) (c : Proc A) (k : A -> Proc B) :
  always (sent n Q) c -> returns c P ->
  (forall a, P a -> always (sent m Q) (k a)) ->
  always (sent (n + m) Q) (bind c k).
Proof.
  intros Hc HP Hk w r w' H. unfold bind in H.
  destruct (c w) as [[a|e|e] w1] eqn:Hcw.
  - exact (sent_trans _ _ _ _ _ _ (Hc _ _ _ Hcw) (Hk a (HP _ _ _ Hcw) _ _ _ H)).
  - injection H as <- <-. apply sent_more with (n := n); [lia|].
    exact (Hc _ _ _ Hcw).
  - injection H as <- <-. apply sent_more with (n := n); [lia|].
    exact (Hc _ _ _ Hcw).
Qed.

Lemma sent_weaken n (P Q : string * string -> Prop) w w' :
  (forall r, P r -> Q r) -> sent n P w w' -> sent n Q w w'.
Proof.
  intros HPQ (Hn & l & Hr & Hl & HP). split; [exact Hn|].
  exists l. repeat split; auto. eapply Forall_impl; eauto.
Qed.

Lemma metadata_to_service base r : metadata_request base r -> to_service base r.
Proof.
  intros [[Hu | [v Hu]] Ha]; (split; [|exact Ha]); rewrite Hu;
    unfold yaml_url; cbn [GoStrings.Join]; rewrite <- append_assoc;
    apply HasPrefix_app.
Qed.

(** [getYamlFrom] touches neither the file system nor the terminal, and
    sends at most the one request for its endpoint. *)
Lemma getYamlFrom_footprint {T} (unmarshal : string -> string + T) base endpoint :
  always (fun w w' =>
            fs_untouched w w' /\ terminal_untouched w w' /\
            net w' = net w /\
            (requests w' = requests w \/
             requests w' = (requests w ++ [(yaml_url base endpoint, user_agent)])%list))
    (Scaffold.getYamlFrom unmarshal base endpoint).
Proof.
  intros w r w'.
  unfold Scaffold.getYamlFrom, http_NewRequest, Scaffold.addClientHeader,
    client_Do, ioutil_ReadAll_Body, log_Error, log_Fatal, os_Exit, panic,
    modify, get, bind, ret.
  fold (yaml_url base endpoint). simpl.
  destruct (net w _) as [e|e|partial e|body] eqn:Hnet; simpl;
    try rewrite Hnet; simpl.
  - intros H. injection H as <- <-. repeat split; auto.
  - intros H. injection H as <- <-. repeat split; auto.
  - destruct (GoStrings.Contains partial _); simpl.
    + intros H. injection H as <- <-. repeat split; auto.
    + destruct (unmarshal partial); intros H; injection H as <- <-;
        repeat split; auto.
  - destruct (GoStrings.Contains body _); simpl.
    + intros H. injection H as <- <-. repeat split; auto.
    + destruct (unmarshal body); intros H; injection H as <- <-;
        repeat split; auto.
Qed.

Lemma getYamlFrom_metadata {T} (unmarshal : string -> string + T) base endpoint :
  metadata_request base (yaml_url base endpoint, user_agent) ->
  always (fun w w' => fs_untouched w w' /\ sent 1 (metadata_request base) w w')
    (Scaffold.getYamlFrom unmarshal base endpoint).
Proof.
  intros Hm w r w' H.
  destruct (getYamlFrom_footprint unmarshal base endpoint w r w' H)
    as (Hfs & _ & Hn & Hr).
  split; [exact Hfs|]. split; [exact Hn|]. destruct Hr as [Hr|Hr].
  - exists []. rewrite app_nil_r. repeat split; auto.
  - eexists. split; [exact Hr|]. split; [simpl; lia|].
    constructor; [exact Hm | constructor].
Qed.

(** ** What [collect] touches *)

Lemma collecting_trans n m base w1 w2 w3 :
  collecting n base w1 w2 -> collecting m base w2 w3 ->
  collecting (n + m) base w1 w3.
Proof.
  intros [H1 H2] [H3 H4]. split.
  - eapply fs_untouched_trans; eauto.
  - eapply sent_trans; eauto.
Qed.

Lemma collecting_more n m base w w' :
  (n <= m)%nat -> collecting n base w w' -> collecting m base w w'.
Proof. intros Hnm [H1 H2]. split; [exact H1|]. eapply sent_more; eauto. Qed.

Lemma collecting_bind {A B} n m base (P : A -> Prop) (c : Proc A)
    (k : A -> Proc B) :
  always (collecting n base) c -> returns c P ->
  (forall a, P a -> always (collecting m base) (k a)) ->
  always (collecting (n + m) base) (bind c k).
Proof.
  intros Hc HP Hk w r w' H. unfold bind in H.
  destruct (c w) as [[a|e|e] w1] eqn:Hcw.
  - exact (collecting_trans _ _ _ _ _ _ (Hc _ _ _ Hcw)
             (Hk a (HP _ _ _ Hcw) _ _ _ H)).
  - injection H as <- <-. apply collecting_more with (n := n); [lia|].
    exact (Hc _ _ _ Hcw).
  - injection H as <- <-. apply collecting_more with (n := n); [lia|].
    exact (Hc _ _ _ Hcw).
Qed.

Lemma collecting_local {A} base (c : Proc A) :
  always (fun w w' => fs_untouched w w' /\ net_untouched w w') c ->
  always (collecting 0 base) c.
Proof.
  apply always_weaken. intros w w' [Hf Hn]. split; [exact Hf|].
  apply sent_of_untouched. exact Hn.
Qed.

Lemma collecting_ret {A} base (a : A) : always (collecting 0 base) (ret a).
Proof.
  apply always_ret. intros w. split; [apply fs_untouched_refl | apply sent_refl].
Qed.

Lemma collecting_step {A B} m base (c : Proc A) (k : A -> Proc B) :
  always (fun w w' => fs_untouched w w' /\ net_untouched w w') c ->
  (forall a, always (collecting m base) (k a)) ->
  always (collecting m base) (bind c k).
Proof.
  intros Hc Hk.
  apply (collecting_bind 0 m base (fun _ => True));
    [apply collecting_local; exact Hc | apply returns_anything | auto].
Qed.

Section CollectFacts.
Import Scaffold.

Variable Config : Type.
Variable ModuleInfo : Type.
Variable GetBOMMap : Config -> gmap string BOM * string.
Variable GetSpringBootVersions : gmap string BOM -> list string.
Variable GetSupportedVersionFor : Config -> string -> string.
Variable GetTemplateNames : Config -> list string.
Variable GetModuleNamesFor : list ModuleInfo -> list string.
Variable unmarshal_Config : string -> string + Config.
Variable unmarshal_Modules : string -> string + list ModuleInfo.
Variable zip_entries : string -> string + list ZipFile.

Local Abbreviation collect := (Scaffold.collect Config ModuleInfo GetBOMMap
  GetSpringBootVersions GetSupportedVersionFor GetTemplateNames
  GetModuleNamesFor unmarshal_Config unmarshal_Modules).

(** While the answers are collected the file system is not touched, and
    what is requested is the configuration and, at most once, a list of
    modules. *)
Lemma collect_footprint p :
  always (collecting 2 (UrlService p)) (collect p).
Proof.
  unfold Scaffold.collect.
  apply (collecting_bind 1 1 _ (fun _ => True)); [| apply returns_anything |].
  { unfold getGeneratorServiceConfig. apply getYamlFrom_metadata.
    split; [left; reflexivity | reflexivity]. }
  intros c _. destruct (GetBOMMap c) as [versions defaultVersion].
  apply collecting_step; [apply Select_local|]. intros v. cbn zeta.
  apply (collecting_bind 0 1 _ (fun p1 => UrlService p1 = UrlService p)).
  { destruct (0 <? length _)%nat.
    - apply collecting_step; [apply Proceed_local|].
      intros yes. destruct yes; apply collecting_ret.
    - apply collecting_ret. }
  { destruct (0 <? length _)%nat.
    - eapply returns_bind; [apply returns_anything|]. intros yes _.
      destruct yes; apply returns_ret; reflexivity.
    - apply returns_ret; reflexivity. }
  intros p1 Hp1.
  apply collecting_step; [apply Proceed_local|]. intros yes.
  apply (collecting_bind 1 0 _ (fun _ => True)); [| apply returns_anything |].
  { destruct yes.
    - apply (always_weaken (collecting 0 (UrlService p)));
        [intros w w'; apply collecting_more; lia|].
      apply collecting_step; [apply Select_local|]. intros t.
      apply collecting_ret.
    - apply (collecting_bind 1 0 _ (fun _ => True));
        [| apply returns_anything |].
      + unfold getCompatibleModuleNameFor. rewrite Hp1.
        apply (collecting_bind 1 0 _ (fun _ => True));
          [| apply returns_anything | intros; apply collecting_ret].
        apply getYamlFrom_metadata.
        split; [right; eexists; reflexivity | reflexivity].
      + intros names _.
        apply collecting_step; [apply MultiSelect_local|]. intros m.
        apply collecting_ret. }
  intros p2 _.
  apply collecting_step; [apply Ask_local|]. intros g.
  apply collecting_step; [apply Ask_local|]. intros a.
  apply collecting_step; [apply Ask_local|]. intros v'.
  apply collecting_step; [apply Ask_local|]. intros n.
  apply collecting_step; [apply Getwd_local|]. intros currentDir.
  apply collecting_step; [apply Ask_local|]. intros o.
  apply collecting_ret.
Qed.

End CollectFacts.

(** ** Unpacking, however it ends *)

Lemma unpacking_refl dest files w : unpacking dest files w w.
Proof.
  split; [apply net_untouched_refl|]. split; [apply terminal_untouched_refl|].
  split; [reflexivity|]. split; [apply kinds_kept_refl|]. intros p _. auto.
Qed.

Lemma unpacking_cons dest f rest w1 w2 w3 :
  unpacking dest [f] w1 w2 -> unpacking dest rest w2 w3 ->
  unpacking dest (f :: rest) w1 w3.
Proof.
  intros (Hn1 & Ht1 & Hu1 & Hk1 & Hf1) (Hn2 & Ht2 & Hu2 & Hk2 & Hf2).
  split; [eapply net_untouched_trans; eauto|].
  split; [eapply terminal_untouched_trans; eauto|].
  split; [congruence|]. split; [eapply kinds_kept_trans; eauto|].
  intros p Hp. rewrite fmap_cons in Hp. apply not_elem_of_cons in Hp as (Hne & Hp).
  destruct (Hf1 p) as [Ha Hb].
  { simpl. intros Hin. apply list_elem_of_singleton in Hin. congruence. }
  destruct (Hf2 p Hp) as [Ha' Hb'].
  split; [|auto].
  intros Hfile. rewrite <- (Ha Hfile). apply Ha'.
  destruct Hfile as (q & c & Hq). exists q, c.
  rewrite Ha; [exact Hq|]. exists q, c. exact Hq.
Qed.

Lemma unpacking_head dest f rest w w' :
  unpacking dest [f] w w' -> unpacking dest (f :: rest) w w'.
Proof.
  intros H. eapply unpacking_cons; [exact H | apply unpacking_refl].
Qed.

(** A step on the file system, in the terms of [unpacking]. *)
Lemma unpacking_of_step dest f (w w' : World) :
  net_untouched w w' -> terminal_untouched w w' -> umask w' = umask w ->
  kinds_kept (fs w) (fs w') ->
  files_untouched (Some (entry_target dest f)) (fs w) (fs w') ->
  unpacking dest [f] w w'.
Proof.
  intros Hn Ht Hu Hk Hf. repeat (split; [assumption|]).
  intros p Hp. apply Hf. simpl in Hp.
  intros Heq. apply Hp. injection Heq as ->. apply list_elem_of_singleton.
  reflexivity.
Qed.

Ltac fs_step :=
  apply unpacking_of_step;
  [ split; reflexivity | repeat split; reflexivity | reflexivity | simpl | simpl ].

(** One entry, however it ends. *)
Lemma extract_entry_any dest f :
  always (unpacking dest [f]) (Scaffold.extract_entry dest f).
Proof.
  intros w r w'. unfold Scaffold.extract_entry.
  fold (entry_target dest f).
  assert (Hdir :
    os.MkdirAll (entry_target dest f) os.ModePerm w = (r, w') ->
    unpacking dest [f] w w').
  { rewrite MkdirAll_eq. cbn zeta.
    destruct (os.mkdir_all _ _ _ _ _) as [e|m1] eqn:Hm;
      intros H; injection H as <- <-.
    - fs_step; [apply kinds_kept_refl | apply files_untouched_refl].
    - apply mkdir_all_step in Hm as (Hk & _ & Hf).
      fs_step; [exact Hk|].
      apply files_untouched_weaken. exact Hf. }
  assert (Hfile : forall bytes (tail : option string),
    (err <- os.MkdirAll
              match GoStrings.LastIndex (entry_target dest f) filepath.Separator with
              | Some lastIndex => GoStrings.slice_to (entry_target dest f) lastIndex
              | None => ""
              end os.ModePerm ;;
     match err with
     | Some e => ret (Some e)
     | None =>
         err0 <- os.OpenFile (entry_target dest f) (Mode f) ;;
         match err0 with
         | Some e => ret (Some e)
         | None => os.Write (entry_target dest f) bytes ;;; ret tail
         end
     end) w = (r, w') ->
    unpacking dest [f] w w').
  { intros bytes tail. unfold bind. rewrite MkdirAll_eq. cbn zeta.
    destruct (os.mkdir_all _ _ _ _ _) as [e|m1] eqn:Hm.
    { intros H. injection H as <- <-.
      fs_step; [apply kinds_kept_refl | apply files_untouched_refl]. }
    rewrite OpenFile_eq. cbn zeta. simpl.
    apply mkdir_all_step in Hm as (Hk1 & _ & Hf1).
    destruct (os.open_trunc _ _ _ _) as [e|m2] eqn:Ho.
    { unfold ret. intros H. injection H as <- <-.
      fs_step; [exact Hk1|].
      apply files_untouched_weaken. exact Hf1. }
    unfold ret. simpl. intros H. injection H as <- <-.
    apply open_trunc_step in Ho as (Hk2 & Hf2 & Hl2).
    destruct (write_step _ bytes _ _ _ Hl2) as (Hk3 & Hf3 & _).
    fs_step.
    - eauto using kinds_kept_trans.
    - eauto using files_untouched_trans, files_untouched_weaken. }
  destruct (Data f) as [bytes|e|partial e].
  - destruct (os.IsDir (Mode f)); [exact Hdir | apply Hfile].
  - intros H. injection H as <- <-. apply unpacking_refl.
  - destruct (os.IsDir (Mode f)); [exact Hdir | apply Hfile].
Qed.

(** The whole archive, however it ends. *)
Lemma extract_all_any dest files :
  always (unpacking dest files) (Scaffold.extract_all dest files).
Proof.
  induction files as [|f rest IH]; intros w r w' H.
  - injection H as <- <-. apply unpacking_refl.
  - cbn [Scaffold.extract_all] in H. unfold bind in H.
    destruct (Scaffold.extract_entry dest f w) as [[[e|]|n|m] w1] eqn:He.
    + injection H as <- <-. apply unpacking_head.
      exact (extract_entry_any _ _ _ _ _ He).
    + eapply unpacking_cons;
        [exact (extract_entry_any _ _ _ _ _ He) | exact (IH _ _ _ H)].
    + injection H as <- <-. apply unpacking_head.
      exact (extract_entry_any _ _ _ _ _ He).
    + injection H as <- <-. apply unpacking_head.
      exact (extract_entry_any _ _ _ _ _ He).
Qed.

Lemma WriteFile_any name data perm w :
  exists err w',
    ioutil_WriteFile name data perm w = (Ret err, w') /\
    net_untouched w w' /\ terminal_untouched w w' /\ umask w' = umask w /\
    match err with
    | Some _ => fs w' = fs w
    | None => exists q, fs w' !! name = Some (File q data)
    end.
Proof.
  unfold ioutil_WriteFile, bind. rewrite OpenFile_eq. cbn zeta.
  destruct (os.open_trunc _ _ _ _) as [e|m1] eqn:Ho.
  - eexists _, _. split; [reflexivity|]. repeat split; reflexivity.
  - eexists _, _. split; [reflexivity|]. simpl.
    apply open_trunc_step in Ho as (_ & _ & Hl).
    destruct (write_step _ data _ _ _ Hl) as (_ & _ & Hl').
    repeat split; try reflexivity. eexists. exact Hl'.
Qed.

Lemma Remove_any name w :
  exists err w',
    os.Remove name w = (Ret err, w') /\
    net_untouched w w' /\ terminal_untouched w w' /\
    (file_at (fs w) name -> err = None /\ fs w' !! name = None).
Proof.
  unfold os.Remove, os.record, os.attempt, bind, modify. simpl.
  unfold os.remove.
  destruct (fs w !! name) as [[q|q c]|] eqn:Hl.
  - destruct (os.has_children _ _); eexists _, _;
      (split; [reflexivity|]); repeat split; try reflexivity;
      destruct H as (? & ? & ?); congruence.
  - eexists _, _. split; [reflexivity|]. repeat split; try reflexivity.
    simpl. apply lookup_delete_eq.
  - eexists _, _. split; [reflexivity|]. repeat split; try reflexivity;
      destruct H as (? & ? & ?); congruence.
Qed.

Section UnpackFacts.
Variable zip_entries : string -> string + list ZipFile.

(** The entries of the archive at [src], when it can be read. *)
Lemma Unzip_any src dest w :
  exists err w',
    Scaffold.Unzip zip_entries src dest w = (Ret err, w') /\
    ((exists q content files,
        fs w !! src = Some (File q content) /\
        zip_entries content = inr files /\
        unpacking dest files w w') \/
     (err <> None /\ w' = w)).
Proof.
  unfold Scaffold.Unzip, Scaffold.zip_OpenReader, bind, get, ret.
  destruct (fs w !! src) as [[q|q content]|] eqn:Hl.
  - eexists _, _. split; [reflexivity|]. right. split; [discriminate|reflexivity].
  - destruct (zip_entries content) as [e|files] eqn:Hz.
    + eexists _, _. split; [reflexivity|]. right.
      split; [discriminate|reflexivity].
    + destruct (extract_all_in_order dest files w)
        as (err & w' & _ & _ & _ & Hr & _).
      exists err, w'. split; [exact Hr|]. left.
      exists q, content, files. split; [reflexivity|]. split; [exact Hz|].
      exact (extract_all_any dest files w (Ret err) w' Hr).
  - eexists _, _. split; [reflexivity|]. right. split; [discriminate|reflexivity].
Qed.

(** [RunE] from the archive request on always returns, and leaves the
    terminal and the network alone.  An error of the request comes back
    as it is, with the file system untouched; after a body the run ends
    in one of the three ways of [materialized]. *)
Lemma materialize_any :
  forall (p : Project) (currentDir : string) (w : World),
    exists err w',
      Scaffold.materialize zip_entries p currentDir w = (Ret err, w') /\
      terminal_untouched w w' /\ net w' = net w /\
      match net w (Scaffold.request_url p) with
      | NewRequestErr e =>
          err = Some e /\ requests w' = requests w /\ fs_untouched w w'
      | DoErr e | ReadErr _ e =>
          err = Some e /\ fs_untouched w w' /\
          requests w' = (requests w ++ [(Scaffold.request_url p, user_agent)])%list
      | Body body =>
          requests w' = (requests w ++ [(Scaffold.request_url p, user_agent)])%list /\
          materialized p currentDir err w w'
      end.
Proof.
  intros p currentDir w.
  unfold Scaffold.materialize.
  fold (target_dir p currentDir). fold (zip_file p currentDir).
  unfold log_Info, http_NewRequest, Scaffold.addClientHeader, client_Do,
    ioutil_ReadAll_Body, modify, get, panic, bind, ret. simpl.
  destruct (net w (Scaffold.request_url p)) as [e|e|partial e|body] eqn:Hnet;
    simpl; try rewrite Hnet; simpl;
    try (eexists _, _; split; [reflexivity|]; repeat split; reflexivity).
  match goal with
  | |- context [ioutil_WriteFile ?n ?b ?q ?w1] =>
      destruct (WriteFile_any n b q w1)
        as (err1 & w2 & HW & Hn2 & Ht2 & Hu2 & Hfs2)
  end.
  rewrite HW. destruct err1 as [e1|].
  { eexists _, _. split; [reflexivity|].
    destruct Hn2 as [Hr2 Hnn2], Ht2 as (Ha & Hb & Hc).
    split; [repeat split; assumption|]. split; [exact Hnn2|].
    split; [exact Hr2|].
    right. left. exists e1. split; [reflexivity | exact Hfs2]. }
  destruct (Unzip_any (zip_file p currentDir) (target_dir p currentDir) w2)
    as (err2 & w3 & HU & Hcase).
  rewrite HU.
  assert (Hzip : file_at (fs w3) (zip_file p currentDir) /\
                 net_untouched w2 w3 /\ terminal_untouched w2 w3).
  { destruct Hfs2 as [q Hq].
    destruct Hcase as [(q' & content & files & _ & _ & Hun) | [_ ->]].
    - destruct Hun as (Hn & Ht & _ & Hk & _).
      split; [apply (Hk (zip_file p currentDir)); eexists _, _; exact Hq|].
      split; assumption.
    - split; [eexists _, _; exact Hq|].
      split; [apply net_untouched_refl | apply terminal_untouched_refl]. }
  destruct Hzip as (Hzip & Hn3 & Ht3).
  destruct err2 as [e2|].
  { eexists _, _. split; [reflexivity|].
    split; [eapply terminal_untouched_trans; eassumption|].
    split; [destruct Hn2 as [_ Hx2], Hn3 as [_ Hx3]; rewrite Hx3, Hx2;
            reflexivity|].
    split; [destruct Hn2 as [Hr2 _], Hn3 as [Hr3 _]; rewrite Hr3, Hr2;
            reflexivity|].
    right. right. exists e2. split; [reflexivity | exact Hzip]. }
  destruct (Remove_any (zip_file p currentDir) w3)
    as (err3 & w4 & HR & Hn4 & Ht4 & Hgone).
  rewrite HR. destruct (Hgone Hzip) as [-> Hnone].
  eexists _, _. split; [reflexivity|].
  split; [eauto using terminal_untouched_trans|].
  split; [destruct Hn2 as [_ Hx2], Hn3 as [_ Hx3], Hn4 as [_ Hx4];
          rewrite Hx4, Hx3, Hx2; reflexivity|].
  split; [destruct Hn2 as [Hr2 _], Hn3 as [Hr3 _], Hn4 as [Hr4 _];
          rewrite Hr4, Hr3, Hr2; reflexivity|].
  left. split; [reflexivity | exact Hnone].
Qed.

(** X7. Whatever an archive holds and however the unpacking ends, [Unzip]
    removes nothing and turns no directory into a file or a file into a
    directory; a file that was there is changed only if an entry of the
    archive is written to its path, and a file that is there afterwards
    and was not before is the target of an entry. *)
Theorem unzip_only_adds :
  forall (src dest : string) (w : World) (r : Result (option string))
         (w' : World),
    Scaffold.Unzip zip_entries src dest w = (r, w') ->
    kinds_kept (fs w) (fs w') /\
    forall path,
      ((file_at (fs w) path -> fs w' !! path = fs w !! path) /\
       (file_at (fs w') path -> file_at (fs w) path)) \/
      (exists q content files f,
         fs w !! src = Some (File q content) /\
         zip_entries content = inr files /\
         f ∈ files /\ entry_target dest f = path).
Proof.
  intros src dest w r w' H.
  destruct (Unzip_any src dest w) as (err & w2 & HU & Hcase).
  rewrite HU in H. injection H as <- <-.
  destruct Hcase as [(q & content & files & Hl & Hz & Hun) | [_ ->]].
  - destruct Hun as (_ & _ & _ & Hk & Hf). split; [exact Hk|].
    intros path.
    destruct (decide (path ∈ map (entry_target dest) files)) as [Hin|Hout].
    + right. apply list_elem_of_fmap in Hin as (f & -> & Hin).
      exists q, content, files, f. auto.
    + left. exact (Hf path Hout).
  - split; [apply kinds_kept_refl|]. intros path. left. auto.
Qed.


End UnpackFacts.

Lemma unzip_only_adds_witness :
  kinds_kept (fs Example.zipped)
    (fs (snd (Example.Unzip "/home/u/proj.zip" "/home/u/proj" Example.zipped))).
Proof.
  refine (proj1 (unzip_only_adds Example.zip_entries
                   "/home/u/proj.zip" "/home/u/proj" Example.zipped
                   (fst (Example.Unzip "/home/u/proj.zip" "/home/u/proj"
                           Example.zipped))
                   (snd (Example.Unzip "/home/u/proj.zip" "/home/u/proj"
                           Example.zipped)) _)).
  apply surjective_pairing.
Defined.

(** ** Interrupts *)

Lemma exits_one_bind {A B} (c : Proc A) (k : A -> Proc B) :
  exits_one c -> (forall a, exits_one (k a)) -> exits_one (bind c k).
Proof.
  intros Hc Hk w n w' H. unfold bind in H.
  destruct (c w) as [[a|e|e] w1] eqn:Hcw.
  - exact (Hk a _ _ _ H).
  - injection H as <- <-. exact (Hc _ _ _ Hcw).
  - discriminate H.
Qed.

Lemma exits_one_ret {A} (a : A) : exits_one (ret a).
Proof. intros w n w' H. discriminate H. Qed.

Ltac prompt_exit :=
  let H := fresh "H" in
  intros w n w';
  unfold Cmd.Select, Cmd.MultiSelect, Prompts.Proceed, Prompts.Ask,
    Prompts.askOne, bind, survey_AskOne;
  destruct (terminal w) as [|[[b|s|l]|[|msg]] rest]; simpl;
  intros H; try discriminate H; injection H as <- _; reflexivity.

Lemma Proceed_exits_one message : exits_one (Prompts.Proceed message).
Proof. prompt_exit. Qed.

Lemma Ask_exits_one message d : exits_one (Prompts.Ask message d).
Proof. prompt_exit. Qed.

Lemma Select_exits_one message options d :
  exits_one (Cmd.Select message options d).
Proof. prompt_exit. Qed.

Lemma MultiSelect_exits_one message options :
  exits_one (Cmd.MultiSelect message options).
Proof. prompt_exit. Qed.

Lemma getYamlFrom_exits_one {T} (unmarshal : string -> string + T) base endpoint :
  exits_one (Scaffold.getYamlFrom unmarshal base endpoint).
Proof.
  intros w n w'.
  unfold Scaffold.getYamlFrom, http_NewRequest, Scaffold.addClientHeader,
    client_Do, ioutil_ReadAll_Body, log_Error, log_Fatal, os_Exit, panic,
    modify, get, bind, ret.
  simpl.
  destruct (net w _) as [e|e|partial e|body] eqn:Hnet; simpl;
    try rewrite Hnet; simpl; try discriminate.
  - destruct (GoStrings.Contains partial _); simpl.
    + intros H. injection H as <- _. reflexivity.
    + destruct (unmarshal partial); intros H;
        [injection H as <- _; reflexivity | discriminate H].
  - destruct (GoStrings.Contains body _); simpl.
    + intros H. injection H as <- _. reflexivity.
    + destruct (unmarshal body); intros H;
        [injection H as <- _; reflexivity | discriminate H].
Qed.

Lemma takes_bind {A B} n m (c : Proc A) (k : A -> Proc B) :
  takes n c -> (forall a, takes m (k a)) -> takes (n + m) (bind c k).
Proof.
  intros Hc Hk w b w' H.
  apply bind_Ret_inv in H as (a & w1 & Ha & Hb).
  destruct (Hc _ _ _ Ha) as (u1 & Ht1 & Hi1 & Hl1).
  destruct (Hk a _ _ _ Hb) as (u2 & Ht2 & Hi2 & Hl2).
  exists (u1 ++ u2)%list.
  split; [rewrite Ht1, Ht2, app_assoc; reflexivity|].
  split; [rewrite elem_of_app; tauto|].
  rewrite length_app.
  destruct Hl2 as [Hl2|Hl2]; [|right; exact Hl2].
  destruct Hl1 as [Hl1|Hl1]; [left; lia|].
  right. rewrite Hl1 in Ht2. symmetry in Ht2.
  apply app_eq_nil in Ht2 as [_ Hnil]. exact Hnil.
Qed.

Lemma takes_less {A} n m (c : Proc A) : (m <= n)%nat -> takes n c -> takes m c.
Proof.
  intros Hnm Hc w a w' H. destruct (Hc _ _ _ H) as (u & Ht & Hi & Hl).
  exists u. repeat split; auto. destruct Hl; [left; lia | right; assumption].
Qed.

Lemma takes_ret {A} (a : A) : takes 0 (ret a).
Proof.
  intros w b w' H. injection H as <- <-. exists [].
  split; [reflexivity|]. split; [apply not_elem_of_nil | left; simpl; lia].
Qed.

Lemma takes_untouched {A} (c : Proc A) :
  always terminal_untouched c -> takes 0 c.
Proof.
  intros Hc w a w' H. destruct (Hc _ _ _ H) as (Ht & _).
  exists []. split; [simpl; congruence|].
  split; [apply not_elem_of_nil | left; simpl; lia].
Qed.

Ltac prompt_takes :=
  let H := fresh "H" in
  let Hterm := fresh "Hterm" in
  intros w a w';
  unfold Cmd.Select, Cmd.MultiSelect, Prompts.Proceed, Prompts.Ask,
    Prompts.askOne, bind, survey_AskOne;
  destruct (terminal w) as [|[[b|s|l]|[|msg]] rest] eqn:Hterm; simpl;
  intros H; try discriminate H; injection H as <- <-; simpl;
  rewrite ?Hterm;
  [ exists []; split; [reflexivity|];
    split; [apply not_elem_of_nil | right; reflexivity]
  | eexists [_]; (split; [reflexivity|]);
    (split; [rewrite list_elem_of_singleton; discriminate | left; simpl; lia]) .. ].

Lemma Proceed_takes message : takes 1 (Prompts.Proceed message).
Proof. prompt_takes. Qed.

Lemma Ask_takes message d : takes 1 (Prompts.Ask message d).
Proof. prompt_takes. Qed.

Lemma Select_takes message options d : takes 1 (Cmd.Select message options d).
Proof. prompt_takes. Qed.

Lemma MultiSelect_takes message options :
  takes 1 (Cmd.MultiSelect message options).
Proof. prompt_takes. Qed.

Lemma getYamlFrom_takes {T} (unmarshal : string -> string + T) base endpoint :
  takes 0 (Scaffold.getYamlFrom unmarshal base endpoint).
Proof.
  apply takes_untouched. intros w r w' H.
  apply (getYamlFrom_footprint unmarshal base endpoint w r w' H).
Qed.

Lemma Getwd_takes : takes 0 os.Getwd.
Proof.
  intros w a w' H. injection H as <- <-. exists [].
  split; [reflexivity|]. split; [apply not_elem_of_nil | left; simpl; lia].
Qed.

Section RunFacts.
Import Scaffold.

Variable Config : Type.
Variable ModuleInfo : Type.
Variable GetBOMMap : Config -> gmap string BOM * string.
Variable GetSpringBootVersions : gmap string BOM -> list string.
Variable GetSupportedVersionFor : Config -> string -> string.
Variable GetTemplateNames : Config -> list string.
Variable GetModuleNamesFor : list ModuleInfo -> list string.
Variable unmarshal_Config : string -> string + Config.
Variable unmarshal_Modules : string -> string + list ModuleInfo.
Variable zip_entries : string -> string + list ZipFile.

Local Abbreviation collect := (Scaffold.collect Config ModuleInfo GetBOMMap
  GetSpringBootVersions GetSupportedVersionFor GetTemplateNames
  GetModuleNamesFor unmarshal_Config unmarshal_Modules).
Local Abbreviation materialize := (Scaffold.materialize zip_entries).
Local Abbreviation RunE := (Scaffold.RunE Config ModuleInfo GetBOMMap
  GetSpringBootVersions GetSupportedVersionFor GetTemplateNames
  GetModuleNamesFor unmarshal_Config unmarshal_Modules zip_entries).
Local Abbreviation main := (Scaffold.main Config ModuleInfo GetBOMMap
  GetSpringBootVersions GetSupportedVersionFor GetTemplateNames
  GetModuleNamesFor unmarshal_Config unmarshal_Modules zip_entries).

(** The prompts of [collect] read at least eight replies. *)
Lemma collect_takes p : takes 8 (collect p).
Proof.
  unfold Scaffold.collect.
  apply (takes_bind 0 8); [apply getYamlFrom_takes|]. intros c.
  destruct (GetBOMMap c) as [versions defaultVersion].
  apply (takes_bind 1 7); [apply Select_takes|]. intros v. cbn zeta.
  apply (takes_bind 0 7).
  { destruct (0 <? length _)%nat.
    - apply (takes_less 1); [lia|].
      apply (takes_bind 1 0); [apply Proceed_takes|].
      intros yes. destruct yes; apply takes_ret.
    - apply takes_ret. }
  intros p1.
  apply (takes_bind 1 6); [apply Proceed_takes|]. intros yes.
  apply (takes_bind 1 5).
  { destruct yes.
    - apply (takes_bind 1 0); [apply Select_takes|]. intros t. apply takes_ret.
    - apply (takes_bind 0 1).
      + unfold getCompatibleModuleNameFor.
        apply (takes_bind 0 0); [apply getYamlFrom_takes|].
        intros modules. apply takes_ret.
      + intros names.
        apply (takes_bind 1 0); [apply MultiSelect_takes|].
        intros m. apply takes_ret. }
  intros p2.
  apply (takes_bind 1 4); [apply Ask_takes|]. intros g.
  apply (takes_bind 1 3); [apply Ask_takes|]. intros a.
  apply (takes_bind 1 2); [apply Ask_takes|]. intros v'.
  apply (takes_bind 1 1); [apply Ask_takes|]. intros n.
  apply (takes_bind 0 1); [apply Getwd_takes|]. intros currentDir.
  apply (takes_bind 1 0); [apply Ask_takes|]. intros o.
  apply takes_ret.
Qed.

Lemma collect_exits_one p : exits_one (collect p).
Proof.
  unfold Scaffold.collect.
  apply exits_one_bind; [apply getYamlFrom_exits_one|]. intros c.
  destruct (GetBOMMap c) as [versions defaultVersion].
  apply exits_one_bind; [apply Select_exits_one|]. intros v. cbn zeta.
  apply exits_one_bind.
  { destruct (0 <? length _)%nat.
    - apply exits_one_bind; [apply Proceed_exits_one|].
      intros yes. destruct yes; apply exits_one_ret.
    - apply exits_one_ret. }
  intros p1.
  apply exits_one_bind; [apply Proceed_exits_one|]. intros yes.
  apply exits_one_bind.
  { destruct yes.
    - apply exits_one_bind; [apply Select_exits_one|].
      intros t. apply exits_one_ret.
    - apply exits_one_bind.
      + unfold getCompatibleModuleNameFor.
        apply exits_one_bind; [apply getYamlFrom_exits_one|].
        intros modules. apply exits_one_ret.
      + intros names.
        apply exits_one_bind; [apply MultiSelect_exits_one|].
        intros m. apply exits_one_ret. }
  intros p2.
  apply exits_one_bind; [apply Ask_exits_one|]. intros g.
  apply exits_one_bind; [apply Ask_exits_one|]. intros a.
  apply exits_one_bind; [apply Ask_exits_one|]. intros v'.
  apply exits_one_bind; [apply Ask_exits_one|]. intros n.
  apply exits_one_bind; [intros w n0 w' H; discriminate H|]. intros currentDir.
  apply exits_one_bind; [apply Ask_exits_one|]. intros o.
  apply exits_one_ret.
Qed.

(** A run in which [collect] does not return ends where [collect] ends. *)
Lemma main_ends_with_collect f args w r w' :
  (length args <= 1)%nat ->
  Scaffold.collect Config ModuleInfo GetBOMMap GetSpringBootVersions
    GetSupportedVersionFor GetTemplateNames GetModuleNamesFor
    unmarshal_Config unmarshal_Modules (parse_flags f) w = (r, w') ->
  (forall a, r <> Ret a) ->
  (fst (main f args w) = Exit 1 \/ exists m, fst (main f args w) = Panic m) /\
  snd (main f args w) = w'.
Proof.
  intros Hargs Hc Hr.
  unfold Scaffold.main, Scaffold.Execute, Scaffold.RunE.
  replace (1 <? length args)%nat with false
    by (symmetry; apply Nat.ltb_ge; exact Hargs).
  destruct r as [a|n|m].
  - destruct (Hr a eq_refl).
  - rewrite (bind_Exit _ _ _ _ _ (bind_Exit _ _ _ _ _ Hc)).
    rewrite (collect_exits_one _ _ _ _ Hc). split; [left|]; reflexivity.
  - rewrite (bind_Panic _ _ _ _ _ (bind_Panic _ _ _ _ _ Hc)).
    split; [right; exists m|]; reflexivity.
Qed.

(** X3. When one of the first eight replies of the user is an interrupt,
    the run does not end well: the process exits with status 1 (or has
    panicked in [getYamlFrom] before), the file system has not been
    touched, and the only requests sent are for the configuration and the
    modules, never for an archive. *)
Theorem interrupt_stops_the_run :
  forall (f : Flags) (args : list string) (w : World),
    (length args <= 1)%nat ->
    Failed InterruptErr ∈ take 8 (terminal w) ->
    (fst (main f args w) = Exit 1 \/ exists m, fst (main f args w) = Panic m) /\
    fs_untouched w (snd (main f args w)) /\
    sent 2 (metadata_request (UrlService (parse_flags f))) w
      (snd (main f args w)).
Proof.
  intros f args w Hargs Hint.
  destruct (collect (parse_flags f) w) as [r w1] eqn:Hc.
  assert (Hnot : forall a, r <> Ret a).
  { intros [p d] ->.
    destruct (collect_takes _ _ _ _ Hc) as (used & Ht & Hno & Hlen).
    apply Hno. rewrite Ht in Hint.
    destruct Hlen as [Hlen|Hnil].
    - rewrite take_app_le in Hint by exact Hlen.
      apply elem_of_take in Hint as (i & Hi & _).
      apply list_elem_of_lookup. eauto.
    - rewrite Hnil, app_nil_r in Hint.
      apply elem_of_take in Hint as (i & Hi & _).
      apply list_elem_of_lookup. eauto. }
  destruct (main_ends_with_collect f args w r w1 Hargs Hc Hnot) as [Hend ->].
  split; [exact Hend|]. exact (collect_footprint _ _ _ _ _ _ _ _ _ _ _ _ _ Hc).
Qed.


Lemma request_url_to_service p :
  to_service (UrlService p) (request_url p, user_agent).
Proof.
  split; [|reflexivity]. unfold request_url. cbn [fst GoStrings.Join].
  rewrite append_assoc.
  change (GoStrings.HasPrefix
            (UrlService p +:+ "/" +:+
             ("app" +:+
              (if (url.Encode (build_form p) =? "")%string
               then url.Encode (build_form p)
               else "?" +:+ url.Encode (build_form p))))
            (UrlService p +:+ "/") = true).
  rewrite <- append_assoc. apply HasPrefix_app.
Qed.

Lemma materialize_sends p currentDir :
  always (sent 1 (to_service (UrlService p))) (materialize p currentDir).
Proof.
  intros w r w' H.
  destruct (materialize_any zip_entries p currentDir w)
    as (err & w2 & Hm & _ & Hn & Hcase).
  rewrite Hm in H. injection H as <- <-.
  split; [exact Hn|].
  assert (Hone : requests w2
                 = (requests w ++ [(request_url p, user_agent)])%list ->
                 exists l, requests w2 = (requests w ++ l)%list /\
                           (length l <= 1)%nat /\
                           Forall (to_service (UrlService p)) l).
  { intros Hr. eexists. split; [exact Hr|]. split; [simpl; lia|].
    constructor; [apply request_url_to_service | constructor]. }
  destruct (net w (request_url p)) as [e|e|partial e|body].
  - destruct Hcase as (_ & Hr & _). exists []. rewrite app_nil_r.
    repeat split; auto.
  - apply Hone. apply Hcase.
  - apply Hone. apply Hcase.
  - apply Hone. apply Hcase.
Qed.

(** X4. Whatever the user and the service do, a run sends at most three
    requests, every one of them to a URL under the service URL of
    --urlservice and with the User-Agent header snowdrop-scaffold/1.0. *)
Theorem requests_go_to_the_service :
  forall (f : Flags) (args : list string),
    always (sent 3 (to_service (UrlService (parse_flags f)))) (main f args).
Proof.
  intros f args. unfold Scaffold.main.
  apply (sends_bind 3 0).
  - unfold Scaffold.Execute. destruct (1 <? length args)%nat.
    + apply (always_weaken (sent 0 (to_service (UrlService (parse_flags f)))));
        [intros w w'; apply sent_more; lia|].
      apply always_ret. intros w. apply sent_refl.
    + unfold Scaffold.RunE.
      apply (sends_bind_val 2 1 _
               (fun r => UrlService (fst r) = UrlService (parse_flags f))).
      * intros w r w' H. eapply sent_weaken; [apply metadata_to_service|].
        exact (proj2 (collect_footprint _ _ _ _ _ _ _ _ _ _ _ _ _ H)).
      * intros w r w' H.
        exact (proj1 (collect_keeps _ _ _ _ _ _ _ _ _ _ _ _ _ H)).
      * intros [p' d] Hp. cbn [fst] in Hp. rewrite <- Hp.
        apply materialize_sends.
  - intros [e|]; [|apply always_ret; intros w; apply sent_refl].
    intros w r w' H. injection H as <- <-. apply sent_of_untouched.
    split; reflexivity.
Qed.

End RunFacts.

(** ** Prompt errors do not stop the collection *)










Section SurviveFacts.
Import Scaffold.

Variable Config : Type.
Variable ModuleInfo : Type.
Variable GetBOMMap : Config -> gmap string BOM * string.
Variable GetSpringBootVersions : gmap string BOM -> list string.
Variable GetSupportedVersionFor : Config -> string -> string.
Variable GetTemplateNames : Config -> list string.
Variable GetModuleNamesFor : list ModuleInfo -> list string.
Variable unmarshal_Config : string -> string + Config.
Variable unmarshal_Modules : string -> string + list ModuleInfo.

Local Abbreviation collect := (Scaffold.collect Config ModuleInfo GetBOMMap
  GetSpringBootVersions GetSupportedVersionFor GetTemplateNames
  GetModuleNamesFor unmarshal_Config unmarshal_Modules).
Local Abbreviation answers :=
  (service_answers unmarshal_Config unmarshal_Modules).




End SurviveFacts.


(** ** The prompts of [pkg/ui] *)

(** X1. [Select] and [MultiSelect] of [pkg/ui] present the options
    sorted: what the prompt holds is in ascending order and is a
    rearrangement of the options passed, duplicates included, and the
    answer is handled as the copies in [cmd/scaffold.go] handle it. *)
Theorem ui_prompts_sort_the_options :
  forall (message : string) (options d : list string) (w : World),
    exists presented,
      Sorted String.le presented /\ presented ≡ₚ options /\
      UI.Select message options d w = Cmd.Select message presented d w /\
      UI.MultiSelect message options w = Cmd.MultiSelect message presented w /\
      shown (snd (UI.Select message options d w))
        = (shown w ++ [select_of message presented d])%list /\
      shown (snd (UI.MultiSelect message options w))
        = (shown w ++ [multi_select_of message presented])%list.
Proof.
  intros message options d w.
  exists (GoStrings.sort_Strings options).
  split; [apply sort_Strings_Sorted|].
  split; [apply sort_Strings_Permutation|].
  split; [reflexivity|]. split; [reflexivity|].
  split; [apply Cmd_Select_shown | apply Cmd_MultiSelect_shown].
Qed.

(** ** The status of the process *)

Section StatusFacts.
Import Scaffold.

Variable Config : Type.
Variable ModuleInfo : Type.
Variable GetBOMMap : Config -> gmap string BOM * string.
Variable GetSpringBootVersions : gmap string BOM -> list string.
Variable GetSupportedVersionFor : Config -> string -> string.
Variable GetTemplateNames : Config -> list string.
Variable GetModuleNamesFor : list ModuleInfo -> list string.
Variable unmarshal_Config : string -> string + Config.
Variable unmarshal_Modules : string -> string + list ModuleInfo.
Variable zip_entries : string -> string + list ZipFile.

Local Abbreviation collect := (Scaffold.collect Config ModuleInfo GetBOMMap
  GetSpringBootVersions GetSupportedVersionFor GetTemplateNames
  GetModuleNamesFor unmarshal_Config unmarshal_Modules).
Local Abbreviation main := (Scaffold.main Config ModuleInfo GetBOMMap
  GetSpringBootVersions GetSupportedVersionFor GetTemplateNames
  GetModuleNamesFor unmarshal_Config unmarshal_Modules zip_entries).

Lemma main_after_collect f args w p d w1 :
  (length args <= 1)%nat ->
  collect (parse_flags f) w = (Ret (p, d), w1) ->
  fst (main f args w) = Ret tt.
Proof.
  intros Hargs Hc. unfold Scaffold.main, Scaffold.Execute, Scaffold.RunE.
  replace (1 <? length args)%nat with false
    by (symmetry; apply Nat.ltb_ge; exact Hargs).
  destruct (materialize_any zip_entries p d w1) as (err & w2 & Hm & _).
  assert (HR : (r <- collect (parse_flags f) ;;
                let '(p, currentDir) := r in
                Scaffold.materialize zip_entries p currentDir) w
               = (Ret err, w2)).
  { rewrite (bind_Ret _ _ _ _ _ Hc). exact Hm. }
  rewrite (bind_Ret _ _ _ _ _ HR). destruct err; reflexivity.
Qed.

(** X2. The status of the process is 0, 1 or 2, and a status other than
    0 means that nothing has been done: the file system has not been
    touched and no archive has been asked for.  Every failure after the
    prompts, of the archive request, of the download or of the unpacking,
    ends with status 0. *)
Theorem failure_status_means_nothing_done :
  forall (f : Flags) (args : list string) (w : World),
    exit_status (fst (main f args w)) = 0 \/
    ((exit_status (fst (main f args w)) = 1 \/
      exit_status (fst (main f args w)) = 2) /\
     (forall p d w1, collect (parse_flags f) w <> (Ret (p, d), w1)) /\
     fs_untouched w (snd (main f args w)) /\
     sent 2 (metadata_request (UrlService (parse_flags f))) w
       (snd (main f args w))).
Proof.
  intros f args w.
  destruct (1 <? length args)%nat eqn:Hargs.
  { left. unfold Scaffold.main, Scaffold.Execute. rewrite Hargs. reflexivity. }
  apply Nat.ltb_ge in Hargs.
  destruct (collect (parse_flags f) w) as [r w1] eqn:Hc.
  destruct r as [[p d]|n|m].
  - left. rewrite (main_after_collect f args w p d w1 Hargs Hc). reflexivity.
  - right.
    destruct (main_ends_with_collect _ _ _ _ _ _ _ _ _ zip_entries
                f args w _ w1 Hargs Hc) as [Hend Hw]; [discriminate|].
    rewrite Hw. split; [|split; [discriminate|]].
    + destruct Hend as [->|[m ->]]; [left|right]; reflexivity.
    + exact (collect_footprint _ _ _ _ _ _ _ _ _ _ _ _ _ Hc).
  - right.
    destruct (main_ends_with_collect _ _ _ _ _ _ _ _ _ zip_entries
                f args w _ w1 Hargs Hc) as [Hend Hw]; [discriminate|].
    rewrite Hw. split; [|split; [discriminate|]].
    + destruct Hend as [->|[m' ->]]; [left|right]; reflexivity.
    + exact (collect_footprint _ _ _ _ _ _ _ _ _ _ _ _ _ Hc).
Qed.

End StatusFacts.

(** ** What a run that gets to the archive request has gone through *)

Lemma Proceed_shown message w :
  shown (snd (Prompts.Proceed message w)) = (shown w ++ [confirm_of message])%list.
Proof.
  unfold Prompts.Proceed, bind, survey_AskOne, confirm_of.
  destruct (terminal w) as [|[[b|s|l]|[|msg]] rest]; reflexivity.
Qed.

Lemma Ask_shown message d w :
  shown (snd (Prompts.Ask message d w)) = (shown w ++ [input_of message d])%list.
Proof.
  unfold Prompts.Ask, Prompts.askOne, bind, survey_AskOne, input_of.
  destruct (terminal w) as [|[[b|s|l]|[|msg]] rest]; reflexivity.
Qed.

Lemma shown_of_run {A} (c : Proc A) w (r : Result A) w' l :
  shown (snd (c w)) = l -> c w = (r, w') -> shown w' = l.
Proof. intros Hs H. rewrite H in Hs. exact Hs. Qed.

Lemma getYamlFrom_Ret_inv {T} (unmarshal : string -> string + T)
    base endpoint w r w' :
  Scaffold.getYamlFrom unmarshal base endpoint w = (Ret r, w') ->
  shown w' = shown w /\
  exists body,
    body_of (net w) (yaml_url base endpoint) body /\
    GoStrings.Contains body Scaffold.unavailable_marker = false /\
    unmarshal body = inr r.
Proof.
  unfold Scaffold.getYamlFrom, http_NewRequest, Scaffold.addClientHeader,
    client_Do, ioutil_ReadAll_Body, log_Fatal, log_Error, os_Exit, panic,
    modify, get, bind, ret.
  fold (yaml_url base endpoint). simpl.
  destruct (net w (yaml_url base endpoint)) as [e|e|partial e|body] eqn:Hnet;
    simpl; rewrite ?Hnet; simpl; try discriminate.
  - destruct (GoStrings.Contains partial Scaffold.unavailable_marker) eqn:Hc;
      simpl; try discriminate.
    destruct (unmarshal partial) as [e'|v] eqn:Hu; simpl; try discriminate.
    intros H. injection H as <- <-. split; [reflexivity|].
    exists partial. split; [right; exists e; exact Hnet|]. auto.
  - destruct (GoStrings.Contains body Scaffold.unavailable_marker) eqn:Hc;
      simpl; try discriminate.
    destruct (unmarshal body) as [e'|v] eqn:Hu; simpl; try discriminate.
    intros H. injection H as <- <-. split; [reflexivity|].
    exists body. split; [left; exact Hnet|]. auto.
Qed.

Section CollectInversion.
Import Scaffold.

Variable Config : Type.
Variable ModuleInfo : Type.
Variable GetBOMMap : Config -> gmap string BOM * string.
Variable GetSpringBootVersions : gmap string BOM -> list string.
Variable GetSupportedVersionFor : Config -> string -> string.
Variable GetTemplateNames : Config -> list string.
Variable GetModuleNamesFor : list ModuleInfo -> list string.
Variable unmarshal_Config : string -> string + Config.
Variable unmarshal_Modules : string -> string + list ModuleInfo.

Local Abbreviation collect := (Scaffold.collect Config ModuleInfo GetBOMMap
  GetSpringBootVersions GetSupportedVersionFor GetTemplateNames
  GetModuleNamesFor unmarshal_Config unmarshal_Modules).

Lemma collect_Ret_inv p w p' d w' :
  collect p w = (Ret (p', d), w') ->
  exists body c choice,
    body_of (net w) (yaml_url (UrlService p) "config") body /\
    unmarshal_Config body = inr c /\
    let bom := default zero_BOM (fst (GetBOMMap c) !! SpringBootVersion p') in
    let supported := (0 <? length (Supported bom))%nat in
    shown w' =
      (shown w ++
       prompts_of (select_of "Spring Boot version"
                     (GetSpringBootVersions (fst (GetBOMMap c)))
                     [snd (GetBOMMap c)])
         supported choice p' d)%list /\
    (choice = select_of "Available templates" (GetTemplateNames c) [] \/
     exists listing ms,
       body_of (net w)
         (yaml_url (UrlService p) ("modules/" +:+ SpringBootVersion p'))
         listing /\
       unmarshal_Modules listing = inr ms /\
       choice = multi_select_of "Select modules" (GetModuleNamesFor ms)) /\
    (SnowdropBomVersion p' = Snowdrop bom \/
     (supported = true /\
      SnowdropBomVersion p' = GetSupportedVersionFor c (SpringBootVersion p'))).
Proof.
  intros H. unfold Scaffold.collect in H.
  apply bind_Ret_inv in H as (c & w1 & Hc & H).
  pose proof (getYamlFrom_footprint _ _ _ _ _ _ Hc) as (_ & _ & Hn1 & _).
  apply getYamlFrom_Ret_inv in Hc as (Hs1 & body & Hbody & _ & Hu).
  destruct (GetBOMMap c) as [versions defaultVersion] eqn:HB.
  apply bind_Ret_inv in H as (v & w2 & Hv & H).
  pose proof (Select_local _ _ _ _ _ _ Hv) as (_ & _ & Hn2).
  apply (shown_of_run _ _ _ _ _ (Cmd_Select_shown _ _ _ _)) in Hv as Hs2.
  cbn zeta in H.
  apply bind_Ret_inv in H as (p1 & w3 & Hp1 & H).
  set (bom := default zero_BOM (versions !! v)) in *.
  assert (H3 : SpringBootVersion p1 = v /\ UrlService p1 = UrlService p /\
               net w3 = net w2 /\
               shown w3 = (shown w2 ++
                           (if (0 <? length (Supported bom))%nat
                            then [confirm_of "Use supported version"]
                            else []))%list /\
               (SnowdropBomVersion p1 = Snowdrop bom \/
                ((0 <? length (Supported bom))%nat = true /\
                 SnowdropBomVersion p1 = GetSupportedVersionFor c v))).
  { cbn [SpringBootVersion set_SpringBootVersion set_SnowdropBomVersion] in Hp1.
    fold bom in Hp1.
    destruct (0 <? length (Supported bom))%nat eqn:Hsup.
    - apply bind_Ret_inv in Hp1 as (yes & w3' & Hyes & Hp1).
      pose proof (Proceed_local _ _ _ _ Hyes) as (_ & _ & Hn3).
      apply (shown_of_run _ _ _ _ _ (Proceed_shown _ _)) in Hyes as Hs3.
      destruct yes; injection Hp1 as <- <-; (split; [reflexivity|]);
        (split; [reflexivity|]); (split; [exact Hn3|]);
        (split; [exact Hs3|]); [right|left]; auto.
    - injection Hp1 as <- <-. split; [reflexivity|]. split; [reflexivity|].
      split; [reflexivity|].
      split; [symmetry; apply app_nil_r|]. left. reflexivity. }
  clear Hp1. destruct H3 as (Hv1 & Hu1 & Hn3 & Hs3 & Hbom).
  apply bind_Ret_inv in H as (yes & w4 & Hyes & H).
  pose proof (Proceed_local _ _ _ _ Hyes) as (_ & _ & Hn4).
  apply (shown_of_run _ _ _ _ _ (Proceed_shown _ _)) in Hyes as Hs4.
  apply bind_Ret_inv in H as (p2 & w5 & Hp2 & H).
  assert (H5 : SpringBootVersion p2 = v /\
               SnowdropBomVersion p2 = SnowdropBomVersion p1 /\
               exists choice,
                 shown w5 = (shown w4 ++ [choice])%list /\
                 (choice = select_of "Available templates" (GetTemplateNames c) [] \/
                  exists listing ms,
                    body_of (net w)
                      (yaml_url (UrlService p) ("modules/" +:+ v)) listing /\
                    unmarshal_Modules listing = inr ms /\
                    choice = multi_select_of "Select modules"
                               (GetModuleNamesFor ms))).
  { destruct yes.
    - apply bind_Ret_inv in Hp2 as (t & w5' & Ht & Hp2).
      apply (shown_of_run _ _ _ _ _ (Cmd_Select_shown _ _ _ _)) in Ht as Hs5.
      injection Hp2 as <- <-. split; [exact Hv1|]. split; [reflexivity|].
      eexists. split; [exact Hs5|]. left. reflexivity.
    - apply bind_Ret_inv in Hp2 as (names & w4' & Hn & Hp2).
      unfold getCompatibleModuleNameFor in Hn.
      apply bind_Ret_inv in Hn as (ms & w4'' & Hms & Hn).
      apply getYamlFrom_Ret_inv in Hms as (Hs4' & listing & Hl & _ & Hum).
      injection Hn as <- <-.
      apply bind_Ret_inv in Hp2 as (m & w5' & Hm & Hp2).
      apply (shown_of_run _ _ _ _ _ (Cmd_MultiSelect_shown _ _ _)) in Hm as Hs5.
      injection Hp2 as <- <-. split; [exact Hv1|]. split; [reflexivity|].
      eexists. split; [rewrite Hs5, Hs4'; reflexivity|]. right.
      exists listing, ms. rewrite Hn4, Hn3, Hn2, Hn1, Hu1, Hv1 in Hl. auto. }
  clear Hp2. destruct H5 as (Hv2 & Hb2 & choice & Hs5 & Hchoice).
  apply bind_Ret_inv in H as (g & w6 & Hg & H).
  apply (shown_of_run _ _ _ _ _ (Ask_shown _ _ _)) in Hg as Hs6.
  apply bind_Ret_inv in H as (a & w7 & Ha & H).
  apply (shown_of_run _ _ _ _ _ (Ask_shown _ _ _)) in Ha as Hs7.
  apply bind_Ret_inv in H as (ver & w8 & Hver & H).
  apply (shown_of_run _ _ _ _ _ (Ask_shown _ _ _)) in Hver as Hs8.
  apply bind_Ret_inv in H as (n & w9 & Hn & H).
  apply (shown_of_run _ _ _ _ _ (Ask_shown _ _ _)) in Hn as Hs9.
  apply bind_Ret_inv in H as (currentDir & w10 & Hd & H).
  assert (Hs10 : shown w10 = shown w9).
  { unfold os.Getwd, get, bind, ret in Hd.
    destruct (cwd w9); injection Hd as _ <-; reflexivity. }
  apply bind_Ret_inv in H as (o & w11 & Ho & H).
  apply (shown_of_run _ _ _ _ _ (Ask_shown _ _ _)) in Ho as Hs11.
  injection H as <- <- <-.
  exists body, c, choice. rewrite HB.
  cbn [fst snd SpringBootVersion SnowdropBomVersion GroupId ArtifactId
       set_OutDir set_PackageName set_Version set_ArtifactId set_GroupId].
  rewrite Hv2, Hb2. fold bom.
  split; [exact Hbody|]. split; [exact Hu|].
  split; [|split; [exact Hchoice | exact Hbom]].
  rewrite Hs11, Hs10, Hs9, Hs8, Hs7, Hs6, Hs5, Hs4, Hs3, Hs2, Hs1.
  unfold prompts_of.
  cbn [GroupId ArtifactId set_OutDir set_PackageName set_Version
       set_ArtifactId set_GroupId].
  rewrite <- !app_assoc. reflexivity.
Qed.

(** X5. In a run that gets to the archive request, the snowdrop bom of
    the descriptor comes from the configuration the service gave, looked
    up under the Spring Boot version of the descriptor: it is the primary
    bom of that version, or the supported one when the version has
    supported boms; for a version the configuration does not list it is
    empty.  The flags --snowdropbom and --springbootversion have no part
    in it. *)
Theorem bom_follows_the_version :
  forall (p : Project) (w : World) (p' : Project) (d : string) (w' : World),
    collect p w = (Ret (p', d), w') ->
    exists body c,
      body_of (net w) (yaml_url (UrlService p) "config") body /\
      unmarshal_Config body = inr c /\
      match fst (GetBOMMap c) !! SpringBootVersion p' with
      | None => SnowdropBomVersion p' = ""
      | Some bom =>
          SnowdropBomVersion p' = Snowdrop bom \/
          (Supported bom <> [] /\
           SnowdropBomVersion p' = GetSupportedVersionFor c (SpringBootVersion p'))
      end.
Proof.
  intros p w p' d w' H.
  destruct (collect_Ret_inv p w p' d w' H)
    as (body & c & choice & Hbody & Hu & _ & _ & Hbom).
  exists body, c. split; [exact Hbody|]. split; [exact Hu|].
  destruct (fst (GetBOMMap c) !! SpringBootVersion p') as [bom|]; simpl in Hbom.
  - destruct Hbom as [Hb|[Hs Hb]]; [left; exact Hb|right].
    split; [|exact Hb]. intros Hnil. rewrite Hnil in Hs. discriminate.
  - destruct Hbom as [Hb|[Hs _]]; [exact Hb | discriminate].
Qed.


End CollectInversion.

(** ** The bytes of the query *)

Lemma count_byte_app t a b :
  count_byte t (a +:+ b) = (count_byte t a + count_byte t b)%nat.
Proof.
  induction a as [|c a IH]; [reflexivity|].
  change (String c a +:+ b) with (String c (a +:+ b)).
  cbn [count_byte]. rewrite IH. lia.
Qed.

Lemma hex_digit_unreserved n : url.shouldEscape (url.hex_digit n) = false.
Proof.
  do 16 (destruct n as [|n]; [reflexivity|]). reflexivity.
Qed.

Lemma eqb_escaped c t :
  url.shouldEscape c = false -> url.shouldEscape t = true -> Ascii.eqb c t = false.
Proof.
  intros Hc Ht. apply Ascii.eqb_neq. intros ->. rewrite Hc in Ht. discriminate.
Qed.

Lemma QueryEscape_count t s :
  url.shouldEscape t = true -> t <> "%"%char -> t <> "+"%char ->
  count_byte t (url.QueryEscape s) = 0%nat.
Proof.
  intros Ht Hp Hq. induction s as [|c s IH]; [reflexivity|].
  cbn [url.QueryEscape].
  destruct (url.shouldEscape c) eqn:Hc.
  - destruct (Ascii.eqb c " ").
    + cbn [count_byte]. rewrite IH.
      replace (Ascii.eqb "+" t) with false; [reflexivity|].
      symmetry. apply Ascii.eqb_neq. congruence.
    + cbn [count_byte]. rewrite IH.
      rewrite !(eqb_escaped _ t (hex_digit_unreserved _) Ht).
      replace (Ascii.eqb "%" t) with false; [reflexivity|].
      symmetry. apply Ascii.eqb_neq. congruence.
  - cbn [count_byte]. rewrite IH, (eqb_escaped c t Hc Ht). reflexivity.
Qed.

Lemma count_byte_Join t (sep : ascii) l :
  count_byte t (GoStrings.Join l (String sep ""))
  = (sum_list_with (count_byte t) l
     + (if Ascii.eqb sep t then 1 else 0) * (length l - 1))%nat.
Proof.
  induction l as [|e l IH]; [simpl; lia|].
  destruct l as [|e' l].
  - simpl. lia.
  - change (GoStrings.Join (e :: e' :: l) (String sep ""))
      with (e +:+ String sep "" +:+ GoStrings.Join (e' :: l) (String sep "")).
    rewrite !count_byte_app, IH. cbn [sum_list_with length count_byte].
    destruct (Ascii.eqb sep t); lia.
Qed.

Lemma encode_param_count t kv :
  url.shouldEscape t = true -> t <> "%"%char -> t <> "+"%char ->
  count_byte t (url.encode_param kv) = if Ascii.eqb "=" t then 1%nat else 0%nat.
Proof.
  intros Ht Hp Hq. unfold url.encode_param.
  rewrite !count_byte_app, !QueryEscape_count by assumption.
  cbn [count_byte]. destruct (Ascii.eqb "=" t); reflexivity.
Qed.

Lemma sum_encode_param t l :
  url.shouldEscape t = true -> t <> "%"%char -> t <> "+"%char ->
  sum_list_with (count_byte t) (map url.encode_param l)
  = ((if Ascii.eqb "=" t then 1 else 0) * length l)%nat.
Proof.
  intros Ht Hp Hq. induction l as [|kv l IH]; [simpl; lia|].
  cbn [map sum_list_with length]. rewrite IH, encode_param_count by assumption.
  destruct (Ascii.eqb "=" t); lia.
Qed.

Lemma length_query_of p :
  length (query_of p) = (8 + length (List.filter nonempty (Modules p)))%nat.
Proof.
  unfold query_of. rewrite !length_app, length_map. simpl. lia.
Qed.

(** X10. Whatever the answers hold, the query of the archive request is
    well delimited: it has one "=" for each parameter, eight and one for
    every non-empty module, one "&" between two parameters and nowhere
    else, and no other byte that [QueryEscape] escapes, such as "?", "#",
    "/" or a blank.  An answer cannot add a parameter or cut one short. *)
Theorem query_is_well_delimited :
  forall p : Project,
    let q := url.Encode (Scaffold.build_form p) in
    let n := length (List.filter nonempty (Modules p)) in
    count_byte "=" q = (8 + n)%nat /\
    count_byte "&" q = (7 + n)%nat /\
    forall t : ascii,
      url.shouldEscape t = true ->
      t <> "%"%char -> t <> "+"%char -> t <> "="%char -> t <> "&"%char ->
      count_byte t q = 0%nat.
Proof.
  intros p q n. subst q n. unfold url.Encode. rewrite params_build_form.
  split; [|split].
  - rewrite (count_byte_Join "=" "&"), sum_encode_param, length_map,
      length_query_of by (reflexivity || discriminate).
    simpl. lia.
  - rewrite (count_byte_Join "&" "&"), sum_encode_param, length_map,
      length_query_of by (reflexivity || discriminate).
    simpl. lia.
  - intros t Ht Hp Hq He Ha.
    rewrite (count_byte_Join t "&"), sum_encode_param, length_map,
      length_query_of by assumption.
    replace (Ascii.eqb "=" t) with false
      by (symmetry; apply Ascii.eqb_neq; congruence).
    replace (Ascii.eqb "&" t) with false
      by (symmetry; apply Ascii.eqb_neq; congruence).
    lia.
Qed.

(** ** Where an entry without ".." goes *)

Lemma split_on_nonempty sep s : GoStrings.split_on sep s <> [].
Proof.
  destruct s as [|c s]; simpl; [discriminate|].
  destruct (Ascii.eqb c sep); [discriminate|].
  destruct (GoStrings.split_on sep s); discriminate.
Qed.

Lemma split_on_app sep a b :
  GoStrings.split_on sep (a +:+ String sep b)
  = (GoStrings.split_on sep a ++ GoStrings.split_on sep b)%list.
Proof.
  induction a as [|c a IH].
  - simpl. rewrite Ascii.eqb_refl. reflexivity.
  - change (String c a +:+ String sep b) with (String c (a +:+ String sep b)).
    cbn [GoStrings.split_on]. rewrite IH.
    destruct (Ascii.eqb c sep); [reflexivity|].
    destruct (GoStrings.split_on sep a) as [|x l] eqn:Hs;
      [destruct (split_on_nonempty sep a Hs) | reflexivity].
Qed.

Lemma clean_step_keeps rooted l : forall kept,
  Forall (fun e => e <> "..") l ->
  exists more, fold_left (filepath.clean_step rooted) l kept = (more ++ kept)%list.
Proof.
  induction l as [|e l IH]; intros kept Hl; [exists []; reflexivity|].
  apply Forall_cons in Hl as [He Hl]. cbn [fold_left].
  unfold filepath.clean_step at 2.
  destruct (String.eqb e "" || String.eqb e ".").
  - apply IH. exact Hl.
  - destruct (String.eqb e "..") eqn:Hd; [apply String.eqb_eq in Hd; contradiction|].
    destruct (IH (e :: kept) Hl) as [more Hm].
    exists (more ++ [e])%list. rewrite Hm, <- app_assoc. reflexivity.
Qed.

Lemma Join_app l1 l2 sep :
  l1 <> [] -> l2 <> [] ->
  GoStrings.Join (l1 ++ l2) sep
  = GoStrings.Join l1 sep +:+ sep +:+ GoStrings.Join l2 sep.
Proof.
  intros H1 H2. induction l1 as [|e l1 IH]; [contradiction|].
  destruct l1 as [|e' l1].
  - destruct l2 as [|x l2]; [contradiction|]. reflexivity.
  - change (GoStrings.Join ((e :: e' :: l1) ++ l2) sep)
      with (e +:+ sep +:+ GoStrings.Join ((e' :: l1) ++ l2) sep).
    rewrite IH by discriminate.
    change (GoStrings.Join (e :: e' :: l1) sep)
      with (e +:+ sep +:+ GoStrings.Join (e' :: l1) sep).
    rewrite !append_assoc. reflexivity.
Qed.

Lemma eqb_app_more a b : a <> "" -> String.eqb (a +:+ b) "" = false.
Proof. destruct a; [contradiction|reflexivity]. Qed.

Lemma inside_refl d : inside d d = true.
Proof. unfold inside. rewrite String.eqb_refl. reflexivity. Qed.

Lemma inside_under d rest : inside d (d +:+ "/" +:+ rest) = true.
Proof.
  unfold inside. rewrite <- append_assoc, HasPrefix_app. apply orb_true_r.
Qed.

(** The target of an entry whose name has no ".." element is the cleaned
    destination or a path below it. *)
Lemma entry_target_inside (dest : string) (f : ZipFile) :
  filepath.Clean dest <> "/" ->
  filepath.Clean dest <> "." ->
  no_dotdot (Name f) ->
  inside (filepath.Clean dest) (entry_target dest f) = true.
Proof.
  intros Hroot Hdot Hname.
  unfold entry_target. cbn [filepath.Join].
  destruct dest as [|c dest]; [destruct (Hdot eq_refl)|].
  cbn [String.eqb].
  change (GoStrings.Join [String c dest; Name f] "/")
    with (String c dest +:+ String "/" (Name f)).
  change (String c dest +:+ String "/" (Name f))
    with (String c (dest +:+ String "/" (Name f))).
  unfold filepath.Clean in *.
  change (String c (dest +:+ String "/" (Name f)))
    with (String c dest +:+ String filepath.Separator (Name f)).
  rewrite split_on_app, fold_left_app.
  set (rooted := Ascii.eqb c filepath.Separator) in *.
  set (kept := fold_left (filepath.clean_step rooted)
                 (GoStrings.split_on filepath.Separator (String c dest)) []) in *.
  destruct (clean_step_keeps rooted _ kept Hname) as [more ->].
  rewrite rev_app_distr.
  destruct (rev more) as [|x l] eqn:Hmore.
  { rewrite app_nil_r. apply inside_refl. }
  assert (Hkept : rev kept <> []).
  { intros Hnil. rewrite Hnil in Hroot, Hdot.
    destruct rooted; [apply Hroot | apply Hdot]; reflexivity. }
  rewrite Join_app by (assumption || discriminate).
  destruct rooted.
  - rewrite <- append_assoc. apply inside_under.
  - destruct (String.eqb (GoStrings.Join (rev kept) "/") "") eqn:Hout;
      [destruct (Hdot eq_refl)|].
    rewrite eqb_app_more.
    + apply inside_under.
    + intros Hnil. rewrite Hnil in Hout. discriminate.
Qed.

(** X11. Unpacking an archive none of whose names has a ".." element
    stays inside the destination: every entry is written to the cleaned
    destination or below it, names that start with a separator included,
    and however the unpacking ends, a file outside the destination is not
    changed and no file appears there.  This holds for every destination
    but the root and the working directory. *)
Theorem archive_without_dotdot_stays_inside :
  forall (zip_entries : string -> string + list ZipFile)
         (src dest : string) (w : World) (q : Z) (content : string)
         (files : list ZipFile) (r : Result (option string)) (w' : World),
    filepath.Clean dest <> "/" ->
    filepath.Clean dest <> "." ->
    fs w !! src = Some (File q content) ->
    zip_entries content = inr files ->
    Forall (fun f => no_dotdot (Name f)) files ->
    Scaffold.Unzip zip_entries src dest w = (r, w') ->
    Forall (fun f => inside (filepath.Clean dest) (entry_target dest f) = true)
      files /\
    forall path,
      inside (filepath.Clean dest) path = false ->
      (file_at (fs w) path -> fs w' !! path = fs w !! path) /\
      (file_at (fs w') path -> file_at (fs w) path).
Proof.
  intros zip_entries src dest w q content files r w'
    Hroot Hdot Hsrc Hzip Hnames Hrun.
  assert (Hin : Forall (fun f => inside (filepath.Clean dest)
                                   (entry_target dest f) = true) files).
  { eapply Forall_impl; [exact Hnames|]. intros f Hf.
    apply entry_target_inside; assumption. }
  split; [exact Hin|]. intros path Hout.
  destruct (Unzip_any zip_entries src dest w) as (err & w2 & HU & Hcase).
  rewrite HU in Hrun. injection Hrun as <- <-.
  destruct Hcase as [(q' & content' & files' & Hl & Hz & Hun) | [_ ->]];
    [|split; auto].
  rewrite Hsrc in Hl. injection Hl as <- <-.
  rewrite Hzip in Hz. injection Hz as <-.
  destruct Hun as (_ & _ & _ & _ & Hfiles). apply Hfiles.
  intros Hmem. apply list_elem_of_fmap in Hmem as (f & -> & Hf).
  rewrite Forall_forall in Hin. rewrite (Hin f Hf) in Hout. discriminate.
Qed.

Lemma archive_without_dotdot_stays_inside_witness :
  fs (snd (Example.Unzip "/home/u/proj.zip" "/home/u/proj" Example.zipped))
    !! "/home/u/proj.zip"
  = fs Example.zipped !! "/home/u/proj.zip".
Proof.
  refine (proj1 (proj2 (archive_without_dotdot_stays_inside Example.zip_entries
                   "/home/u/proj.zip" "/home/u/proj" Example.zipped
                   0x1a4 "archive-bytes" Example.archive
                   (fst (Example.Unzip "/home/u/proj.zip" "/home/u/proj"
                           Example.zipped))
                   (snd (Example.Unzip "/home/u/proj.zip" "/home/u/proj"
                           Example.zipped)) _ _ _ _ _ _)
                  "/home/u/proj.zip" _) _).
  - discriminate.
  - discriminate.
  - vm_compute. reflexivity.
  - reflexivity.
  - unfold Example.archive, no_dotdot. simpl. repeat constructor; discriminate.
  - apply surjective_pairing.
  - reflexivity.
  - exists 0x1a4, "archive-bytes". vm_compute. reflexivity.
Defined.

(** ** The modes of what [Unzip] leaves *)

Lemma grown_refl um m : grown um m m.
Proof.
  intros p. destruct (m !! p) as [[q|q c]|] eqn:Hl; eauto.
Qed.

Lemma grown_trans um m1 m2 m3 : grown um m1 m2 -> grown um m2 m3 -> grown um m1 m3.
Proof.
  intros H1 H2 p. specialize (H1 p). specialize (H2 p).
  destruct (m1 !! p) as [[q|q c]|].
  - rewrite H1 in H2. exact H2.
  - destruct H1 as [c' H1]. rewrite H1 in H2. exact H2.
  - destruct H1 as [H1|[H1|(q & c & H1)]]; rewrite H1 in H2.
    + exact H2.
    + right. left. exact H2.
    + right. right. destruct H2 as [c' H2]. eauto.
Qed.

Lemma grown_insert um m k n :
  match m !! k with
  | Some (Dir q) => n = Dir q
  | Some (File q _) => exists c, n = File q c
  | None => n = Dir (os.created_mode um os.ModePerm) \/ exists q c, n = File q c
  end ->
  grown um m (<[k := n]> m).
Proof.
  intros Hn p. destruct (decide (k = p)) as [->|Hne].
  - rewrite lookup_insert_eq. destruct (m !! p) as [[q|q c]|].
    + congruence.
    + destruct Hn as [c' ->]. eauto.
    + destruct Hn as [->|(q & c & ->)]; eauto.
  - rewrite lookup_insert_ne by exact Hne.
    destruct (m !! p) as [[q|q c]|]; eauto.
Qed.

Lemma mkdir_grown um path m m' :
  os.mkdir um path os.ModePerm m = inr m' -> grown um m m'.
Proof.
  intros H. apply mkdir_inr in H as (Hs & ->).
  apply stat_None in Hs as (Hl & _). apply grown_insert. rewrite Hl. left.
  reflexivity.
Qed.

Lemma mkdir_all_grown fuel : forall um path m m',
  os.mkdir_all fuel um path os.ModePerm m = inr m' -> grown um m m'.
Proof.
  induction fuel as [|fuel IH]; intros um path m m'; simpl.
  - destruct (os.stat m path) as [[q|q c]|].
    + intros H. injection H as <-. apply grown_refl.
    + discriminate.
    + apply mkdir_grown.
  - destruct (os.stat m path) as [[q|q c]|].
    + intros H. injection H as <-. apply grown_refl.
    + discriminate.
    + destruct (os.parent path) as [d|]; [|apply mkdir_grown].
      destruct (os.mkdir_all fuel um d os.ModePerm m) as [e|m1] eqn:Hm;
        [discriminate|].
      intros H. eapply grown_trans; [exact (IH _ _ _ _ Hm)|].
      exact (mkdir_grown _ _ _ _ H).
Qed.

Lemma open_trunc_grown um name perm m m' :
  os.open_trunc um name perm m = inr m' -> grown um m m'.
Proof.
  unfold os.open_trunc. destruct (String.eqb name ""); [discriminate|].
  destruct (os.stat m name) as [[q|q c]|] eqn:Hs; [discriminate| |].
  - intros H. injection H as <-. apply grown_insert.
    assert (Hl : m !! name = Some (File q c)).
    { destruct (stat_lookup m name) as [Heq|[_ Heq]]; congruence. }
    rewrite Hl. eauto.
  - destruct (os.parent_ok m name); [discriminate|].
    intros H. injection H as <-. apply grown_insert.
    apply stat_None in Hs as (Hl & _). rewrite Hl. right. eauto.
Qed.

Lemma write_grown um name bytes m : grown um m (os.write name bytes m).
Proof.
  unfold os.write. destruct (m !! name) as [[q|q c]|] eqn:Hl;
    try apply grown_refl.
  apply grown_insert. rewrite Hl. eauto.
Qed.

Lemma growing_refl w : growing w w.
Proof. split; [reflexivity | apply grown_refl]. Qed.

Lemma growing_trans w1 w2 w3 : growing w1 w2 -> growing w2 w3 -> growing w1 w3.
Proof.
  intros [Hu1 H1] [Hu2 H2]. split; [congruence|].
  rewrite Hu1 in H2. eapply grown_trans; eauto.
Qed.

Lemma MkdirAll_growing path :
  always growing (os.MkdirAll path os.ModePerm).
Proof.
  intros w r w'. rewrite MkdirAll_eq. cbn zeta.
  destruct (os.mkdir_all _ _ _ _ _) as [e|m1] eqn:Hm;
    intros H; injection H as <- <-.
  - split; [reflexivity | simpl; apply grown_refl].
  - split; [reflexivity|]. simpl. exact (mkdir_all_grown _ _ _ _ _ Hm).
Qed.

Lemma OpenFile_growing name perm : always growing (os.OpenFile name perm).
Proof.
  intros w r w'. rewrite OpenFile_eq. cbn zeta.
  destruct (os.open_trunc _ _ _ _) as [e|m1] eqn:Ho;
    intros H; injection H as <- <-.
  - split; [reflexivity | simpl; apply grown_refl].
  - split; [reflexivity|]. simpl. exact (open_trunc_grown _ _ _ _ _ Ho).
Qed.

Lemma Write_growing name bytes : always growing (os.Write name bytes).
Proof.
  intros w r w'. rewrite Write_eq. intros H. injection H as <- <-.
  split; [reflexivity|]. simpl. apply write_grown.
Qed.

Lemma growing_bind {A B} (c : Proc A) (k : A -> Proc B) :
  always growing c -> (forall a, always growing (k a)) ->
  always growing (bind c k).
Proof.
  intros Hc Hk. apply (always_bind growing); [|exact Hc|exact Hk].
  intros w1 w2 w3. apply growing_trans.
Qed.

Lemma growing_ret {A} (a : A) : always growing (ret a).
Proof. apply always_ret. intros w. apply growing_refl. Qed.

Lemma extract_entry_growing dest f :
  always growing (Scaffold.extract_entry dest f).
Proof.
  unfold Scaffold.extract_entry.
  assert (Hfile : forall fdir name,
    always growing
      (err <- os.MkdirAll fdir os.ModePerm ;;
       match err with
       | Some e => ret (Some e)
       | None =>
           err0 <- os.OpenFile name (Mode f) ;;
           match err0 with
           | Some e => ret (Some e)
           | None =>
               match Data f with
               | Readable bytes => os.Write name bytes ;;; ret None
               | OpenFails e => ret (Some e)
               | ReadFails partial e => os.Write name partial ;;; ret (Some e)
               end
           end
       end)).
  { intros fdir name.
    apply growing_bind; [apply MkdirAll_growing|].
    intros [e|]; [apply growing_ret|].
    apply growing_bind; [apply OpenFile_growing|].
    intros [e|]; [apply growing_ret|].
    destruct (Data f) as [bytes|e|partial e].
    - apply growing_bind; [apply Write_growing|]. intros _. apply growing_ret.
    - apply growing_ret.
    - apply growing_bind; [apply Write_growing|]. intros _. apply growing_ret. }
  destruct (Data f) as [bytes|e|partial e] eqn:HD.
  - destruct (os.IsDir (Mode f)); [apply MkdirAll_growing|].
    exact (Hfile _ _).
  - apply growing_ret.
  - destruct (os.IsDir (Mode f)); [apply MkdirAll_growing|].
    exact (Hfile _ _).
Qed.

Lemma extract_all_growing dest files :
  always growing (Scaffold.extract_all dest files).
Proof.
  induction files as [|f rest IH]; [apply growing_ret|].
  cbn [Scaffold.extract_all].
  apply growing_bind; [apply extract_entry_growing|].
  intros [e|]; [apply growing_ret | exact IH].
Qed.

(** X12. Whatever the archive records and however the unpacking ends,
    the modes [Unzip] leaves are these: a directory it has made has mode
    0777 less the umask of the process, not the mode of its entry; a
    directory that was there keeps its mode; and a file that was there
    is still a file of the mode it had. *)
Theorem unzip_modes :
  forall (zip_entries : string -> string + list ZipFile)
         (src dest : string) (w : World) (r : Result (option string))
         (w' : World),
    Scaffold.Unzip zip_entries src dest w = (r, w') ->
    (forall path q,
       fs w' !! path = Some (Dir q) ->
       fs w !! path = Some (Dir q) \/
       (fs w !! path = None /\ q = os.created_mode (umask w) os.ModePerm)) /\
    (forall path q c,
       fs w !! path = Some (File q c) ->
       exists c', fs w' !! path = Some (File q c')).
Proof.
  intros zip_entries src dest w r w' H.
  assert (Hg : growing w w').
  { revert H. unfold Scaffold.Unzip, Scaffold.zip_OpenReader.
    generalize w r w'. change (always growing
      (r0 <- (w0 <- get ;;
              match fs w0 !! src with
              | Some (Dir _) => ret (inl ("read " +:+ src +:+ ": is a directory"))
              | Some (File _ content) => ret (zip_entries content)
              | None => ret (inl ("open " +:+ src +:+ ": no such file or directory"))
              end) ;;
       match r0 with
       | inl e => ret (Some e)
       | inr files => Scaffold.extract_all dest files
       end)).
    apply growing_bind.
    - intros w0 r0 w0'. unfold get, bind.
      destruct (fs w0 !! src) as [[q|q content]|];
        intros H; injection H as <- <-; apply growing_refl.
    - intros [e|files]; [apply growing_ret | apply extract_all_growing]. }
  destruct Hg as [_ Hg]. split.
  - intros path q Hq. specialize (Hg path).
    destruct (fs w !! path) as [[q0|q0 c0]|].
    + left. congruence.
    + destruct Hg as [c' Hg]. congruence.
    + right. split; [reflexivity|].
      destruct Hg as [Hg|[Hg|(q1 & c1 & Hg)]]; congruence.
  - intros path q c Hl. specialize (Hg path). rewrite Hl in Hg. exact Hg.
Qed.

Lemma unzip_modes_witness :
  fs Example.zipped !! "/home/u/proj/src" = Some (Dir 0x1ed) \/
  (fs Example.zipped !! "/home/u/proj/src" = None /\
   0x1ed = os.created_mode (umask Example.zipped) os.ModePerm).
Proof.
  refine (proj1 (unzip_modes Example.zip_entries
                   "/home/u/proj.zip" "/home/u/proj" Example.zipped
                   (fst (Example.Unzip "/home/u/proj.zip" "/home/u/proj"
                           Example.zipped))
                   (snd (Example.Unzip "/home/u/proj.zip" "/home/u/proj"
                           Example.zipped)) _)
            "/home/u/proj/src" 0x1ed _).
  - apply surjective_pairing.
  - vm_compute. reflexivity.
Defined.

(** ** An empty project location *)





(** ** The examples of the run *)


Lemma interrupt_stops_the_run_witness :
  (fst (Example.main Example.flags [] Interrupted.world) = Exit 1 \/
   exists m, fst (Example.main Example.flags [] Interrupted.world) = Panic m) /\
  fs_untouched Interrupted.world
    (snd (Example.main Example.flags [] Interrupted.world)) /\
  sent 2 (metadata_request (UrlService (Scaffold.parse_flags Example.flags)))
    Interrupted.world (snd (Example.main Example.flags [] Interrupted.world)).
Proof.
  refine (interrupt_stops_the_run Example.Config string Example.GetBOMMap
            Example.GetSpringBootVersions Example.GetSupportedVersionFor
            Example.GetTemplateNames Example.GetModuleNamesFor
            Example.unmarshal_Config Example.unmarshal_Modules
            Example.zip_entries Example.flags [] Interrupted.world _ _).
  - simpl. lia.
  - simpl. right. left.
Defined.

Lemma requests_go_to_the_service_witness :
  sent 3 (to_service (UrlService (Scaffold.parse_flags Example.flags)))
    (Example.world Example.module_session Example.service)
    (snd (Example.main Example.flags []
            (Example.world Example.module_session Example.service))).
Proof.
  refine (requests_go_to_the_service Example.Config string Example.GetBOMMap
            Example.GetSpringBootVersions Example.GetSupportedVersionFor
            Example.GetTemplateNames Example.GetModuleNamesFor
            Example.unmarshal_Config Example.unmarshal_Modules
            Example.zip_entries Example.flags []
            (Example.world Example.module_session Example.service)
            (fst (Example.main Example.flags []
                    (Example.world Example.module_session Example.service)))
            _ _).
  apply surjective_pairing.
Defined.

Lemma bom_follows_the_version_witness :
  exists body c,
    body_of (net (Example.world Example.module_session Example.service))
      (yaml_url (UrlService (Scaffold.parse_flags Example.flags)) "config")
      body /\
    Example.unmarshal_Config body = inr c /\
    match fst (Example.GetBOMMap c) !! SpringBootVersion Example.two_modules with
    | None => SnowdropBomVersion Example.two_modules = ""
    | Some bom =>
        SnowdropBomVersion Example.two_modules = Snowdrop bom \/
        (Supported bom <> [] /\
         SnowdropBomVersion Example.two_modules
         = Example.GetSupportedVersionFor c
             (SpringBootVersion Example.two_modules))
    end.
Proof.
  refine (bom_follows_the_version _ _ Example.GetBOMMap
            Example.GetSpringBootVersions Example.GetSupportedVersionFor
            Example.GetTemplateNames Example.GetModuleNamesFor
            Example.unmarshal_Config Example.unmarshal_Modules
            (Scaffold.parse_flags Example.flags)
            (Example.world Example.module_session Example.service)
            Example.two_modules "/home/u"
            (snd (Example.collect (Scaffold.parse_flags Example.flags)
                    (Example.world Example.module_session Example.service)))
            _).
  refine (run_pair
            (Example.collect (Scaffold.parse_flags Example.flags)
               (Example.world Example.module_session Example.service)) _ _).
  vm_compute. reflexivity.
Defined.


Lemma query_is_well_delimited_witness :
  count_byte "?" (url.Encode (Scaffold.build_form Example.two_modules)) = 0%nat.
Proof.
  refine (proj2 (proj2 (query_is_well_delimited Example.two_modules))
            "?"%char _ _ _ _ _).
  - reflexivity.
  - discriminate.
  - discriminate.
  - discriminate.
  - discriminate.
Defined.

